(** * Cafe back office: sales, stock and profit reconciliation

    A shallow embedding of [cafe_app.py].  The application is a set of page
    handlers over a relational store; the handlers are embedded as programs
    of a small state-and-exception monad whose state holds the tables, the
    replies the store is going to give, the memo table of the cost
    calculator and what has been written to the page.

    Numbers: sold quantities are Python [int]s and are [Z] here; prices,
    costs, salaries and stock quantities are exact rationals [Q], compared
    with [==].  Timestamps and month keys, which travel as ISO-8601 text,
    are the structured values that text denotes.

    The file has three parts: the embedding of the source, the notions the
    properties are stated with (and a small cafe for the examples), and the
    properties with their proofs. *)

From Stdlib Require Import ZArith QArith Qfield Lia Lqa List Bool String.
From stdpp Require Import base option list gmap.

Set Default Proof Using "Type".
Local Open Scope Z_scope.

(** ** Exceptions and results *)

Inductive exn : Type :=
| StoreError      (* any exception raised by a store call *)
| OverflowError   (* date value out of range *)
| ValueError.     (* day is out of range for month *)

Inductive result (A : Type) : Type :=
| Return (a : A)
| Raise (e : exn).
Arguments Return {A} a.
Arguments Raise {A} e.

Definition result_bind {A B} (r : result A) (k : A -> result B) : result B :=
  match r with
  | Return a => k a
  | Raise e => Raise e
  end.

(** ** Calendar: [datetime.date], [datetime.time], [datetime.datetime] *)

Module Calendar.

Definition MINYEAR : Z := 1.
Definition MAXYEAR : Z := 9999.

Record date : Type := Date { year : Z; month : Z; day : Z }.

Record time : Type :=
  Time { hour : Z; minute : Z; second : Z; microsecond : Z }.

Record datetime : Type := DateTime { dt_date : date; dt_time : time }.

Definition is_leap (y : Z) : bool :=
  (y mod 4 =? 0) && (negb (y mod 100 =? 0) || (y mod 400 =? 0)).

Definition days_in_month (y m : Z) : Z :=
  if m =? 2 then (if is_leap y then 29 else 28)
  else if (m =? 4) || (m =? 6) || (m =? 9) || (m =? 11) then 30
  else 31.

(** The values the [date] constructor accepts. *)
Definition valid_date (d : date) : bool :=
  (MINYEAR <=? year d) && (year d <=? MAXYEAR)
  && (1 <=? month d) && (month d <=? 12)
  && (1 <=? day d) && (day d <=? days_in_month (year d) (month d)).

(** [d.replace(day=k)] builds a new date and validates it. *)
Definition replace_day (d : date) (k : Z) : result date :=
  let d' := Date (year d) (month d) k in
  if valid_date d' then Return d' else Raise ValueError.

(** One day forward; leaving year 9999 is an [OverflowError]. *)
Definition tomorrow (d : date) : result date :=
  if day d <? days_in_month (year d) (month d)
  then Return (Date (year d) (month d) (day d + 1))
  else if month d <? 12
  then Return (Date (year d) (month d + 1) 1)
  else if year d <? MAXYEAR
  then Return (Date (year d + 1) 1 1)
  else Raise OverflowError.

(** One day back; leaving year 1 is an [OverflowError]. *)
Definition yesterday (d : date) : result date :=
  if 1 <? day d
  then Return (Date (year d) (month d) (day d - 1))
  else if 1 <? month d
  then Return (Date (year d) (month d - 1)
                    (days_in_month (year d) (month d - 1)))
  else if MINYEAR <? year d
  then Return (Date (year d - 1) 12 31)
  else Raise OverflowError.

(** [d + Timedelta(days=n)] and [d - Timedelta(days=n)]. *)
Fixpoint add_days (d : date) (n : nat) : result date :=
  match n with
  | O => Return d
  | S n' => result_bind (tomorrow d) (fun d' => add_days d' n')
  end.

Fixpoint sub_days (d : date) (n : nat) : result date :=
  match n with
  | O => Return d
  | S n' => result_bind (yesterday d) (fun d' => sub_days d' n')
  end.

Definition time_min : time := Time 0 0 0 0.
Definition time_max : time := Time 23 59 59 999999.

(** [datetime.combine(d, t)]. *)
Definition combine (d : date) (t : time) : datetime := DateTime d t.

(** Chronological order, as the store compares timestamp columns. *)
Definition lex (c1 c2 : comparison) : comparison :=
  match c1 with Eq => c2 | _ => c1 end.

Definition date_compare (a b : date) : comparison :=
  lex (year a ?= year b) (lex (month a ?= month b) (day a ?= day b)).

Definition time_compare (a b : time) : comparison :=
  lex (hour a ?= hour b)
    (lex (minute a ?= minute b)
       (lex (second a ?= second b) (microsecond a ?= microsecond b))).

Definition datetime_compare (a b : datetime) : comparison :=
  lex (date_compare (dt_date a) (dt_date b))
      (time_compare (dt_time a) (dt_time b)).

Definition datetime_leb (a b : datetime) : bool :=
  match datetime_compare a b with Gt => false | _ => true end.

Definition date_eqb (a b : date) : bool :=
  (year a =? year b) && (month a =? month b) && (day a =? day b).

End Calendar.
Import Calendar.

(** ** Helper functions of the application *)

(** [get_month_range] (lines 41-51): the first and the last instant of the
    selected month, and the first day of that month.  [pd.Timedelta(days=n)]
    added to a [date] moves it by [n] days. *)
Definition get_month_range (selected_date : date)
  : result (datetime * datetime * date) :=
  result_bind (replace_day selected_date 1) (fun start_of_month =>
  result_bind (replace_day start_of_month 28) (fun d28 =>
  result_bind (add_days d28 4) (fun d32 =>
  result_bind (replace_day d32 1) (fun next_month_start =>
  result_bind (sub_days next_month_start 1) (fun end_of_month =>
  Return (combine start_of_month time_min,
          combine end_of_month time_max,
          start_of_month)))))).

(** ** Tables *)

Inductive tracking : Type := UNIT | MULTI_USE | MANUAL.

Record StockItem : Type := {
  si_name : string;
  tracking_type : tracking;
  current_quantity : Q;
  unit_of_measure : string;
  cost_per_unit : Q
}.

Record RecipeLink : Type := {
  rl_id : Z;
  rl_menu_item_id : Z;
  rl_stock_item_id : Z;
  quantity_used : Q
}.

Inductive worker_role : Type := Server | Barista.

Record Worker : Type := {
  w_id : Z;
  w_name : string;
  role : worker_role;
  salary : Q
}.

Record Order : Type := {
  o_id : Z;
  server_id : Z;
  timestamp : datetime
}.

(** The surrogate key of [order_items] is never read by the application and
    is left out of the row. *)
Record OrderItem : Type := {
  order_id : Z;
  oi_menu_item_id : Z;
  quantity : Z;
  price_at_sale : Q;
  cost_at_sale : Q
}.

Record MonthlyExpense : Type := {
  me_month : date;
  description : string;
  amount : Q
}.

(** [stock_items] is keyed by its [id]; the other tables are row lists in
    the order the store returns them. *)
Record Tables : Type := {
  stock_items : gmap Z StockItem;
  menu_item_recipe : list RecipeLink;
  workers : list Worker;
  orders : list Order;
  order_items : list OrderItem;
  monthly_expenses : list MonthlyExpense;
  next_order_id : Z
}.

Definition set_stock_items (f : gmap Z StockItem -> gmap Z StockItem)
    (t : Tables) : Tables :=
  {| stock_items := f (stock_items t);
     menu_item_recipe := menu_item_recipe t;
     workers := workers t;
     orders := orders t;
     order_items := order_items t;
     monthly_expenses := monthly_expenses t;
     next_order_id := next_order_id t |}.

Definition set_menu_item_recipe (f : list RecipeLink -> list RecipeLink)
    (t : Tables) : Tables :=
  {| stock_items := stock_items t;
     menu_item_recipe := f (menu_item_recipe t);
     workers := workers t;
     orders := orders t;
     order_items := order_items t;
     monthly_expenses := monthly_expenses t;
     next_order_id := next_order_id t |}.

Definition set_workers (f : list Worker -> list Worker) (t : Tables) : Tables :=
  {| stock_items := stock_items t;
     menu_item_recipe := menu_item_recipe t;
     workers := f (workers t);
     orders := orders t;
     order_items := order_items t;
     monthly_expenses := monthly_expenses t;
     next_order_id := next_order_id t |}.

Definition set_orders (f : list Order -> list Order) (t : Tables) : Tables :=
  {| stock_items := stock_items t;
     menu_item_recipe := menu_item_recipe t;
     workers := workers t;
     orders := f (orders t);
     order_items := order_items t;
     monthly_expenses := monthly_expenses t;
     next_order_id := next_order_id t |}.

Definition set_order_items (f : list OrderItem -> list OrderItem)
    (t : Tables) : Tables :=
  {| stock_items := stock_items t;
     menu_item_recipe := menu_item_recipe t;
     workers := workers t;
     orders := orders t;
     order_items := f (order_items t);
     monthly_expenses := monthly_expenses t;
     next_order_id := next_order_id t |}.

Definition set_next_order_id (n : Z) (t : Tables) : Tables :=
  {| stock_items := stock_items t;
     menu_item_recipe := menu_item_recipe t;
     workers := workers t;
     orders := orders t;
     order_items := order_items t;
     monthly_expenses := monthly_expenses t;
     next_order_id := n |}.

(** ** Page output *)

Inductive text : Type :=
| error_calculating_item_cost (e : exn)
| failed_to_create_daily_order
| error_processing_sales (e : exn)
| successfully_recorded_sales (server_name : string) (d : date) (total : Q)
| stock_has_been_updated
| error_processing_the_sales
| please_select_server_date_item
| cannot_delete_stock_item (name : string) (recipes : nat)
| deleted (name : string)
| error_deleting_item (e : exn)
| cannot_delete_worker (name : string) (linked_orders : nat)
| error_deleting (e : exn)
| deleted_order (order_time : datetime)
| error_deleting_order (e : exn)
| error_generating_monthly_report (e : exn)
| error_loading_recipe_data (e : exn).

Inductive notice : Type :=
| st_error_box (t : text)
| st_success_box (t : text)
| st_info_box (t : text)
| st_warning_box (t : text).

(** ** The world a handler runs in *)

(** What the store does with the next request: it answers, it raises, or it
    returns normally with a response that carries no rows (in which case a
    write request has not been carried out). *)
Inductive reply : Type := Answer | Throws | NoRows.

(** The requests the embedded handlers send, by table and operation. *)
Inductive endpoint : Type :=
| orders_insert
| order_items_insert
| recipe_costs_select      (* the lookup of the cost calculator *)
| recipe_select
| decrement_stock_rpc
| recipe_usage_select
| recipe_delete
| stock_items_delete
| orders_select
| workers_delete
| orders_delete
| sales_select
| workers_select
| monthly_expenses_select.

Definition reply_eqb (a b : reply) : bool :=
  match a, b with
  | Answer, Answer | Throws, Throws | NoRows, NoRows => true
  | _, _ => false
  end.

(** A memoised result of the cost calculator: the value, the page elements
    the computation produced (replayed on a hit) and when it was stored. *)
Record cache_entry : Type := {
  ce_value : Q;
  ce_elements : list notice;
  ce_stored : Z
}.

Record World : Type := {
  db : Tables;
  script : list reply;      (* reply to the n-th request; [Answer] beyond *)
  calls : nat;              (* requests executed so far *)
  journal : list (endpoint * reply);   (* what was requested and replied *)
  cost_cache : gmap Z cache_entry;
  now : Z;                  (* clock, in seconds *)
  page : list notice
}.

Definition set_db (t : Tables) (w : World) : World :=
  {| db := t; script := script w; calls := calls w;
     journal := journal w; cost_cache := cost_cache w; now := now w;
     page := page w |}.

(** One more request executed: the counter moves and the journal grows. *)
Definition record_call (ep : endpoint) (r : reply) (w : World) : World :=
  {| db := db w; script := script w; calls := S (calls w);
     journal := journal w ++ [(ep, r)];
     cost_cache := cost_cache w; now := now w; page := page w |}.

Definition set_cost_cache (c : gmap Z cache_entry) (w : World) : World :=
  {| db := db w; script := script w; calls := calls w;
     journal := journal w; cost_cache := c; now := now w;
     page := page w |}.

Definition set_page (p : list notice) (w : World) : World :=
  {| db := db w; script := script w; calls := calls w;
     journal := journal w; cost_cache := cost_cache w; now := now w;
     page := p |}.

(** ** The monad of handlers: state, and exceptions that keep the state *)

Definition M (A : Type) : Type := World -> result A * World.

#[global] Instance M_ret : MRet M := fun A a w => (Return a, w).

#[global] Instance M_bind : MBind M := fun A B k m w =>
  match m w with
  | (Return a, w') => k a w'
  | (Raise e, w') => (Raise e, w')
  end.

(** [try: body except Exception as e: handler e]. *)
Definition try_except {A} (body : M A) (handler : exn -> M A) : M A :=
  fun w =>
    match body w with
    | (Return a, w') => (Return a, w')
    | (Raise e, w') => handler e w'
    end.

(** A pure computation that may raise, run inside a handler. *)
Definition lift_result {A} (r : result A) : M A := fun w => (r, w).

Definition show (n : notice) : M unit :=
  fun w => (Return tt, set_page (page w ++ [n]) w).

Definition st_error (t : text) : M unit := show (st_error_box t).
Definition st_success (t : text) : M unit := show (st_success_box t).
Definition st_info (t : text) : M unit := show (st_info_box t).
Definition st_warning (t : text) : M unit := show (st_warning_box t).

(** [st.rerun()] ends the handler; it is the last statement wherever the
    embedded handlers call it. *)
Definition st_rerun : M unit := mret tt.

(** The reply the store gives to the next request. *)
Definition reply_at (w : World) : reply := nth (calls w) (script w) Answer.

(** [request.execute()]: [request] is what the store does when it answers,
    [no_rows] the response that carries no rows. *)
Definition execute {A} (ep : endpoint) (no_rows : A)
    (request : Tables -> A * Tables) : M A :=
  fun w =>
    let w1 := record_call ep (reply_at w) w in
    match reply_at w with
    | Answer => let '(a, t) := request (db w) in (Return a, set_db t w1)
    | NoRows => (Return no_rows, w1)
    | Throws => (Raise StoreError, w1)
    end.

(** A read-only request. *)
Definition query {A} (ep : endpoint) (select : Tables -> list A)
  : M (list A) :=
  execute ep [] (fun t => (select t, t)).

(** [@st.cache_data(ttl=...)]: a stored result is returned, and its page
    elements replayed, while the entry is younger than [ttl] seconds;
    otherwise the function runs and its result is stored.  A call that
    raises stores nothing. *)
Definition cache_data (ttl : Z) (key : Z) (body : M Q) : M Q :=
  fun w =>
    let miss :=
      match body (set_page [] w) with
      | (Return v, w') =>
          (Return v,
           set_page (page w ++ page w')
             (set_cost_cache
                (<[key := {| ce_value := v; ce_elements := page w';
                             ce_stored := now w |}]> (cost_cache w')) w'))
      | (Raise e, w') => (Raise e, set_page (page w ++ page w') w')
      end in
    match cost_cache w !! key with
    | Some entry =>
        if now w <? ce_stored entry + ttl
        then (Return (ce_value entry),
              set_page (page w ++ ce_elements entry) w)
        else miss
    | None => miss
    end.

(** ** Requests the application sends to the store *)

Local Open Scope Q_scope.

(** A row of [select('quantity_used, stock_items(cost_per_unit)')]: the
    joined stock item is absent when the link points at no row. *)
Record recipe_cost_row : Type := {
  rc_quantity_used : Q;
  rc_stock_items : option Q
}.

Definition recipe_of (menu_item_id : Z) (t : Tables) : list RecipeLink :=
  filter (fun l => rl_menu_item_id l = menu_item_id) (menu_item_recipe t).

Definition select_recipe_costs (menu_item_id : Z) (t : Tables)
  : list recipe_cost_row :=
  map (fun l =>
         {| rc_quantity_used := quantity_used l;
            rc_stock_items :=
              cost_per_unit <$> (stock_items t !! rl_stock_item_id l) |})
      (recipe_of menu_item_id t).

(** [select('stock_item_id, quantity_used')] of a menu item's recipe. *)
Definition select_recipe_links (menu_item_id : Z) (t : Tables)
  : list (Z * Q) :=
  map (fun l => (rl_stock_item_id l, quantity_used l))
      (recipe_of menu_item_id t).

(** [insert] into [orders]; the store generates the id and returns the row. *)
Definition insert_order (server_id : Z) (ts : datetime) (t : Tables)
  : list Order * Tables :=
  let row := {| o_id := next_order_id t; server_id := server_id;
                timestamp := ts |} in
  ([row],
   set_next_order_id (next_order_id t + 1)%Z
     (set_orders (fun rows => rows ++ [row]) t)).

Definition insert_order_item (row : OrderItem) (t : Tables)
  : list OrderItem * Tables :=
  ([row], set_order_items (fun rows => rows ++ [row]) t).

(** Modelled from the spec: the stored procedure [decrement_stock], which the
    application calls through [db.rpc] and whose body is not part of the
    source file.  Section 4.3: it reduces [current_quantity] by the amount,
    does not stop at zero, and never touches a [MANUAL] item: only [UNIT] and
    [MULTI-USE] items are decremented. *)
Definition consume (amount : Q) (item : StockItem) : StockItem :=
  match tracking_type item with
  | MANUAL => item
  | UNIT | MULTI_USE =>
      {| si_name := si_name item;
         tracking_type := tracking_type item;
         current_quantity := current_quantity item - amount;
         unit_of_measure := unit_of_measure item;
         cost_per_unit := cost_per_unit item |}
  end.

Definition decrement_stock (item_id : Z) (amount_to_reduce : Q) (t : Tables)
  : unit * Tables :=
  (tt, set_stock_items (alter (consume amount_to_reduce) item_id) t).

(** [select('id')] of the recipe links that use a stock item. *)
Definition select_recipes_using (stock_item_id : Z) (t : Tables) : list Z :=
  map rl_id
      (filter (fun l => rl_stock_item_id l = stock_item_id)
              (menu_item_recipe t)).

(** [delete] of one recipe link, by its id. *)
Definition delete_recipe_link (id : Z) (t : Tables) : unit * Tables :=
  (tt, set_menu_item_recipe (filter (fun l => rl_id l <> id)) t).

Definition delete_stock_item (item_id : Z) (t : Tables) : unit * Tables :=
  (tt, set_stock_items (delete item_id) t).

(** [select('id')] of the orders of a worker. *)
Definition select_orders_of (worker_id : Z) (t : Tables) : list Z :=
  map o_id (filter (fun o => server_id o = worker_id) (orders t)).

Definition delete_worker (worker_id : Z) (t : Tables) : unit * Tables :=
  (tt, set_workers (filter (fun w => w_id w <> worker_id)) t).

(** Modelled from the spec: the declaration of [order_items], which is not
    part of the source file.  Section 3: deleting an order cascades to its
    order items (the handler's comment relies on it). *)
Definition cascade_order_items (id : Z) (rows : list OrderItem)
  : list OrderItem :=
  filter (fun i => order_id i <> id) rows.

Definition delete_order (id : Z) (t : Tables) : unit * Tables :=
  (tt,
   set_order_items (cascade_order_items id)
     (set_orders (filter (fun o => o_id o <> id)) t)).

(** [order_items] joined with their order ([orders!inner]) and filtered on
    the order's timestamp with [gte] and [lte]. *)
Definition parent_in_window (start stop : datetime) (t : Tables)
    (i : OrderItem) : bool :=
  existsb (fun o => (o_id o =? order_id i)%Z
                    && datetime_leb start (timestamp o)
                    && datetime_leb (timestamp o) stop)
          (orders t).

Definition select_sales (start stop : datetime) (t : Tables)
  : list OrderItem :=
  filter (fun i => parent_in_window start stop t i = true) (order_items t).

Definition select_salaries (t : Tables) : list Q := map salary (workers t).

(** [select('amount').eq('month', first_day.isoformat())]. *)
Definition select_expenses (first_day : date) (t : Tables) : list Q :=
  map amount
      (filter (fun e => date_eqb (me_month e) first_day = true)
              (monthly_expenses t)).

(** ** The back end *)

(** Python's [sum] over a generator: a left fold from 0. *)
Definition py_sum (xs : list Q) : Q := fold_left Qplus xs 0.

(** The loop of [calculate_menu_item_cost] over the fetched rows. *)
Fixpoint add_ingredient_costs (rows : list recipe_cost_row) (total_cost : Q)
  : Q :=
  match rows with
  | [] => total_cost
  | ingredient :: rest =>
      match rc_stock_items ingredient with
      | Some cost =>
          add_ingredient_costs rest
            (total_cost + rc_quantity_used ingredient * cost)
      | None => add_ingredient_costs rest total_cost
      end
  end.

(** The body of [calculate_menu_item_cost] (lines 54-72), under its
    decorator. *)
Definition calculate_menu_item_cost_body (menu_item_id : Z) : M Q :=
  try_except
    (recipe_response ←
       query recipe_costs_select (select_recipe_costs menu_item_id);
     match recipe_response with
     | [] => mret 0
     | _ :: _ => mret (add_ingredient_costs recipe_response 0)
     end)
    (fun e => _ ← st_error (error_calculating_item_cost e); mret 0).

(** [calculate_menu_item_cost] as callers see it, with
    [@st.cache_data(ttl=60)] (line 53). *)
Definition calculate_menu_item_cost (menu_item_id : Z) : M Q :=
  cache_data 60 menu_item_id (calculate_menu_item_cost_body menu_item_id).

(** A value of [sales_dict]. *)
Record sale_details : Type := {
  sd_quantity : Z;
  sale_price : Q
}.

(** The inner loop of [process_daily_sales] (lines 124-131): one
    [decrement_stock] call per ingredient of the recipe. *)
Fixpoint decrement_ingredients (sold : Z) (recipe : list (Z * Q)) : M unit :=
  match recipe with
  | [] => mret tt
  | (stock_item_id, used) :: rest =>
      let total_amount_to_reduce := used * inject_Z sold in
      _ ← execute decrement_stock_rpc tt
            (decrement_stock stock_item_id total_amount_to_reduce);
      decrement_ingredients sold rest
  end.

(** The outer loop of [process_daily_sales] (lines 98-131) over
    [sales_dict.items()], in the order of the dictionary. *)
Fixpoint sell_items (order : Z) (items : list (Z * sale_details))
    (total_revenue : Q) : M Q :=
  match items with
  | [] => mret total_revenue
  | (item_id, details) :: rest =>
      if (sd_quantity details =? 0)%Z
      then sell_items order rest total_revenue
      else
        cost_at_sale_per_item ← calculate_menu_item_cost item_id;
        _ ← execute order_items_insert []
              (insert_order_item
                 {| order_id := order;
                    oi_menu_item_id := item_id;
                    quantity := sd_quantity details;
                    price_at_sale := sale_price details;
                    cost_at_sale := cost_at_sale_per_item |});
        let total_revenue :=
          total_revenue + sale_price details * inject_Z (sd_quantity details) in
        recipe_response ← query recipe_select (select_recipe_links item_id);
        _ ← decrement_ingredients (sd_quantity details) recipe_response;
        sell_items order rest total_revenue
  end.

Definition noon : time := Time 12 0 0 0.

(** [process_daily_sales] (lines 74-136). *)
Definition process_daily_sales (server_id : Z)
    (sales_dict : list (Z * sale_details)) (sales_date : date) : M Q :=
  try_except
    (let sales_timestamp := combine sales_date noon in
     order_response ← execute orders_insert []
                         (insert_order server_id sales_timestamp);
     match order_response with
     | [] => _ ← st_error failed_to_create_daily_order; mret 0
     | order :: _ => sell_items (o_id order) sales_dict 0
     end)
    (fun e => _ ← st_error (error_processing_sales e); mret 0).

(** ** The front end: the handlers behind the buttons *)

Definition Qlt_bool (a b : Q) : bool := negb (Qle_bool b a).

(** [render_daily_sales], the branch taken when the form is submitted
    (lines 246-255).  The selected server and the date are always set; the
    test that remains is the one on [sales_dict]. *)
Definition render_daily_sales_submit (selected_server : Worker)
    (sales_dict : list (Z * sale_details)) (selected_date : date) : M unit :=
  match sales_dict with
  | _ :: _ =>
      total_revenue ←
        process_daily_sales (w_id selected_server) sales_dict selected_date;
      if Qlt_bool 0 total_revenue
      then
        _ ← st_success (successfully_recorded_sales (w_name selected_server)
                          selected_date total_revenue);
        st_info stock_has_been_updated
      else st_error error_processing_the_sales
  | [] => st_warning please_select_server_date_item
  end.

(** [render_stock_management], button "Delete This Item" of a listed item
    (lines 294-305). *)
Definition render_stock_management_delete (item_id : Z) (item : StockItem)
  : M unit :=
  try_except
    (recipe_links ← query recipe_usage_select (select_recipes_using item_id);
     match recipe_links with
     | _ :: _ =>
         st_error (cannot_delete_stock_item (si_name item)
                     (length recipe_links))
     | [] =>
         _ ← execute stock_items_delete tt (delete_stock_item item_id);
         _ ← st_success (deleted (si_name item));
         st_rerun
     end)
    (fun e => st_error (error_deleting_item e)).

(** [render_menu_management], button "Remove" of a listed ingredient
    (lines 489-491, inside the [try] of line 437). *)
Definition render_menu_management_remove (recipe_link_id : Z) : M unit :=
  try_except
    (_ ← execute recipe_delete tt (delete_recipe_link recipe_link_id);
     st_rerun)
    (fun e => st_error (error_loading_recipe_data e)).

(** [render_staff_and_expenses], button "Delete Worker" of a listed worker
    (lines 531-542). *)
Definition render_staff_delete_worker (worker : Worker) : M unit :=
  try_except
    (linked ← query orders_select (select_orders_of (w_id worker));
     match linked with
     | _ :: _ =>
         st_error (cannot_delete_worker (w_name worker) (length linked))
     | [] =>
         _ ← execute workers_delete tt (delete_worker (w_id worker));
         _ ← st_success (deleted (w_name worker));
         st_rerun
     end)
    (fun e => st_error (error_deleting e)).

(** [render_manage_orders], button "Delete This Entire Order"
    (lines 713-720). *)
Definition render_manage_orders_delete (order : Order) : M unit :=
  try_except
    (_ ← execute orders_delete tt (delete_order (o_id order));
     _ ← st_success (deleted_order (timestamp order));
     st_rerun)
    (fun e => st_error (error_deleting_order e)).

(** The figures of the monthly profit report. *)
Record profit_report : Type := {
  total_revenue : Q;
  total_cogs : Q;
  gross_profit : Q;
  total_salaries : Q;
  total_expenses : Q;
  total_costs_operating : Q;
  net_profit : Q
}.

(** [render_reports], report type "Monthly" (lines 609-660): the figures it
    puts on the page, or nothing when the store failed.  [get_month_range] is
    called outside the [try]. *)
Definition render_reports_monthly (selected_month_date : date)
  : M (option profit_report) :=
  range ← lift_result (get_month_range selected_month_date);
  let '(start_month_iso, end_month_iso, month_start_date) := range in
  try_except
    (sales_data ←
       query sales_select (select_sales start_month_iso end_month_iso);
     let total_revenue :=
       py_sum (map (fun item => price_at_sale item * inject_Z (quantity item))
                   sales_data) in
     let total_cogs :=
       py_sum (map (fun item => cost_at_sale item * inject_Z (quantity item))
                   sales_data) in
     let gross_profit := total_revenue - total_cogs in
     salary_data ← query workers_select select_salaries;
     let total_salaries := py_sum salary_data in
     expense_data ←
       query monthly_expenses_select (select_expenses month_start_date);
     let total_expenses := py_sum expense_data in
     let total_costs_operating := total_salaries + total_expenses in
     let net_profit := gross_profit - total_costs_operating in
     mret (Some {| total_revenue := total_revenue;
                   total_cogs := total_cogs;
                   gross_profit := gross_profit;
                   total_salaries := total_salaries;
                   total_expenses := total_expenses;
                   total_costs_operating := total_costs_operating;
                   net_profit := net_profit |}))
    (fun e => _ ← st_error (error_generating_monthly_report e); mret None).

(** ** More of the source: the day window, the daily report, the sales form *)

(** The values the [time] constructor accepts. *)
Definition valid_time (t : time) : bool :=
  (0 <=? hour t)%Z && (hour t <=? 23)%Z
  && (0 <=? minute t)%Z && (minute t <=? 59)%Z
  && (0 <=? second t)%Z && (second t <=? 59)%Z
  && (0 <=? microsecond t)%Z && (microsecond t <=? 999999)%Z.

(** [get_today_range] (lines 34-39): the first and the last instant of the
    selected date, or of today when no date is given.  [today] is what
    [date.today()] returns. *)
Definition get_today_range (today : date) (selected_date : option date)
  : datetime * datetime :=
  let today :=
    match selected_date with Some d => d | None => today end in
  let start_of_day := combine today time_min in
  let end_of_day := combine today time_max in
  (start_of_day, end_of_day).

(** A timestamp between two others, both included: the filter
    [gte(start).lte(stop)] on a timestamp column. *)
Definition in_window (start stop ts : datetime) : bool :=
  datetime_leb start ts && datetime_leb ts stop.

(** The figures of the daily profit report. *)
Record daily_report : Type := {
  day_revenue : Q;
  day_cogs : Q;
  day_gross_profit : Q
}.

(** [render_reports], report type "Daily" (lines 590-607): the figures it
    puts on the page.  The date input always holds a date.  Nothing here is
    inside a [try]. *)
Definition render_reports_daily (today selected_date : date)
  : M daily_report :=
  let '(start_day, end_day) := get_today_range today (Some selected_date) in
  sales_data ← query sales_select (select_sales start_day end_day);
  let total_revenue :=
    py_sum (map (fun item => price_at_sale item * inject_Z (quantity item))
                sales_data) in
  let total_cogs :=
    py_sum (map (fun item => cost_at_sale item * inject_Z (quantity item))
                sales_data) in
  let gross_profit := total_revenue - total_cogs in
  mret {| day_revenue := total_revenue;
          day_cogs := total_cogs;
          day_gross_profit := gross_profit |}.

(** A row of [menu_items], as [render_daily_sales] fetches it. *)
Record MenuItem : Type := {
  mi_id : Z;
  mi_name : string;
  mi_sale_price : Q
}.

(** [d[key] = value] on a dictionary kept in insertion order: the value of a
    key that is there is replaced in place, a new key goes to the end. *)
Fixpoint dict_set {V} (key : Z) (value : V) (d : list (Z * V))
  : list (Z * V) :=
  match d with
  | [] => [(key, value)]
  | (k, v) :: rest =>
      if (k =? key)%Z then (key, value) :: rest
      else (k, v) :: dict_set key value rest
  end.

(** [render_daily_sales], the loop that fills [sales_dict] from the number
    inputs of the form (lines 225-243).  [quantity_input] gives the value of
    the input keyed by a menu item's id. *)
Fixpoint fill_sales_dict (menu_items : list MenuItem)
    (quantity_input : Z -> Z) (sales_dict : list (Z * sale_details))
  : list (Z * sale_details) :=
  match menu_items with
  | [] => sales_dict
  | item :: rest =>
      let quantity := quantity_input (mi_id item) in
      if (0 <? quantity)%Z
      then fill_sales_dict rest quantity_input
             (dict_set (mi_id item)
                {| sd_quantity := quantity;
                   sale_price := mi_sale_price item |}
                sales_dict)
      else fill_sales_dict rest quantity_input sales_dict
  end.

(** [render_daily_sales] once the servers and the menu items are fetched and
    the form is submitted (lines 225-255).  The [try] around the page has
    nothing to catch here: the batch processor always returns. *)
Definition render_daily_sales_form (menu_items : list MenuItem)
    (selected_server : Worker) (selected_date : date)
    (quantity_input : Z -> Z) : M unit :=
  let sales_dict := fill_sales_dict menu_items quantity_input [] in
  render_daily_sales_submit selected_server sales_dict selected_date.

(** The same world, [seconds] later. *)
Definition later (seconds : Z) (w : World) : World :=
  {| db := db w; script := script w; calls := calls w;
     journal := journal w; cost_cache := cost_cache w;
     now := (now w + seconds)%Z; page := page w |}.

(** ** More of the source: the dashboard, the order totals, logging in *)

(** [render_monthly_dashboard] (lines 140-191): the figures of the month of
    [today], which is what [date.today()] returns, or nothing when the store
    failed.  [get_month_range] is called outside the [try]. *)
Definition render_monthly_dashboard (today : date)
  : M (option profit_report) :=
  let selected_month_date := today in
  range ← lift_result (get_month_range selected_month_date);
  let '(start_month_iso, end_month_iso, month_start_date) := range in
  try_except
    (sales_data ←
       query sales_select (select_sales start_month_iso end_month_iso);
     let total_revenue :=
       py_sum (map (fun item => price_at_sale item * inject_Z (quantity item))
                   sales_data) in
     let total_cogs :=
       py_sum (map (fun item => cost_at_sale item * inject_Z (quantity item))
                   sales_data) in
     let gross_profit := total_revenue - total_cogs in
     salary_data ← query workers_select select_salaries;
     let total_salaries := py_sum salary_data in
     expense_data ←
       query monthly_expenses_select (select_expenses month_start_date);
     let total_expenses := py_sum expense_data in
     let total_costs_operating := total_salaries + total_expenses in
     let net_profit := gross_profit - total_costs_operating in
     mret (Some {| total_revenue := total_revenue;
                   total_cogs := total_cogs;
                   gross_profit := gross_profit;
                   total_salaries := total_salaries;
                   total_expenses := total_expenses;
                   total_costs_operating := total_costs_operating;
                   net_profit := net_profit |}))
    (fun e => _ ← st_error (error_generating_monthly_report e); mret None).

(** A row of [select('quantity, price_at_sale, cost_at_sale,
    menu_items(name)')], as [render_manage_orders] fetches the items of an
    order; [menu_items] is absent when the row points at no menu item. *)
Record OrderItemRow : Type := {
  oir_quantity : Z;
  oir_price_at_sale : Q;
  oir_cost_at_sale : Q;
  oir_menu_items : option string
}.

(** A line of the table of an order: item, quantity, unit price, total
    revenue and total cost. *)
Record order_table_line : Type := {
  otl_item : string;
  otl_quantity : Z;
  otl_unit_price : Q;
  otl_total_revenue : Q;
  otl_total_cost : Q
}.

(** The loop of [render_manage_orders] over the items of one order (lines
    688-708), from the table and the totals so far. *)
Fixpoint order_totals (items : list OrderItemRow)
    (item_data : list order_table_line) (total_revenue total_cost : Q)
  : list order_table_line * Q * Q :=
  match items with
  | [] => (item_data, total_revenue, total_cost)
  | item :: rest =>
      match oir_menu_items item with
      | Some item_name =>
          let revenue :=
            inject_Z (oir_quantity item) * oir_price_at_sale item in
          let cost := inject_Z (oir_quantity item) * oir_cost_at_sale item in
          order_totals rest
            (item_data ++ [{| otl_item := item_name;
                              otl_quantity := oir_quantity item;
                              otl_unit_price := oir_price_at_sale item;
                              otl_total_revenue := revenue;
                              otl_total_cost := cost |}])
            (total_revenue + revenue) (total_cost + cost)
      | None => order_totals rest item_data total_revenue total_cost
      end
  end.

(** *** Logging in (lines 727-734 and 758-792) *)

(** [st.secrets], as far as the login page reads it. *)
Record Secrets : Type := {
  APP_USERNAME : option string;
  APP_PASSWORD : option string
}.

(** What the user did on the page that was on the screen. *)
Inductive interaction : Type :=
| nothing
| press_logout
| submit_login (username password : string).

Inductive screen : Type :=
| main_app_screen
| login_screen (invalid_username_or_password : bool)
| credentials_not_found.     (* the two messages, then [st.stop()] *)

(** How a run of the script ends: with a screen, or with [st.rerun()]. *)
Inductive outcome : Type :=
| Shown (s : screen)
| Rerun.

(** [main_app], as far as logging out goes: the button is there only when
    the main application is rendered. *)
Definition main_app (i : interaction) (logged_in : bool) : bool * outcome :=
  match i with
  | press_logout => (false, Rerun)
  | _ => (logged_in, Shown main_app_screen)
  end.

(** [show_login_page] (lines 758-781). *)
Definition show_login_page (secrets : Secrets) (i : interaction)
    (logged_in : bool) : bool * outcome :=
  match APP_USERNAME secrets, APP_PASSWORD secrets with
  | Some app_username, Some app_password =>
      match i with
      | submit_login username password =>
          if String.eqb username app_username
             && String.eqb password app_password
          then (true, Rerun)
          else (logged_in, Shown (login_screen true))
      | _ => (logged_in, Shown (login_screen false))
      end
  | _, _ => (logged_in, Shown credentials_not_found)
  end.

(** The control flow at the end of the script (lines 783-792);
    [session_state] is [None] while it has no key [logged_in]. *)
Definition control_flow (secrets : Secrets) (session_state : option bool)
    (i : interaction) : bool * outcome :=
  let logged_in :=
    match session_state with Some b => b | None => false end in
  if logged_in then main_app i logged_in
  else show_login_page secrets i logged_in.

(** The script is run, and run again while it ends with [st.rerun()], at
    most [reruns] times; on a rerun no widget is pressed. *)
Fixpoint serve (reruns : nat) (secrets : Secrets) (session_state : option bool)
    (i : interaction) : option (bool * screen) :=
  match control_flow secrets session_state i with
  | (logged_in, Shown s) => Some (logged_in, s)
  | (logged_in, Rerun) =>
      match reruns with
      | O => None
      | S n => serve n secrets (Some logged_in) nothing
      end
  end.

(** A session: the first load of the page, then the interactions one after
    the other, each served with at most one rerun.  The result is the
    session state and the screen at the end. *)
Fixpoint browse (secrets : Secrets) (session_state : option bool)
    (s : screen) (interactions : list interaction)
  : option (option bool * screen) :=
  match interactions with
  | [] => Some (session_state, s)
  | i :: rest =>
      match serve 1 secrets session_state i with
      | Some (logged_in, s') => browse secrets (Some logged_in) s' rest
      | None => None
      end
  end.

Definition session (secrets : Secrets) (interactions : list interaction)
  : option (option bool * screen) :=
  match serve 1 secrets None nothing with
  | Some (logged_in, s) => browse secrets (Some logged_in) s interactions
  | None => None
  end.

(** The interaction is a login with the credentials of the secrets. *)
Definition right_login (secrets : Secrets) (i : interaction) : Prop :=
  match i with
  | submit_login username password =>
      APP_USERNAME secrets = Some username
      /\ APP_PASSWORD secrets = Some password
  | _ => False
  end.

(** After a right login with no logout since. *)
Definition logged_in_by (secrets : Secrets) (interactions : list interaction)
  : Prop :=
  exists before i after,
    interactions = before ++ i :: after
    /\ right_login secrets i
    /\ press_logout ∉ after.


(** ** The back office: restocking, recipes, staff and expenses

    The handlers of this part send requests and show messages of their own.
    They run over an [Office]: the world of the handlers above and, beside
    it, the table [menu_items], which the handlers above are given the rows
    of, and the requests and the messages of these pages. *)

(** The requests of the back office, by table and operation. *)
Inductive office_endpoint : Type :=
| stock_items_select
| stock_items_update
| menu_item_recipe_insert
| workers_insert
| monthly_expenses_insert
| menu_items_insert
| menu_item_recipe_delete
| menu_items_delete.

Inductive office_text : Type :=
| failed_to_load_stock (e : exn)
| no_stock_items_found
| no_stock_items_to_restock
| restocked (name : string) (new_quantity : Q)
| marked_as_restocked (name : string)
| error_restocking (e : exn)
| added_to_recipe (quantity_used : Q) (unit stock_name menu_name : string)
| error_adding_to_recipe (e : exn)
| added_worker (name : string)
| error_adding_worker (e : exn)
| added_expense (description : string)
| error_adding_expense (e : exn)
| added_to_menu (name : string)
| error_adding_menu_item (e : exn)
| deleted_menu_item (name : string)
| error_deleting_menu_item (e : exn).

Inductive office_notice : Type :=
| office_error_box (t : office_text)
| office_success_box (t : office_text)
| office_warning_box (t : office_text).

Record Office : Type := {
  world : World;
  menu_items : list MenuItem;     (* the table [menu_items] *)
  office_journal : list (office_endpoint * reply);
  office_page : list office_notice
}.

Definition set_world (w : World) (o : Office) : Office :=
  {| world := w; menu_items := menu_items o;
     office_journal := office_journal o; office_page := office_page o |}.

(** One more request executed, of the back office: the counter of the world
    moves, the journal of the office grows. *)
Definition count_call (w : World) : World :=
  {| db := db w; script := script w; calls := S (calls w);
     journal := journal w; cost_cache := cost_cache w; now := now w;
     page := page w |}.

Definition record_office_call (ep : office_endpoint) (r : reply) (o : Office)
  : Office :=
  {| world := count_call (world o);
     menu_items := menu_items o;
     office_journal := office_journal o ++ [(ep, r)];
     office_page := office_page o |}.

Definition Back (A : Type) : Type := Office -> result A * Office.

#[global] Instance Back_ret : MRet Back := fun A a o => (Return a, o).

#[global] Instance Back_bind : MBind Back := fun A B k m o =>
  match m o with
  | (Return a, o') => k a o'
  | (Raise e, o') => (Raise e, o')
  end.

Definition back_try {A} (body : Back A) (handler : exn -> Back A) : Back A :=
  fun o =>
    match body o with
    | (Return a, o') => (Return a, o')
    | (Raise e, o') => handler e o'
    end.

Definition office_show (n : office_notice) : Back unit :=
  fun o =>
    (Return tt,
     {| world := world o; menu_items := menu_items o;
        office_journal := office_journal o;
        office_page := office_page o ++ [n] |}).

Definition office_error (t : office_text) : Back unit :=
  office_show (office_error_box t).
Definition office_success (t : office_text) : Back unit :=
  office_show (office_success_box t).
Definition office_warning (t : office_text) : Back unit :=
  office_show (office_warning_box t).

(** [st.rerun()], the last statement wherever these handlers call it. *)
Definition office_rerun : Back unit := mret tt.

(** [request.execute()], as [execute] above. *)
Definition back_execute {A} (ep : office_endpoint) (no_rows : A)
    (request : Tables -> A * Tables) : Back A :=
  fun o =>
    let o1 := record_office_call ep (reply_at (world o)) o in
    match reply_at (world o) with
    | Answer =>
        let '(a, t) := request (db (world o)) in
        (Return a, set_world (set_db t (world o1)) o1)
    | NoRows => (Return no_rows, o1)
    | Throws => (Raise StoreError, o1)
    end.

(** The same for a request on [menu_items]. *)
Definition set_menu_items (rows : list MenuItem) (o : Office) : Office :=
  {| world := world o; menu_items := rows;
     office_journal := office_journal o; office_page := office_page o |}.

Definition menu_execute {A} (ep : office_endpoint) (no_rows : A)
    (request : list MenuItem -> A * list MenuItem) : Back A :=
  fun o =>
    let o1 := record_office_call ep (reply_at (world o)) o in
    match reply_at (world o) with
    | Answer =>
        let '(a, rows) := request (menu_items o) in
        (Return a, set_menu_items rows o1)
    | NoRows => (Return no_rows, o1)
    | Throws => (Raise StoreError, o1)
    end.

(** *** The requests *)

(** [insert] into [menu_items]; [id] is the key the store gives the new
    row. *)
Definition insert_menu_item (id : Z) (name : string) (sale_price : Q)
    (rows : list MenuItem) : unit * list MenuItem :=
  (tt, rows ++ [{| mi_id := id; mi_name := name;
                   mi_sale_price := sale_price |}]).

(** [delete().eq('id', id)] on [menu_items]. *)
Definition delete_menu_item (id : Z) (rows : list MenuItem)
  : unit * list MenuItem :=
  (tt, filter (fun item => mi_id item <> id) rows).

(** [delete().eq('menu_item_id', id)] on [menu_item_recipe]. *)
Definition delete_recipe_of (menu_item_id : Z) (t : Tables) : unit * Tables :=
  (tt,
   set_menu_item_recipe (filter (fun l => rl_menu_item_id l <> menu_item_id))
     t).

Definition set_monthly_expenses
    (f : list MonthlyExpense -> list MonthlyExpense) (t : Tables) : Tables :=
  {| stock_items := stock_items t;
     menu_item_recipe := menu_item_recipe t;
     workers := workers t;
     orders := orders t;
     order_items := order_items t;
     monthly_expenses := f (monthly_expenses t);
     next_order_id := next_order_id t |}.

Definition set_current_quantity (new_quantity : Q) (item : StockItem)
  : StockItem :=
  {| si_name := si_name item;
     tracking_type := tracking_type item;
     current_quantity := new_quantity;
     unit_of_measure := unit_of_measure item;
     cost_per_unit := cost_per_unit item |}.

(** [update({'current_quantity': q}).eq('id', item_id)]. *)
Definition update_current_quantity (item_id : Z) (new_quantity : Q)
    (t : Tables) : unit * Tables :=
  (tt, set_stock_items (alter (set_current_quantity new_quantity) item_id) t).

(** [insert] into [menu_item_recipe]; [id] is the key the store gives the
    new row. *)
Definition insert_recipe_link (id menu_item_id stock_item_id : Z)
    (quantity_used : Q) (t : Tables) : unit * Tables :=
  (tt,
   set_menu_item_recipe
     (fun rows => rows ++ [{| rl_id := id;
                              rl_menu_item_id := menu_item_id;
                              rl_stock_item_id := stock_item_id;
                              quantity_used := quantity_used |}]) t).

(** [insert] into [workers]; [id] is the key the store gives the new row. *)
Definition insert_worker (id : Z) (name : string) (role : worker_role)
    (salary : Q) (t : Tables) : unit * Tables :=
  (tt,
   set_workers
     (fun rows => rows ++ [{| w_id := id; w_name := name; role := role;
                              salary := salary |}]) t).

(** [insert] into [monthly_expenses], with [month.isoformat()] as the
    month. *)
Definition insert_expense (month : date) (description : string) (amount : Q)
    (t : Tables) : unit * Tables :=
  (tt,
   set_monthly_expenses
     (fun rows => rows ++ [{| me_month := month; description := description;
                              amount := amount |}]) t).

(** *** The handlers *)

(** A Python string is true when it is not empty. *)
Definition truthy (s : string) : bool := negb (String.eqb s "").

(** [render_stock_management], tab "Restock", with the button of the
    selected item pressed (lines 360-383).  [item_to_restock], with its id,
    is the row the select box gives among those the run has fetched. *)
Definition render_stock_management_restock (item_id : Z)
    (item_to_restock : StockItem) (amount_to_add : Q) : Back unit :=
  match tracking_type item_to_restock with
  | UNIT | MULTI_USE =>
      let new_quantity := current_quantity item_to_restock + amount_to_add in
      back_try
        (_ ← back_execute stock_items_update tt
               (update_current_quantity item_id new_quantity);
         _ ← office_success
               (restocked (si_name item_to_restock) new_quantity);
         office_rerun)
        (fun e => office_error (error_restocking e))
  | MANUAL =>
      back_try
        (_ ← back_execute stock_items_update tt
               (update_current_quantity item_id 1);
         _ ← office_success (marked_as_restocked (si_name item_to_restock));
         office_rerun)
        (fun e => office_error (error_restocking e))
  end.

(** [select('*').order('name')] on [stock_items]: the rows with their ids.
    The order of the rows matters to the select box only, which the run
    below is given. *)
Definition select_stock (t : Tables) : list (Z * StockItem) :=
  map_to_list (stock_items t).

(** [render_stock_management] in the run that a press of a restock button
    starts (lines 260-271, 276-278 and 345-383): the press reruns the
    script, which fetches the stock before it comes to the button.  When
    the fetch raises the page ends with the error; with no rows it shows its
    two warnings; otherwise [selectbox], which is [st.selectbox] on the
    fetched rows, gives the row it holds and the button of that row is the
    one pressed.  Nothing else on the page is pressed in this run. *)
Definition render_stock_management_restock_run
    (selectbox : list (Z * StockItem) -> option (Z * StockItem))
    (amount_to_add : Q) : Back unit :=
  fetched ←
    back_try
      (stock_data ← back_execute stock_items_select []
                      (fun t => (select_stock t, t));
       mret (Some stock_data))
      (fun e => _ ← office_error (failed_to_load_stock e); mret None);
  match fetched with
  | None => mret tt
  | Some [] =>
      _ ← office_warning no_stock_items_found;
      office_warning no_stock_items_to_restock
  | Some stock_data =>
      match selectbox stock_data with
      | Some item_to_restock =>
          render_stock_management_restock item_to_restock.1
            item_to_restock.2 amount_to_add
      | None => mret tt
      end
  end.

(** The unit shown beside the quantity of an ingredient (line 460): the unit
    of the first fetched stock row with the id of the selected one. *)
Fixpoint unit_of (stock_data : list (Z * StockItem)) (stock_item_id : Z)
  : string :=
  match stock_data with
  | [] => "units"
  | (id, item) :: rest =>
      if (id =? stock_item_id)%Z then unit_of_measure item
      else unit_of rest stock_item_id
  end.

(** [render_menu_management], button "Add Ingredient to Recipe" (lines
    464-475).  [menu_item] and [stock_item] are the selected rows, [new_id]
    the key the store gives the new link. *)
Definition render_menu_management_add_ingredient (new_id : Z)
    (stock_data : list (Z * StockItem)) (menu_item : MenuItem)
    (stock_item : Z * StockItem) (quantity_used : Q) : Back unit :=
  let unit := unit_of stock_data stock_item.1 in
  if Qlt_bool 0 quantity_used
  then
    back_try
      (_ ← back_execute menu_item_recipe_insert tt
             (insert_recipe_link new_id (mi_id menu_item) stock_item.1
                quantity_used);
       _ ← office_success
             (added_to_recipe quantity_used unit (si_name stock_item.2)
                (mi_name menu_item));
       office_rerun)
      (fun e => office_error (error_adding_to_recipe e))
  else mret tt.

(** [render_staff_and_expenses], form "Add Worker" submitted (lines
    505-521); [new_id] is the key the store gives the new worker.  A role is
    always selected. *)
Definition render_staff_add_worker (new_id : Z) (name : string)
    (role : worker_role) (salary : Q) : Back unit :=
  if truthy name && Qle_bool 0 salary
  then
    back_try
      (_ ← back_execute workers_insert tt
             (insert_worker new_id name role salary);
       _ ← office_success (added_worker name);
       office_rerun)
      (fun e => office_error (error_adding_worker e))
  else mret tt.

(** [render_staff_and_expenses], form "Add Expense" submitted (lines
    546-564).  The date input always holds a date. *)
Definition render_staff_add_expense (month : date) (description : string)
    (amount : Q) : Back unit :=
  if truthy description && Qlt_bool 0 amount
  then
    back_try
      (_ ← back_execute monthly_expenses_insert tt
             (insert_expense month description amount);
       _ ← office_success (added_expense description);
       office_rerun)
      (fun e => office_error (error_adding_expense e))
  else mret tt.

(** An office that has sent nothing and shown nothing yet, with a menu and
    with an empty one. *)
Definition office_with (menu : list MenuItem) (w : World) : Office :=
  {| world := w; menu_items := menu; office_journal := [];
     office_page := [] |}.

Definition office_of (w : World) : Office := office_with [] w.

(** [render_menu_management], form "Add Menu Item" submitted (lines
    393-407); [new_id] is the key the store gives the new item. *)
Definition render_menu_management_add_item (new_id : Z) (name : string)
    (sale_price : Q) : Back unit :=
  if truthy name && Qlt_bool 0 sale_price
  then
    back_try
      (_ ← menu_execute menu_items_insert tt
             (insert_menu_item new_id name sale_price);
       _ ← office_success (added_to_menu name);
       office_rerun)
      (fun e => office_error (error_adding_menu_item e))
  else mret tt.

(** [render_menu_management], button "Delete This Menu Item" of a listed
    item (lines 418-427). *)
Definition render_menu_management_delete_item (item : MenuItem) : Back unit :=
  back_try
    (_ ← back_execute menu_item_recipe_delete tt
           (delete_recipe_of (mi_id item));
     _ ← menu_execute menu_items_delete tt (delete_menu_item (mi_id item));
     _ ← office_success (deleted_menu_item (mi_name item));
     office_rerun)
    (fun e => office_error (error_deleting_menu_item e)).

(** What is done on the menu page: an item is added or a listed item is
    deleted. *)
Inductive menu_action : Type :=
| add_item (new_id : Z) (name : string) (sale_price : Q)
| delete_item (item : MenuItem).

Definition menu_handler (a : menu_action) : Back unit :=
  match a with
  | add_item new_id name sale_price =>
      render_menu_management_add_item new_id name sale_price
  | delete_item item => render_menu_management_delete_item item
  end.

(** The office after one action after the other. *)
Definition after_actions (actions : list menu_action) (o : Office) : Office :=
  fold_left (fun o a => (menu_handler a o).2) actions o.

(** The office after a request that raised and the error shown for it. *)
Definition after_failure (ep : office_endpoint) (t : office_text)
    (o : Office) : Office :=
  {| world := count_call (world o);
     menu_items := menu_items o;
     office_journal := office_journal o ++ [(ep, Throws)];
     office_page := office_page o ++ [office_error_box t] |}.

(** ** Notions the properties are stated with *)

(** The store answers every request from now on. *)
Definition reliable (w : World) : bool :=
  forallb (reply_eqb Answer) (drop (calls w) (script w)).

(** The journal entries written between two worlds. *)
Definition new_requests (w w' : World) : list (endpoint * reply) :=
  drop (length (journal w)) (journal w').

(** A sum, written the usual way. *)
Fixpoint Qsum (xs : list Q) : Q :=
  match xs with
  | [] => 0
  | x :: rest => x + Qsum rest
  end.

(** The window of a month. *)
Definition first_instant (y m : Z) : datetime :=
  DateTime (Date y m 1) time_min.

Definition last_instant (y m : Z) : datetime :=
  DateTime (Date y m (days_in_month y m)) time_max.

(** The month after month [m] of year [y]. *)
Definition next_month (y m : Z) : Z * Z :=
  if (m =? 12)%Z then ((y + 1)%Z, 1%Z) else (y, (m + 1)%Z).

(** The recipe of a menu item, each link with the stock item it points at;
    a link that points at no stock item has no pair. *)
Definition priced_recipe (menu_item_id : Z) (t : Tables)
  : list (RecipeLink * StockItem) :=
  omap (fun l => pair l <$> (stock_items t !! rl_stock_item_id l))
       (recipe_of menu_item_id t).

(** The cost of goods of one unit, as the specification writes it: the sum
    over the recipe of quantity used times cost per unit. *)
Definition recipe_cost (menu_item_id : Z) (t : Tables) : Q :=
  Qsum (map (fun p => quantity_used p.1 * cost_per_unit p.2)
            (priced_recipe menu_item_id t)).

(** The memoised result the cost calculator would return for an item. *)
Definition fresh_entry (w : World) (menu_item_id : Z) : option cache_entry :=
  match cost_cache w !! menu_item_id with
  | Some entry =>
      if (now w <? ce_stored entry + 60)%Z then Some entry else None
  | None => None
  end.

(** What the function body computes from the tables. *)
Definition computed_cost (menu_item_id : Z) (t : Tables) : Q :=
  match select_recipe_costs menu_item_id t with
  | [] => 0
  | _ :: _ => add_ingredient_costs (select_recipe_costs menu_item_id t) 0
  end.

(** The unit cost the cost calculator gives in a world whose store answers:
    the memoised value if there is one, the computed one otherwise. *)
Definition unit_cost (w : World) (menu_item_id : Z) : Q :=
  match fresh_entry w menu_item_id with
  | Some entry => ce_value entry
  | None => computed_cost menu_item_id (db w)
  end.

(** The items of a batch that are sold: those with a quantity other than 0. *)
Definition sold (sales_dict : list (Z * sale_details))
  : list (Z * sale_details) :=
  filter (fun item => sd_quantity item.2 <> 0%Z) sales_dict.

(** The order item a sold item is recorded as. *)
Definition order_line (order : Z) (cost : Z -> Q) (item : Z * sale_details)
  : OrderItem :=
  {| order_id := order;
     oi_menu_item_id := item.1;
     quantity := sd_quantity item.2;
     price_at_sale := sale_price item.2;
     cost_at_sale := cost item.1 |}.

(** Revenue of a batch: price times quantity over the sold items. *)
Definition batch_revenue (sales_dict : list (Z * sale_details)) : Q :=
  Qsum (map (fun item => sale_price item.2 * inject_Z (sd_quantity item.2))
            (sold sales_dict)).

(** The [decrement_stock] requests of a batch, in the order they are sent:
    for every sold item and every link of its recipe, the stock item and
    quantity used times quantity sold. *)
Definition batch_consumption (sales_dict : list (Z * sale_details))
    (t : Tables) : list (Z * Q) :=
  flat_map (fun item =>
              map (fun l => (l.1, l.2 * inject_Z (sd_quantity item.2)))
                  (select_recipe_links item.1 t))
           (sold sales_dict).


(** The stock after a list of [decrement_stock] requests. *)
Definition apply_consumption (requests : list (Z * Q))
    (stock : gmap Z StockItem) : gmap Z StockItem :=
  fold_left (fun s r => alter (consume r.2) r.1 s) requests stock.

(** The order items whose order lies in a window, and the figures of the
    profit report over them. *)
Definition revenue_of (items : list OrderItem) : Q :=
  Qsum (map (fun i => price_at_sale i * inject_Z (quantity i)) items).

Definition cogs_of (items : list OrderItem) : Q :=
  Qsum (map (fun i => cost_at_sale i * inject_Z (quantity i)) items).

Definition all_salaries (t : Tables) : Q := Qsum (map salary (workers t)).

#[global] Instance date_eq_dec : EqDecision date.
Proof. solve_decision. Defined.

Definition expenses_keyed (key : date) (t : Tables) : Q :=
  Qsum (map amount
            (filter (fun e => me_month e = key) (monthly_expenses t))).

(** A triple for handlers: from a world that satisfies [P], the handler ends
    with a result and in a world that satisfy [Q]. *)
Definition hoare {A} (P : World -> Prop) (m : M A)
    (Q : result A -> World -> Prop) : Prop :=
  forall w, P w -> Q (m w).1 (m w).2.

(** The requests in [reqs] are among those in [allowed]. *)
Definition among (reqs allowed : list (Z * Q)) : Prop :=
  forall r, r ∈ reqs -> r ∈ allowed.

(** From tables [t] to tables [t']: the recipes are the same, and the stock
    is the one of [t] after some of the [allowed] decrements. *)
Definition stock_taken (allowed : list (Z * Q)) (t t' : Tables) : Prop :=
  menu_item_recipe t' = menu_item_recipe t
  /\ exists reqs,
       among reqs allowed
       /\ stock_items t' = apply_consumption reqs (stock_items t).

(** No request of the list raised, except perhaps the lookup of the cost
    calculator. *)
Definition no_own_failure (requests : list (endpoint * reply)) : Prop :=
  forall ep, (ep, Throws) ∈ requests -> ep = recipe_costs_select.

(** A handler only adds to the journal. *)
Definition journal_grows {A} (m : M A) : Prop :=
  forall w, exists j, journal (m w).2 = journal w ++ j.




(** What one sold item does to the tables when every request is answered:
    its order item is appended, then the stock is decremented along the
    recipe. *)
Definition scaled_recipe (sold_quantity : Z) (recipe : list (Z * Q))
  : list (Z * Q) :=
  map (fun l => (l.1, l.2 * inject_Z sold_quantity)) recipe.

Definition record_sale (order : Z) (cost : Z -> Q) (t : Tables)
    (item : Z * sale_details) : Tables :=
  let t1 := (insert_order_item (order_line order cost item) t).2 in
  set_stock_items
    (apply_consumption
       (scaled_recipe (sd_quantity item.2) (select_recipe_links item.1 t1)))
    t1.

Definition record_batch (order : Z) (cost : Z -> Q)
    (sales_dict : list (Z * sale_details)) (t : Tables) : Tables :=
  fold_left (record_sale order cost) (sold sales_dict) t.

(** The running total of the loop after a batch. *)
Definition total_after (sales_dict : list (Z * sale_details)) (total : Q) : Q :=
  fold_left
    (fun acc item => acc + sale_price item.2 * inject_Z (sd_quantity item.2))
    (sold sales_dict) total.

(** A later world of the same run: same script and clock, no fewer calls. *)
Definition follows (w w' : World) : Prop :=
  script w' = script w /\ now w' = now w /\ (calls w <= calls w')%nat.

(** The statement of the loop, for a store that answers. *)
Definition sells_reliably (order : Z) (items : list (Z * sale_details))
  : Prop :=
  forall w total,
    reliable w = true ->
    exists w',
      sell_items order items total w = (Return (total_after items total), w')
      /\ db w' = record_batch order (unit_cost w) items (db w)
      /\ follows w w'
      /\ (forall id, unit_cost w' id = unit_cost w id).

(** The cost the items after the first are recorded with, when the lookup
    for the first one failed: 0 again for the same menu item (the 0 is
    memoised), the calculator's cost for the others. *)
Definition cost_after_failure (w : World) (failed : Z) (id : Z) : Q :=
  if decide (id = failed) then 0 else unit_cost w id.

(** Since the journal [j0], no request of the run raised but perhaps the
    lookup of the cost calculator. *)
Definition clean_since (j0 : list (endpoint * reply)) (w : World) : Prop :=
  exists j, journal w = j0 ++ j /\ no_own_failure j.

(** What holds when a part of the batch ends: if it returned, nothing of its
    own raised. *)
Definition returned_clean {A} (j0 : list (endpoint * reply))
    (r : result A) (w : World) : Prop :=
  match r with
  | Return _ => clean_since j0 w
  | Raise _ => True
  end.

(** ** A small cafe, for the examples *)

Definition beans : StockItem :=
  {| si_name := "Coffee Beans"; tracking_type := MULTI_USE;
     current_quantity := 100; unit_of_measure := "g";
     cost_per_unit := 3 # 100 |}.

Definition napkins : StockItem :=
  {| si_name := "Napkins"; tracking_type := MANUAL;
     current_quantity := 1; unit_of_measure := "pack";
     cost_per_unit := 0 |}.

Definition alice : Worker :=
  {| w_id := 1; w_name := "Alice"; role := Server; salary := 2000 |}.

(** Menu item 1 (an espresso) uses 2 g of beans and one napkin pack entry;
    menu item 2 has no recipe. *)
Definition cafe_tables : Tables :=
  {| stock_items := <[11%Z := napkins]> (<[10%Z := beans]> ∅);
     menu_item_recipe :=
       [ {| rl_id := 1; rl_menu_item_id := 1; rl_stock_item_id := 10;
            quantity_used := 2 |};
         {| rl_id := 2; rl_menu_item_id := 1; rl_stock_item_id := 11;
            quantity_used := 1 |} ];
     workers := [alice];
     orders := [];
     order_items := [];
     monthly_expenses := [];
     next_order_id := 1 |}.

(** The cafe with a store that replies as scripted, at time 0, nothing
    memoised and an empty page. *)
Definition cafe_with (replies : list reply) : World :=
  {| db := cafe_tables; script := replies; calls := 0; journal := [];
     cost_cache := ∅; now := 0; page := [] |}.

Definition cafe : World := cafe_with [].

(** The batch of the specification: 2 of item 1 at 5, 0 of item 2 at 3. *)
Definition two_and_none : list (Z * sale_details) :=
  [ (1%Z, {| sd_quantity := 2; sale_price := 5 |});
    (2%Z, {| sd_quantity := 0; sale_price := 3 |}) ].

Definition three_espressos : list (Z * sale_details) :=
  [ (1%Z, {| sd_quantity := 3; sale_price := 5 |}) ].

(** One of menu item 2, given away. *)
Definition one_free : list (Z * sale_details) :=
  [ (2%Z, {| sd_quantity := 1; sale_price := 0 |}) ].

(** The books of February 2024: two orders in the month, on its first and
    on its last day, and one on the first of March; two workers; an expense
    keyed on the first of February and one keyed on the 15th. *)
Definition february_tables : Tables :=
  {| stock_items := ∅;
     menu_item_recipe := [];
     workers :=
       [ {| w_id := 1; w_name := "Alice"; role := Server; salary := 1200 |};
         {| w_id := 2; w_name := "Bob"; role := Barista; salary := 800 |} ];
     orders :=
       [ {| o_id := 1; server_id := 1;
            timestamp := DateTime (Date 2024 2 1) (Time 12 0 0 0) |};
         {| o_id := 2; server_id := 1;
            timestamp := DateTime (Date 2024 2 29) (Time 12 0 0 0) |};
         {| o_id := 3; server_id := 1;
            timestamp := DateTime (Date 2024 3 1) (Time 12 0 0 0) |} ];
     order_items :=
       [ {| order_id := 1; oi_menu_item_id := 1; quantity := 10;
            price_at_sale := 60; cost_at_sale := 20 |};
         {| order_id := 2; oi_menu_item_id := 2; quantity := 4;
            price_at_sale := 100; cost_at_sale := 25 |};
         {| order_id := 3; oi_menu_item_id := 1; quantity := 7;
            price_at_sale := 60; cost_at_sale := 20 |} ];
     monthly_expenses :=
       [ {| me_month := Date 2024 2 1; description := "Rent";
            amount := 100 |};
         {| me_month := Date 2024 2 15; description := "Repair";
            amount := 50 |} ];
     next_order_id := 4 |}.

Definition february_books : World :=
  {| db := february_tables; script := []; calls := 0; journal := [];
     cost_cache := ∅; now := 0; page := [] |}.

(** The cafe after three of menu item 1 were recorded. *)
Definition cafe_sold : World :=
  (process_daily_sales 1 three_espressos (Date 2024 2 14) cafe).2.

(** The cafe after the cost of menu item 1 has been asked for, and then
    after the beans have been removed from its recipe with the "Remove"
    button, within the same minute. *)
Definition cafe_quoted : World := (calculate_menu_item_cost 1 cafe).2.
Definition cafe_edited : World :=
  (render_menu_management_remove 1 cafe_quoted).2.

(** Noon of 14 February 2024. *)
Definition valentine_noon : datetime :=
  DateTime (Date 2024 2 14) (Time 12 0 0 0).

(** ** Notions for the batch under any store *)

Section more_notions.
Local Open Scope Q_scope.

(** What an order item says of a sale: the order, the menu item, the
    quantity and the price; the cost at sale is left out. *)
Definition sale_line (row : OrderItem) : Z * Z * Z * Q :=
  (order_id row, oi_menu_item_id row, quantity row, price_at_sale row).

(** The sale lines of a batch, in the order of the dictionary. *)
Definition batch_lines (order : Z) (sales_dict : list (Z * sale_details))
  : list (Z * Z * Z * Q) :=
  map (fun item => (order, item.1, sd_quantity item.2, sale_price item.2))
      (sold sales_dict).

(** The replies to the inserts of order items among journal entries, in
    the order of the requests. *)
Definition item_insert_replies (requests : list (endpoint * reply))
  : list reply :=
  omap (fun e => match e.1 with
                 | order_items_insert => Some e.2
                 | _ => None
                 end) requests.

(** Of the lines of a batch, those whose insert the store answered: line
    [k] is kept when reply [k] is [Answer]; the lines beyond the replies
    were not reached. *)
Fixpoint answered_lines {A} (lines : list A) (replies : list reply)
  : list A :=
  match lines, replies with
  | line :: lines, Answer :: replies => line :: answered_lines lines replies
  | _ :: lines, _ :: replies => answered_lines lines replies
  | _, _ => []
  end.

(** A world of a batch that records under order [order], since the journal
    [j0] and the tables [t1]: orders, workers and expenses are those of
    [t1]; the order items are those of [t1] followed by rows whose sale
    lines are the lines of the batch whose insert was answered; and, when
    [reached] is given, the inserts sent so far are that many. *)
Definition items_written (order : Z) (sales_dict : list (Z * sale_details))
    (j0 : list (endpoint * reply)) (t1 : Tables) (reached : option nat)
    (w : World) : Prop :=
  orders (db w) = orders t1
  /\ next_order_id (db w) = next_order_id t1
  /\ workers (db w) = workers t1
  /\ monthly_expenses (db w) = monthly_expenses t1
  /\ exists added j,
       journal w = j0 ++ j
       /\ order_items (db w) = order_items t1 ++ added
       /\ map sale_line added =
            answered_lines (batch_lines order sales_dict)
                           (item_insert_replies j)
       /\ (forall n, reached = Some n ->
                     length (item_insert_replies j) = n).

(** The entry of the form for a menu item. *)
Definition form_entry (quantity_input : Z -> Z) (item : MenuItem)
  : Z * sale_details :=
  (mi_id item,
   {| sd_quantity := quantity_input (mi_id item);
      sale_price := mi_sale_price item |}).

End more_notions.

(** ** More sample data *)

Local Open Scope Q_scope.

(** The menu of the cafe, and a form with 3 of the first item and none of
    the second. *)
Definition espresso : MenuItem :=
  {| mi_id := 1; mi_name := "Espresso"; mi_sale_price := 5 |}.

Definition water : MenuItem :=
  {| mi_id := 2; mi_name := "Water"; mi_sale_price := 3 |}.

Definition cafe_menu : list MenuItem := [espresso; water].

Definition three_of_the_first (menu_item_id : Z) : Z :=
  if (menu_item_id =? 1)%Z then 3%Z else 0%Z.

(** A store that answers the insert of the order, the cost lookup and the
    insert of the order item, and raises at the lookup of the recipe. *)
Definition cafe_failing_midway : World :=
  cafe_with [Answer; Answer; Answer; Throws].

(** The secrets of the cafe, and rows of an order one of which has lost its
    menu item. *)
Definition cafe_secrets : Secrets :=
  {| APP_USERNAME := Some "owner"%string;
     APP_PASSWORD := Some "latte"%string |}.

Definition rows_with_orphan : list OrderItemRow :=
  [ {| oir_quantity := 3; oir_price_at_sale := 5;
       oir_cost_at_sale := 6 # 100; oir_menu_items := Some "Espresso"%string |};
    {| oir_quantity := 2; oir_price_at_sale := 4;
       oir_cost_at_sale := 1; oir_menu_items := None |} ].

(** The beans as three espressos leave them, and a select box that holds
    the beans. *)
Definition beans_left : StockItem :=
  {| si_name := "Coffee Beans"; tracking_type := MULTI_USE;
     current_quantity := 94; unit_of_measure := "g";
     cost_per_unit := 3 # 100 |}.

Definition beans_selected (rows : list (Z * StockItem))
  : option (Z * StockItem) :=
  List.find (fun row => (row.1 =? 10)%Z) rows.

(** * Properties *)

(** ** The calendar *)

Section calendar.
Local Open Scope Z_scope.

Lemma valid_date_bounds d :
  valid_date d = true ->
  1 <= year d <= 9999 /\ 1 <= month d <= 12 /\
  1 <= day d <= days_in_month (year d) (month d).
Proof.
  unfold valid_date, MINYEAR, MAXYEAR.
  rewrite !andb_true_iff, !Z.leb_le. lia.
Qed.


Lemma tomorrow_same_month y m dd :
  dd < days_in_month y m -> tomorrow (Date y m dd) = Return (Date y m (dd + 1)).
Proof.
  intros H. unfold tomorrow; cbn [year month day].
  destruct (Z.ltb_spec dd (days_in_month y m)); [reflexivity | lia].
Qed.

Lemma tomorrow_next_month y m :
  m < 12 -> tomorrow (Date y m (days_in_month y m)) = Return (Date y (m + 1) 1).
Proof.
  intros H. unfold tomorrow; cbn [year month day].
  rewrite Z.ltb_irrefl. destruct (Z.ltb_spec m 12); [reflexivity | lia].
Qed.

Lemma tomorrow_next_year y :
  y < MAXYEAR -> tomorrow (Date y 12 31) = Return (Date (y + 1) 1 1).
Proof.
  intros H. unfold tomorrow; cbn.
  destruct (Z.ltb_spec y MAXYEAR); [reflexivity | lia].
Qed.

Lemma tomorrow_overflow : tomorrow (Date MAXYEAR 12 31) = Raise OverflowError.
Proof. reflexivity. Qed.

Lemma days_in_month_range y m : 28 <= days_in_month y m <= 31.
Proof.
  unfold days_in_month.
  destruct (m =? 2); [destruct (is_leap y); lia |].
  destruct ((m =? 4) || (m =? 6) || (m =? 9) || (m =? 11))%bool; lia.
Qed.

Lemma days_in_december y : days_in_month y 12 = 31.
Proof. reflexivity. Qed.

Lemma add_days_same_month y m dd (n : nat) :
  dd + Z.of_nat n <= days_in_month y m ->
  add_days (Date y m dd) n = Return (Date y m (dd + Z.of_nat n)).
Proof.
  revert dd. induction n as [| n IH]; intros dd H.
  - cbn. do 2 f_equal. lia.
  - cbn [add_days]. rewrite tomorrow_same_month by lia. cbn [result_bind].
    rewrite IH by lia. do 2 f_equal. lia.
Qed.

Lemma tomorrow_last_day y m :
  (y < MAXYEAR \/ m < 12) -> 1 <= m <= 12 ->
  tomorrow (Date y m (days_in_month y m)) =
    Return (Date (next_month y m).1 (next_month y m).2 1).
Proof.
  intros Hn Hm. unfold next_month. destruct (Z.eqb_spec m 12) as [-> | Hne].
  - rewrite days_in_december. apply tomorrow_next_year. lia.
  - apply tomorrow_next_month. lia.
Qed.

Lemma add_days_app d (n k : nat) :
  add_days d (n + k) = result_bind (add_days d n) (fun d' => add_days d' k).
Proof.
  revert d. induction n as [| n IH]; intros d; cbn; [reflexivity |].
  destruct (tomorrow d); cbn; [apply IH | reflexivity].
Qed.

Lemma add_4_days_to_28th y m :
  (y < MAXYEAR \/ m < 12) -> 1 <= m <= 12 ->
  add_days (Date y m 28) 4 =
    Return (Date (next_month y m).1 (next_month y m).2
                 (32 - days_in_month y m)).
Proof.
  intros Hn Hm. pose proof (days_in_month_range y m) as Hr.
  set (rest := Z.to_nat (days_in_month y m - 28)).
  replace 4%nat with (rest + (1 + (3 - rest)))%nat by lia.
  rewrite add_days_app, add_days_same_month by lia. cbn [result_bind].
  replace (28 + Z.of_nat rest) with (days_in_month y m) by lia.
  rewrite add_days_app. cbn [add_days Nat.add].
  rewrite tomorrow_last_day by assumption. cbn [result_bind].
  pose proof (days_in_month_range (next_month y m).1 (next_month y m).2).
  rewrite add_days_same_month by lia. do 2 f_equal. lia.
Qed.

Lemma yesterday_first_day y m :
  MINYEAR <= y -> 1 <= m <= 12 -> (y < MAXYEAR \/ m < 12) ->
  yesterday (Date (next_month y m).1 (next_month y m).2 1) =
    Return (Date y m (days_in_month y m)).
Proof.
  intros Hy Hm Hn. unfold next_month, yesterday.
  destruct (Z.eqb_spec m 12) as [-> | Hne]; cbn [fst snd year month day].
  - cbn. destruct (Z.ltb_spec MINYEAR (y + 1)); [| lia].
    do 2 f_equal. lia.
  - rewrite Z.ltb_irrefl. destruct (Z.ltb_spec 1 (m + 1)); [| lia].
    replace (m + 1 - 1) with m by lia. reflexivity.
Qed.

Lemma replace_day_valid d k :
  valid_date (Date (year d) (month d) k) = true ->
  replace_day d k = Return (Date (year d) (month d) k).
Proof. intros H. unfold replace_day. rewrite H. reflexivity. Qed.

Lemma valid_date_intro y m dd :
  MINYEAR <= y <= MAXYEAR -> 1 <= m <= 12 -> 1 <= dd <= days_in_month y m ->
  valid_date (Date y m dd) = true.
Proof.
  intros. unfold valid_date; cbn [year month day].
  rewrite !andb_true_iff, !Z.leb_le. lia.
Qed.

Lemma next_month_valid y m :
  MINYEAR <= y <= MAXYEAR -> 1 <= m <= 12 -> (y < MAXYEAR \/ m < 12) ->
  MINYEAR <= (next_month y m).1 <= MAXYEAR /\ 1 <= (next_month y m).2 <= 12.
Proof.
  intros Hy Hm Hn. unfold next_month, MINYEAR, MAXYEAR in *.
  destruct (Z.eqb_spec m 12); cbn [fst snd]; lia.
Qed.

Lemma get_month_range_inside d :
  valid_date d = true ->
  (year d <> MAXYEAR \/ month d <> 12) ->
  get_month_range d =
    Return (first_instant (year d) (month d),
            last_instant (year d) (month d),
            Date (year d) (month d) 1).
Proof.
  intros Hv Hn. apply valid_date_bounds in Hv.
  destruct d as [y m dd]; cbn [year month day] in *.
  destruct Hv as (Hy & Hm & _).
  assert (Hn' : y < MAXYEAR \/ m < 12) by (unfold MAXYEAR in *; lia).
  assert (Hy' : MINYEAR <= y <= MAXYEAR) by (unfold MINYEAR, MAXYEAR; lia).
  pose proof (days_in_month_range y m) as Hr.
  destruct (next_month_valid y m Hy' Hm Hn') as [Hny Hnm].
  pose proof (days_in_month_range (next_month y m).1 (next_month y m).2).
  unfold get_month_range.
  rewrite replace_day_valid by (apply valid_date_intro; cbn; lia).
  cbn [result_bind year month day].
  rewrite replace_day_valid by (apply valid_date_intro; cbn; lia).
  cbn [result_bind year month day].
  rewrite add_4_days_to_28th by assumption. cbn [result_bind].
  rewrite replace_day_valid by (apply valid_date_intro; cbn; lia).
  cbn [result_bind year month day sub_days].
  rewrite yesterday_first_day by (assumption || lia).
  reflexivity.
Qed.

(** C4 (as amended).  For every date that [datetime.date] can hold, other
    than the dates of December 9999, the month range starts at the first
    instant of day 1 of the date's month and ends at the last instant of
    the last calendar day of the same month: day 31, 30, 29 or 28, with 29
    for February exactly in leap years; for December that is December 31 of
    the same year, the first day of the following January lying in the
    next year.  The third component is day 1 of the month. *)
Theorem get_month_range_window (d : date) :
  valid_date d = true ->
  (year d <> MAXYEAR \/ month d <> 12) ->
  exists start_iso end_iso month_start,
    get_month_range d = Return (start_iso, end_iso, month_start)
    /\ month_start = Date (year d) (month d) 1
    /\ start_iso = combine month_start time_min
    /\ end_iso = combine (Date (year d) (month d)
                            (days_in_month (year d) (month d))) time_max
    /\ valid_date (dt_date end_iso) = true
    /\ tomorrow (dt_date end_iso) =
         Return (Date (next_month (year d) (month d)).1
                      (next_month (year d) (month d)).2 1)
    /\ (month d = 2 ->
        days_in_month (year d) (month d) =
          if is_leap (year d) then 29 else 28)
    /\ (month d = 12 ->
        dt_date end_iso = Date (year d) 12 31
        /\ next_month (year d) (month d) = (year d + 1, 1)).
Proof.
  intros Hv Hn.
  pose proof (valid_date_bounds d Hv) as (Hy & Hm & Hd).
  pose proof (days_in_month_range (year d) (month d)) as Hr.
  eexists _, _, _. split; [apply get_month_range_inside; assumption |].
  split; [reflexivity |]. split; [reflexivity |]. split; [reflexivity |].
  cbn [combine dt_date].
  split; [apply valid_date_intro; unfold MINYEAR, MAXYEAR; lia |].
  split; [apply tomorrow_last_day; unfold MAXYEAR in *; lia |].
  split; [intros ->; reflexivity |].
  intros ->. split; reflexivity.
Qed.

Lemma get_month_range_window_witness :
  get_month_range (Date 2024 2 14) =
    Return (DateTime (Date 2024 2 1) time_min,
            DateTime (Date 2024 2 29) time_max, Date 2024 2 1).
Proof.
  destruct (get_month_range_window (Date 2024 2 14))
    as (s & e & m & -> & -> & -> & -> & _).
  - reflexivity.
  - left. unfold MAXYEAR. cbn. lia.
  - reflexivity.
Defined.

(** C4, as stated, fails for the dates of December 9999: the first day of
    the following month is outside the range of [datetime.date], and the
    computation raises instead of returning a window. *)
Lemma get_month_range_december_9999 :
  valid_date (Date 9999 12 15) = true
  /\ get_month_range (Date 9999 12 15) = Raise OverflowError
  /\ ~ exists window, get_month_range (Date 9999 12 15) = Return window.
Proof.
  split; [reflexivity |]. split; [reflexivity |].
  intros [window H]. discriminate H.
Qed.

Example february_2023 :
  get_month_range (Date 2023 2 28) =
    Return (DateTime (Date 2023 2 1) time_min,
            DateTime (Date 2023 2 28) time_max, Date 2023 2 1).
Proof. reflexivity. Qed.

Example february_1900 :
  get_month_range (Date 1900 2 1) =
    Return (DateTime (Date 1900 2 1) time_min,
            DateTime (Date 1900 2 28) time_max, Date 1900 2 1).
Proof. reflexivity. Qed.

Example december_2024 :
  get_month_range (Date 2024 12 25) =
    Return (DateTime (Date 2024 12 1) time_min,
            DateTime (Date 2024 12 31) time_max, Date 2024 12 1).
Proof. reflexivity. Qed.

Example april_2025 :
  get_month_range (Date 2025 4 30) =
    Return (DateTime (Date 2025 4 1) time_min,
            DateTime (Date 2025 4 30) time_max, Date 2025 4 1).
Proof. reflexivity. Qed.

End calendar.

(** ** Sums of rationals *)

Section sums.
Local Open Scope Q_scope.

Lemma fold_left_Qplus (xs : list Q) (a : Q) :
  fold_left Qplus xs a == a + Qsum xs.
Proof.
  revert a. induction xs as [| x xs IH]; intros a; cbn [fold_left Qsum map].
  - ring.
  - rewrite IH. ring.
Qed.

Lemma py_sum_Qsum (xs : list Q) : py_sum xs == Qsum xs.
Proof. unfold py_sum. rewrite fold_left_Qplus. ring. Qed.

Lemma Qsum_zero (xs : list Q) : Forall (fun x => x == 0) xs -> Qsum xs == 0.
Proof.
  induction 1 as [| x xs Hx _ IH]; cbn [Qsum].
  - reflexivity.
  - rewrite Hx, IH. ring.
Qed.

Lemma fold_left_acc {A} (f : A -> Q) (xs : list A) (a : Q) :
  fold_left (fun acc x => acc + f x) xs a == a + Qsum (map f xs).
Proof.
  revert a. induction xs as [| x xs IH]; intros a; cbn [fold_left Qsum map].
  - ring.
  - rewrite IH. ring.
Qed.

Lemma Qlt_bool_iff (a b : Q) : Qlt_bool a b = true <-> a < b.
Proof.
  unfold Qlt_bool. rewrite negb_true_iff.
  destruct (Qle_bool b a) eqn:E.
  - apply Qle_bool_iff in E. split; [discriminate | intros H].
    exfalso. apply (Qlt_not_le _ _ H E).
  - split; [intros _ | reflexivity].
    apply Qnot_le_lt. intros H. apply Qle_bool_iff in H. congruence.
Qed.

End sums.

(** ** Running requests *)

Section runs.
Local Open Scope Q_scope.

Lemma all_answers_nth (n : nat) (l : list reply) :
  forallb (reply_eqb Answer) (drop n l) = true -> nth n l Answer = Answer.
Proof.
  revert n. induction l as [| r l IH]; intros [| n] H; cbn in *;
    try reflexivity.
  - apply andb_true_iff in H as [H _]. destruct r; cbn in H; congruence.
  - apply IH, H.
Qed.

Lemma all_answers_later (n m : nat) (l : list reply) :
  (n <= m)%nat ->
  forallb (reply_eqb Answer) (drop n l) = true ->
  forallb (reply_eqb Answer) (drop m l) = true.
Proof.
  intros Hle. replace m with (n + (m - n))%nat by lia.
  rewrite <- drop_drop. generalize (drop n l) (m - n)%nat. clear.
  intros l k. revert k. induction l as [| r l IH]; intros [| k] H; cbn in *;
    try reflexivity; try assumption.
  apply andb_true_iff in H as [_ H]. apply IH, H.
Qed.

Lemma reliable_reply w : reliable w = true -> reply_at w = Answer.
Proof. apply all_answers_nth. Qed.

Lemma follows_refl w : follows w w.
Proof. unfold follows. auto. Qed.

Lemma follows_trans w1 w2 w3 :
  follows w1 w2 -> follows w2 w3 -> follows w1 w3.
Proof.
  unfold follows. intros (-> & -> & ?) (-> & -> & ?). repeat split. lia.
Qed.

Lemma reliable_follows w w' :
  follows w w' -> reliable w = true -> reliable w' = true.
Proof.
  intros (Hs & _ & Hc). unfold reliable. rewrite Hs.
  apply all_answers_later, Hc.
Qed.

Lemma execute_answered {A} ep (no_rows : A) request w :
  reply_at w = Answer ->
  execute ep no_rows request w =
    (Return (request (db w)).1,
     set_db (request (db w)).2 (record_call ep Answer w)).
Proof.
  intros H. unfold execute. rewrite H. destruct (request (db w)); reflexivity.
Qed.

Lemma execute_thrown {A} ep (no_rows : A) request w :
  reply_at w = Throws ->
  execute ep no_rows request w = (Raise StoreError, record_call ep Throws w).
Proof. intros H. unfold execute. rewrite H. reflexivity. Qed.

Lemma execute_no_rows {A} ep (no_rows : A) request w :
  reply_at w = NoRows ->
  execute ep no_rows request w = (Return no_rows, record_call ep NoRows w).
Proof. intros H. unfold execute. rewrite H. reflexivity. Qed.

Lemma bind_run {A B} (m : M A) (k : A -> M B) w :
  (m ≫= k) w =
    match m w with
    | (Return a, w') => k a w'
    | (Raise e, w') => (Raise e, w')
    end.
Proof. reflexivity. Qed.

End runs.

Create HintDb worlds.
#[global] Hint Resolve follows_refl reliable_reply : worlds.
#[global] Hint Extern 1 (follows _ _) =>
  (unfold follows; cbn; auto) : worlds.

(** One request answered by a store that answers: rewrite its run, name the
    world it leaves and note that the store still answers there. *)
Ltac answered Hw w' Hw' :=
  rewrite ?bind_run, execute_answered by (apply reliable_reply; exact Hw);
  match goal with
  | |- context [set_db ?t (record_call ?ep Answer ?w)] =>
      set (w' := set_db t (record_call ep Answer w));
      assert (Hw' : reliable w' = true)
        by (apply (reliable_follows w); [auto with worlds | exact Hw])
  end.

(** *** The cost calculator *)

Section cost_calculator_runs.
Local Open Scope Q_scope.

Lemma body_answered id w :
  reply_at w = Answer ->
  calculate_menu_item_cost_body id w =
    (Return (computed_cost id (db w)),
     set_db (db w) (record_call recipe_costs_select Answer w)).
Proof.
  intros H. unfold calculate_menu_item_cost_body, try_except, query.
  rewrite bind_run, execute_answered by assumption. cbn [fst snd].
  unfold computed_cost.
  destruct (select_recipe_costs id (db w)); reflexivity.
Qed.

Lemma body_thrown id w :
  reply_at w = Throws ->
  calculate_menu_item_cost_body id w =
    (Return 0,
     set_page
       (page w ++ [st_error_box (error_calculating_item_cost StoreError)])
       (record_call recipe_costs_select Throws w)).
Proof.
  intros H. unfold calculate_menu_item_cost_body, try_except, query.
  rewrite bind_run, execute_thrown by assumption. reflexivity.
Qed.

Lemma body_no_rows id w :
  reply_at w = NoRows ->
  calculate_menu_item_cost_body id w =
    (Return 0, record_call recipe_costs_select NoRows w).
Proof.
  intros H. unfold calculate_menu_item_cost_body, try_except, query.
  rewrite bind_run, execute_no_rows by assumption. reflexivity.
Qed.

Lemma calculate_hit id w entry :
  fresh_entry w id = Some entry ->
  calculate_menu_item_cost id w =
    (Return (ce_value entry), set_page (page w ++ ce_elements entry) w).
Proof.
  unfold fresh_entry, calculate_menu_item_cost, cache_data.
  destruct (cost_cache w !! id) as [e |]; [| discriminate].
  destruct (now w <? ce_stored e + 60)%Z; [| discriminate].
  intros [= ->]. reflexivity.
Qed.

Lemma calculate_miss id w :
  fresh_entry w id = None ->
  calculate_menu_item_cost id w =
    match calculate_menu_item_cost_body id (set_page [] w) with
    | (Return v, w') =>
        (Return v,
         set_page (page w ++ page w')
           (set_cost_cache
              (<[id := {| ce_value := v; ce_elements := page w';
                          ce_stored := now w |}]> (cost_cache w')) w'))
    | (Raise e, w') => (Raise e, set_page (page w ++ page w') w')
    end.
Proof.
  unfold fresh_entry, calculate_menu_item_cost, cache_data.
  destruct (cost_cache w !! id) as [e |]; [| reflexivity].
  destruct (now w <? ce_stored e + 60)%Z; [discriminate | reflexivity].
Qed.

End cost_calculator_runs.

(** ** Rules for triples *)

Section triples.
Context {A B : Type}.

Lemma hoare_ret (P : World -> Prop) (a : A) (Q : result A -> World -> Prop) :
  (forall w, P w -> Q (Return a) w) -> hoare P (mret a) Q.
Proof. intros H w Hw. apply H, Hw. Qed.

Lemma hoare_bind (P : World -> Prop) (m : M A) (k : A -> M B)
    (Q1 : result A -> World -> Prop) (Q : result B -> World -> Prop) :
  hoare P m Q1 ->
  (forall a, hoare (Q1 (Return a)) (k a) Q) ->
  (forall e w, Q1 (Raise e) w -> Q (Raise e) w) ->
  hoare P (m ≫= k) Q.
Proof.
  intros Hm Hk He w Hw. specialize (Hm w Hw). rewrite bind_run.
  destruct (m w) as [[a | e] w1]; cbn [fst snd] in *.
  - apply Hk, Hm.
  - apply He, Hm.
Qed.

Lemma hoare_try_except (P : World -> Prop) (body : M A)
    (handler : exn -> M A) (Q1 Q : result A -> World -> Prop) :
  hoare P body Q1 ->
  (forall a w, Q1 (Return a) w -> Q (Return a) w) ->
  (forall e, hoare (Q1 (Raise e)) (handler e) Q) ->
  hoare P (try_except body handler) Q.
Proof.
  intros Hb Hr Hh w Hw. specialize (Hb w Hw). unfold try_except.
  destruct (body w) as [[a | e] w1]; cbn [fst snd] in *.
  - apply Hr, Hb.
  - apply Hh, Hb.
Qed.

Lemma hoare_execute (P : World -> Prop) ep (no_rows : A)
    (request : Tables -> A * Tables) (Q : result A -> World -> Prop) :
  (forall w, P w -> reply_at w = Answer ->
     Q (Return (request (db w)).1)
       (set_db (request (db w)).2 (record_call ep Answer w))) ->
  (forall w, P w -> reply_at w = NoRows ->
     Q (Return no_rows) (record_call ep NoRows w)) ->
  (forall w, P w -> reply_at w = Throws ->
     Q (Raise StoreError) (record_call ep Throws w)) ->
  hoare P (execute ep no_rows request) Q.
Proof.
  intros Ha Hn Ht w Hw. destruct (reply_at w) eqn:E.
  - rewrite execute_answered by exact E. apply Ha; assumption.
  - rewrite execute_thrown by exact E. apply Ht; assumption.
  - rewrite execute_no_rows by exact E. apply Hn; assumption.
Qed.

End triples.

Lemma hoare_show (P : World -> Prop) (n : notice)
    (Q : result unit -> World -> Prop) :
  (forall w, P w -> Q (Return tt) (set_page (page w ++ [n]) w)) ->
  hoare P (show n) Q.
Proof. intros H w Hw. apply H, Hw. Qed.

(** The cost calculator always returns; it leaves the tables as they are and
    sends at most its one lookup. *)
Lemma calculate_any id w :
  exists cost w',
    calculate_menu_item_cost id w = (Return cost, w')
    /\ db w' = db w
    /\ (journal w' = journal w
        \/ exists r, journal w' = journal w ++ [(recipe_costs_select, r)]).
Proof.
  destruct (fresh_entry w id) as [entry |] eqn:E.
  - rewrite (calculate_hit _ _ _ E). eexists _, _.
    split; [reflexivity |]. split; [reflexivity |]. left. reflexivity.
  - rewrite (calculate_miss _ _ E).
    destruct (reply_at (set_page [] w)) eqn:Hr.
    + rewrite body_answered by exact Hr. eexists _, _.
      split; [reflexivity |]. split; [reflexivity |]. right. eexists.
      reflexivity.
    + rewrite body_thrown by exact Hr. eexists _, _.
      split; [reflexivity |]. split; [reflexivity |]. right. eexists.
      reflexivity.
    + rewrite body_no_rows by exact Hr. eexists _, _.
      split; [reflexivity |]. split; [reflexivity |]. right. eexists.
      reflexivity.
Qed.

Lemma hoare_calculate (P : World -> Prop) id
    (Q : result Q -> World -> Prop) :
  (forall w cost w', P w -> db w' = db w ->
     (journal w' = journal w
      \/ exists r, journal w' = journal w ++ [(recipe_costs_select, r)]) ->
     Q (Return cost) w') ->
  hoare P (calculate_menu_item_cost id) Q.
Proof.
  intros H w Hw. destruct (calculate_any id w) as (cost & w' & -> & Hd & Hj).
  cbn [fst snd]. eapply H; eassumption.
Qed.

(** ** Consumption of stock, on the tables *)

Section consumption.
Local Open Scope Q_scope.

Lemma consume_cost a r : cost_per_unit (consume a r) = cost_per_unit r.
Proof. unfold consume. destruct (tracking_type r); reflexivity. Qed.


Lemma consume_manual a r : tracking_type r = MANUAL -> consume a r = r.
Proof. unfold consume. intros H. rewrite H. reflexivity. Qed.


Lemma apply_consumption_cons r reqs (s : gmap Z StockItem) :
  apply_consumption (r :: reqs) s =
    apply_consumption reqs (alter (consume r.2) r.1 s).
Proof. reflexivity. Qed.

Lemma apply_consumption_app reqs1 reqs2 (s : gmap Z StockItem) :
  apply_consumption (reqs1 ++ reqs2) s =
    apply_consumption reqs2 (apply_consumption reqs1 s).
Proof. apply fold_left_app. Qed.

Lemma apply_consumption_cost reqs (s : gmap Z StockItem) k :
  cost_per_unit <$> (apply_consumption reqs s !! k) =
    cost_per_unit <$> (s !! k).
Proof.
  revert s. induction reqs as [| [sid a] reqs IH]; intros s; [reflexivity |].
  rewrite apply_consumption_cons, IH. cbn [fst snd].
  rewrite lookup_alter. case_decide; [subst | reflexivity].
  destruct (s !! k); cbn; [rewrite consume_cost |]; reflexivity.
Qed.

Lemma apply_consumption_manual reqs (s : gmap Z StockItem) k r :
  s !! k = Some r -> tracking_type r = MANUAL ->
  apply_consumption reqs s !! k = Some r.
Proof.
  revert s. induction reqs as [| [sid a] reqs IH]; intros s Hk Hm;
    [assumption |].
  rewrite apply_consumption_cons. apply IH; [| assumption]. cbn [fst snd].
  rewrite lookup_alter. case_decide; [subst | assumption].
  rewrite Hk. cbn. rewrite consume_manual by assumption. reflexivity.
Qed.

Lemma apply_consumption_other reqs (s : gmap Z StockItem) k :
  k ∉ map fst reqs -> apply_consumption reqs s !! k = s !! k.
Proof.
  revert s. induction reqs as [| [sid a] reqs IH]; intros s Hk;
    [reflexivity |].
  cbn [map fst] in Hk. apply not_elem_of_cons in Hk as [Hne Hk].
  rewrite apply_consumption_cons, IH by assumption. cbn [fst snd].
  apply lookup_alter_ne. congruence.
Qed.



(** *** What decides the computed cost *)

Lemma select_recipe_costs_same id t t' :
  menu_item_recipe t' = menu_item_recipe t ->
  (forall k, cost_per_unit <$> (stock_items t' !! k) =
             cost_per_unit <$> (stock_items t !! k)) ->
  select_recipe_costs id t' = select_recipe_costs id t.
Proof.
  intros Hr Hc. unfold select_recipe_costs, recipe_of. rewrite Hr.
  apply map_ext. intros l. rewrite Hc. reflexivity.
Qed.

Lemma computed_cost_same id t t' :
  menu_item_recipe t' = menu_item_recipe t ->
  (forall k, cost_per_unit <$> (stock_items t' !! k) =
             cost_per_unit <$> (stock_items t !! k)) ->
  computed_cost id t' = computed_cost id t.
Proof.
  intros Hr Hc. unfold computed_cost.
  rewrite (select_recipe_costs_same id t t') by assumption. reflexivity.
Qed.

Lemma unit_cost_same w w' :
  cost_cache w' = cost_cache w -> now w' = now w ->
  (forall id, computed_cost id (db w') = computed_cost id (db w)) ->
  forall id, unit_cost w' id = unit_cost w id.
Proof.
  intros Hc Hn Hd id. unfold unit_cost, fresh_entry. rewrite Hc, Hn, Hd.
  reflexivity.
Qed.

(** *** The tables after a batch *)


Lemma record_batch_order_items order cost items t :
  order_items (record_batch order cost items t) =
    order_items t ++ map (order_line order cost) (sold items).
Proof.
  unfold record_batch. generalize (sold items). clear items.
  intros l. revert t. induction l as [| item l IH]; intros t.
  - cbn. rewrite app_nil_r. reflexivity.
  - cbn [fold_left map]. rewrite IH. cbn. rewrite <- app_assoc. reflexivity.
Qed.

Lemma record_batch_rest order cost items t :
  orders (record_batch order cost items t) = orders t
  /\ workers (record_batch order cost items t) = workers t
  /\ monthly_expenses (record_batch order cost items t) = monthly_expenses t
  /\ next_order_id (record_batch order cost items t) = next_order_id t.
Proof.
  unfold record_batch. generalize (sold items). clear items.
  intros l. revert t. induction l as [| item l IH]; intros t.
  - cbn. auto.
  - cbn [fold_left]. destruct (IH (record_sale order cost t item))
      as (-> & -> & -> & ->). cbn. auto.
Qed.

Lemma select_recipe_links_same id t t' :
  menu_item_recipe t' = menu_item_recipe t ->
  select_recipe_links id t' = select_recipe_links id t.
Proof.
  intros H. unfold select_recipe_links, recipe_of. rewrite H. reflexivity.
Qed.


Lemma record_batch_ext order cost cost' items t :
  (forall id, cost' id = cost id) ->
  record_batch order cost' items t = record_batch order cost items t.
Proof.
  intros H. unfold record_batch. generalize (sold items). clear items.
  intros l. revert t. induction l as [| item l IH]; intros t; [reflexivity |].
  cbn [fold_left]. rewrite IH. f_equal.
  unfold record_sale, order_line. rewrite H. reflexivity.
Qed.

End consumption.

(** ** A batch against a store that answers *)

Section reliable_batch.
Local Open Scope Q_scope.

Lemma calculate_answered id w :
  reply_at w = Answer ->
  exists w',
    calculate_menu_item_cost id w = (Return (unit_cost w id), w')
    /\ db w' = db w
    /\ follows w w'
    /\ (forall id', unit_cost w' id' = unit_cost w id').
Proof.
  intros Hr. destruct (fresh_entry w id) as [entry |] eqn:E.
  - eexists. split; [| split; [| split]].
    + rewrite (calculate_hit _ _ _ E). unfold unit_cost. rewrite E. reflexivity.
    + reflexivity.
    + unfold follows. cbn. auto.
    + reflexivity.
  - rewrite (calculate_miss _ _ E), body_answered by exact Hr.
    eexists. split; [| split; [| split]].
    + unfold unit_cost. rewrite E. reflexivity.
    + reflexivity.
    + unfold follows. cbn. auto.
    + intros id'. unfold unit_cost at 1, fresh_entry. cbn.
      destruct (decide (id = id')) as [<- | Hne].
      * rewrite lookup_insert_eq. cbn.
        destruct (Z.ltb_spec (now w) (now w + 60)); [| lia].
        unfold unit_cost. rewrite E. reflexivity.
      * rewrite lookup_insert_ne by assumption. reflexivity.
Qed.

Lemma decrement_ingredients_reliable sold_quantity recipe w :
  reliable w = true ->
  exists w',
    decrement_ingredients sold_quantity recipe w = (Return tt, w')
    /\ db w' =
         set_stock_items
           (apply_consumption (scaled_recipe sold_quantity recipe)) (db w)
    /\ follows w w'
    /\ cost_cache w' = cost_cache w.
Proof.
  revert w. induction recipe as [| [sid used] recipe IH]; intros w Hw.
  - exists w. cbn. split; [reflexivity |]. split; [| split].
    + destruct (db w); reflexivity.
    + apply follows_refl.
    + reflexivity.
  - cbn [decrement_ingredients]. rewrite bind_run.
    answered Hw w1 Hw1.
    destruct (IH w1 Hw1) as (w' & Hrun & Hdb & Hf & Hc).
    exists w'. rewrite Hrun, Hdb. split; [reflexivity |]. split; [| split].
    + reflexivity.
    + apply (follows_trans w w1 w'); auto with worlds.
    + rewrite Hc. reflexivity.
Qed.

Lemma computed_cost_after_sale id order cost t item :
  computed_cost id (record_sale order cost t item) = computed_cost id t.
Proof.
  apply computed_cost_same; [reflexivity |].
  intros k. unfold record_sale. cbn [stock_items set_stock_items].
  apply apply_consumption_cost.
Qed.

Lemma sold_cons_zero item items :
  sd_quantity item.2 = 0%Z -> sold (item :: items) = sold items.
Proof.
  intros H. unfold sold. apply filter_cons_False. intros Hn. apply Hn, H.
Qed.

Lemma sold_cons_nonzero item items :
  sd_quantity item.2 <> 0%Z -> sold (item :: items) = item :: sold items.
Proof. intros H. unfold sold. apply filter_cons_True, H. Qed.

(** One turn of the loop, from the point where the cost calculator has
    returned and the store answers from then on. *)
Lemma sell_items_step order item_id details items :
  sells_reliably order items ->
  forall total w cost w1,
    sd_quantity details <> 0%Z ->
    calculate_menu_item_cost item_id w = (Return cost, w1) ->
    reliable w1 = true ->
    exists w',
      sell_items order ((item_id, details) :: items) total w =
        (Return (total_after ((item_id, details) :: items) total), w')
      /\ db w' =
           record_batch order (unit_cost w1) items
             (record_sale order (fun _ => cost) (db w1) (item_id, details))
      /\ follows w1 w'
      /\ (forall id, unit_cost w' id = unit_cost w1 id).
Proof.
  intros IH total w cost w1 Hnz Hrun1 Hw1. cbn [sell_items].
  destruct (Z.eqb_spec (sd_quantity details) 0) as [Hz | _]; [contradiction |].
  rewrite bind_run, Hrun1.
  answered Hw1 w2 Hw2. cbn [fst]. unfold query.
  answered Hw2 w3 Hw3. cbn [fst]. rewrite bind_run.
  assert (Hf3 : follows w1 w3) by auto with worlds.
  destruct (decrement_ingredients_reliable (sd_quantity details)
              (select_recipe_links item_id (db w2)) w3 Hw3)
    as (w4 & Hrun4 & Hdb4 & Hf4 & Hc4).
  rewrite Hrun4.
  pose proof (reliable_follows _ _ Hf4 Hw3) as Hw4.
  assert (Hdb : db w4 =
            record_sale order (fun _ => cost) (db w1) (item_id, details)).
  { rewrite Hdb4. reflexivity. }
  assert (Hc : forall id, unit_cost w4 id = unit_cost w1 id).
  { apply unit_cost_same.
    - rewrite Hc4. reflexivity.
    - destruct Hf4 as (_ & -> & _). reflexivity.
    - intros id. rewrite Hdb. apply computed_cost_after_sale. }
  destruct (IH w4
              (total + sale_price details * inject_Z (sd_quantity details))
              Hw4)
    as (w' & Hrun & Hdb' & Hf & Hc').
  exists w'. split; [| split; [| split]].
  - rewrite Hrun. unfold total_after.
    rewrite sold_cons_nonzero by exact Hnz. reflexivity.
  - rewrite Hdb', Hdb. apply record_batch_ext, Hc.
  - apply (follows_trans w1 w3 w'); [exact Hf3 |].
    apply (follows_trans w3 w4 w'); assumption.
  - intros id. rewrite Hc'. apply Hc.
Qed.

Lemma sell_items_reliable order items : sells_reliably order items.
Proof.
  induction items as [| [item_id details] items IH]; intros w total Hw.
  - exists w. repeat split; reflexivity.
  - destruct (Z.eqb_spec (sd_quantity details) 0) as [Hz | Hnz].
    + destruct (IH w total Hw) as (w' & Hrun & Hdb & Hf & Hc).
      exists w'. cbn [sell_items]. rewrite Hz. cbn [Z.eqb].
      unfold total_after, record_batch in *.
      rewrite sold_cons_zero by exact Hz. auto.
    + destruct (calculate_answered item_id w (reliable_reply _ Hw))
        as (w1 & Hrun1 & Hdb1 & Hf1 & Hc1).
      pose proof (reliable_follows _ _ Hf1 Hw) as Hw1.
      destruct (sell_items_step order item_id details items IH total w _ w1
                  Hnz Hrun1 Hw1) as (w' & Hrun & Hdb & Hf & Hc).
      exists w'. split; [exact Hrun |]. split; [| split].
      * rewrite Hdb, Hdb1. unfold record_batch at 2.
        rewrite sold_cons_nonzero by exact Hnz. cbn [fold_left].
        apply (record_batch_ext order (unit_cost w) (unit_cost w1)), Hc1.
      * eapply follows_trans; eassumption.
      * intros id. rewrite Hc. apply Hc1.
Qed.

End reliable_batch.

(** ** Recording a batch *)

Section recording.
Local Open Scope Q_scope.

Lemma process_daily_sales_reliable server_id sales_dict sales_date w :
  reliable w = true ->
  exists w',
    process_daily_sales server_id sales_dict sales_date w =
      (Return (total_after sales_dict 0), w')
    /\ db w' =
         record_batch (next_order_id (db w)) (unit_cost w) sales_dict
           (insert_order server_id (combine sales_date noon) (db w)).2
    /\ follows w w'.
Proof.
  intros Hw. unfold process_daily_sales, try_except.
  answered Hw w1 Hw1.
  assert (Hf1 : follows w w1) by auto with worlds.
  cbn [fst insert_order o_id].
  destruct (sell_items_reliable (next_order_id (db w)) sales_dict w1 0 Hw1)
    as (w' & Hrun & Hdb & Hf & Hc).
  rewrite Hrun. exists w'. split; [reflexivity |]. split.
  - rewrite Hdb. apply record_batch_ext. intros id. symmetry.
    apply unit_cost_same; try reflexivity.
  - eapply follows_trans; eassumption.
Qed.

Lemma total_after_revenue sales_dict :
  total_after sales_dict 0 == batch_revenue sales_dict.
Proof.
  unfold total_after, batch_revenue.
  rewrite (fold_left_acc
             (fun item => sale_price item.2 * inject_Z (sd_quantity item.2))).
  ring.
Qed.

Lemma unit_cost_is_calculated id w :
  reply_at w = Answer ->
  (calculate_menu_item_cost id w).1 = Return (unit_cost w id).
Proof.
  intros H. destruct (calculate_answered id w H) as (w' & -> & _).
  reflexivity.
Qed.

(** C1.  Against a store that answers, a batch creates exactly one order,
    stamped noon of the sales date; the items with quantity 0 are dropped;
    every other item yields exactly one order item, in order, carrying the
    quantity, the price the caller supplied and the unit cost the cost
    calculator gives for the item (not multiplied by the quantity); and the
    value returned is the sum over those items of price times quantity. *)
Theorem process_daily_sales_records
    (server_id : Z) (sales_dict : list (Z * sale_details)) (sales_date : date)
    (w : World) :
  reliable w = true ->
  let order := {| o_id := next_order_id (db w); server_id := server_id;
                  timestamp := DateTime sales_date (Time 12 0 0 0) |} in
  exists total w',
    process_daily_sales server_id sales_dict sales_date w = (Return total, w')
    /\ orders (db w') = orders (db w) ++ [order]
    /\ order_items (db w') =
         order_items (db w) ++
         map (fun item =>
                {| order_id := o_id order;
                   oi_menu_item_id := item.1;
                   quantity := sd_quantity item.2;
                   price_at_sale := sale_price item.2;
                   cost_at_sale := unit_cost w item.1 |})
             (sold sales_dict)
    /\ (forall item,
          item ∈ sold sales_dict <->
          item ∈ sales_dict /\ sd_quantity item.2 <> 0%Z)
    /\ (forall id,
          (calculate_menu_item_cost id w).1 = Return (unit_cost w id))
    /\ total ==
         Qsum (map (fun item =>
                      sale_price item.2 * inject_Z (sd_quantity item.2))
                   (sold sales_dict)).
Proof.
  intros Hw order.
  destruct (process_daily_sales_reliable server_id sales_dict sales_date w Hw)
    as (w' & Hrun & Hdb & Hf).
  exists (total_after sales_dict 0), w'. split; [exact Hrun |].
  rewrite Hdb. split; [| split; [| split; [| split]]].
  - destruct (record_batch_rest (next_order_id (db w)) (unit_cost w)
                sales_dict
                (insert_order server_id (combine sales_date noon) (db w)).2)
      as (-> & _). reflexivity.
  - rewrite record_batch_order_items. reflexivity.
  - intros item. unfold sold. rewrite list_elem_of_filter. tauto.
  - intros id. apply unit_cost_is_calculated, reliable_reply, Hw.
  - apply total_after_revenue.
Qed.

Lemma process_daily_sales_records_witness :
  exists total w',
    process_daily_sales 1 two_and_none (Date 2024 2 14) cafe
      = (Return total, w')
    /\ orders (db w') =
         [ {| o_id := 1; server_id := 1;
              timestamp := DateTime (Date 2024 2 14) (Time 12 0 0 0) |} ]
    /\ length (order_items (db w')) = 1%nat
    /\ total == 10.
Proof.
  destruct (process_daily_sales_records 1 two_and_none (Date 2024 2 14) cafe)
    as (total & w' & Hrun & Ho & Hi & _ & _ & Ht).
  - reflexivity.
  - exists total, w'. split; [exact Hrun |]. split; [exact Ho |]. split.
    + rewrite Hi. reflexivity.
    + rewrite Ht. reflexivity.
Defined.

End recording.

(** ** The cost calculator *)

Section cost_calculator.
Local Open Scope Q_scope.

(** The loop over the fetched rows adds quantity used times cost per unit
    for the links that have a stock item. *)
Lemma add_ingredient_costs_sum (stock : gmap Z StockItem)
    (links : list RecipeLink) (acc : Q) :
  add_ingredient_costs
    (map (fun l =>
            {| rc_quantity_used := quantity_used l;
               rc_stock_items :=
                 cost_per_unit <$> (stock !! rl_stock_item_id l) |}) links)
    acc
  == acc + Qsum (map (fun p => quantity_used p.1 * cost_per_unit p.2)
                     (omap (fun l => pair l <$> (stock !! rl_stock_item_id l))
                           links)).
Proof.
  revert acc. induction links as [| l links IH]; intros acc.
  - cbn. ring.
  - cbn -[Qplus Qmult].
    destruct (stock !! rl_stock_item_id l) as [s |]; cbn -[Qplus Qmult].
    + rewrite IH. ring.
    + apply IH.
Qed.

Lemma computed_cost_is_recipe_cost id t :
  computed_cost id t == recipe_cost id t.
Proof.
  unfold computed_cost, recipe_cost, priced_recipe.
  pose proof (add_ingredient_costs_sum (stock_items t) (recipe_of id t) 0) as H.
  fold (select_recipe_costs id t) in H.
  destruct (select_recipe_costs id t) eqn:E.
  - unfold select_recipe_costs in E. apply map_eq_nil in E. rewrite E.
    reflexivity.
  - rewrite H. ring.
Qed.

Lemma computed_cost_no_recipe id t :
  recipe_of id t = [] -> computed_cost id t = 0.
Proof.
  intros H. unfold computed_cost, select_recipe_costs. rewrite H. reflexivity.
Qed.

Lemma calculate_miss_answered id w :
  fresh_entry w id = None -> reply_at w = Answer ->
  exists w',
    calculate_menu_item_cost id w = (Return (computed_cost id (db w)), w')
    /\ db w' = db w
    /\ fresh_entry w' id =
         Some {| ce_value := computed_cost id (db w); ce_elements := [];
                 ce_stored := now w |}.
Proof.
  intros E Hr. rewrite (calculate_miss _ _ E), body_answered by exact Hr.
  eexists. split; [reflexivity |]. split; [reflexivity |].
  unfold fresh_entry. cbn. rewrite lookup_insert_eq. cbn.
  destruct (Z.ltb_spec (now w) (now w + 60)); [reflexivity | lia].
Qed.

Lemma calculate_miss_thrown id w :
  fresh_entry w id = None -> reply_at w = Throws ->
  exists w',
    calculate_menu_item_cost id w = (Return 0, w')
    /\ db w' = db w
    /\ follows w w'
    /\ calls w' = S (calls w)
    /\ unit_cost w' id = 0
    /\ (forall id', id' <> id -> unit_cost w' id' = unit_cost w id').
Proof.
  intros E Hr. rewrite (calculate_miss _ _ E), body_thrown by exact Hr.
  eexists. split; [reflexivity |]. split; [reflexivity |].
  split; [unfold follows; cbn; auto |]. split; [reflexivity |].
  split.
  - unfold unit_cost, fresh_entry. cbn. rewrite lookup_insert_eq. cbn.
    destruct (Z.ltb_spec (now w) (now w + 60)); [reflexivity | lia].
  - intros id' Hne. unfold unit_cost, fresh_entry. cbn.
    rewrite lookup_insert_ne by congruence. reflexivity.
Qed.

(** C3 (as amended).  When the cost calculator holds no result for the menu
    item that was memoised less than 60 seconds ago, and the store answers
    the recipe lookup, the calculator returns the sum over the item's recipe
    links, each joined with its stock item, of quantity used times the
    current cost per unit; for a menu item with no recipe links it returns
    exactly 0.  The result is memoised.  When the calculator holds a result
    for the menu item that was memoised less than 60 seconds ago, it returns
    that result as it is, whatever the tables hold: it sends no request and
    leaves the tables and the memo table as they are. *)
Theorem calculate_menu_item_cost_is_recipe_cost (menu_item_id : Z) (w : World) :
  (fresh_entry w menu_item_id = None ->
   reply_at w = Answer ->
   exists cost w',
     calculate_menu_item_cost menu_item_id w = (Return cost, w')
     /\ cost == recipe_cost menu_item_id (db w)
     /\ (recipe_of menu_item_id (db w) = [] -> cost = 0)
     /\ db w' = db w
     /\ (ce_value <$> fresh_entry w' menu_item_id) = Some cost)
  /\ (forall entry,
        cost_cache w !! menu_item_id = Some entry ->
        (now w < ce_stored entry + 60)%Z ->
        exists w',
          calculate_menu_item_cost menu_item_id w
            = (Return (ce_value entry), w')
          /\ db w' = db w
          /\ journal w' = journal w
          /\ calls w' = calls w
          /\ cost_cache w' = cost_cache w).
Proof.
  split.
  - intros E Hr.
    destruct (calculate_miss_answered menu_item_id w E Hr)
      as (w' & Hrun & Hdb & Hc).
    exists (computed_cost menu_item_id (db w)), w'.
    split; [exact Hrun |]. split; [apply computed_cost_is_recipe_cost |].
    split; [apply computed_cost_no_recipe |]. split; [exact Hdb |].
    rewrite Hc. reflexivity.
  - intros entry Hentry Hyoung.
    assert (Hfresh : fresh_entry w menu_item_id = Some entry).
    { unfold fresh_entry. rewrite Hentry.
      destruct (Z.ltb_spec (now w) (ce_stored entry + 60));
        [reflexivity | lia]. }
    rewrite (calculate_hit _ _ _ Hfresh). eexists.
    split; [reflexivity |]. repeat split.
Qed.

(** In the cafe the cost of menu item 1 is 6/100; and once it is memoised,
    6/100 is returned in the same minute although the beans have been
    removed from the recipe. *)
Lemma calculate_menu_item_cost_is_recipe_cost_witness :
  (exists cost w',
     calculate_menu_item_cost 1 cafe = (Return cost, w')
     /\ cost == 6 # 100)
  /\ (exists w',
        calculate_menu_item_cost 1 cafe_edited = (Return (6 # 100), w')
        /\ db w' = db cafe_edited).
Proof.
  split.
  - destruct (proj1 (calculate_menu_item_cost_is_recipe_cost 1 cafe))
      as (cost & w' & Hrun & Hcost & _).
    + reflexivity.
    + reflexivity.
    + exists cost, w'. split; [exact Hrun |]. rewrite Hcost. reflexivity.
  - destruct (proj2 (calculate_menu_item_cost_is_recipe_cost 1 cafe_edited)
                {| ce_value := 6 # 100; ce_elements := []; ce_stored := 0 |})
      as (w' & Hrun & Hdb & _).
    + vm_compute. reflexivity.
    + reflexivity.
    + exists w'. split; [exact Hrun | exact Hdb].
Defined.

(** C3, as stated, fails while a memoised result is younger than 60 seconds:
    the calculator returns what it computed before the recipe changed, not
    the sum over the recipe links as they are. *)
Lemma calculate_menu_item_cost_stale :
  (calculate_menu_item_cost 1 cafe_edited).1 = Return (6 # 100)
  /\ recipe_cost 1 (db cafe_edited) == 0
  /\ ~ (6 # 100 == recipe_cost 1 (db cafe_edited)).
Proof.
  split; [vm_compute; reflexivity |].
  split; [vm_compute; reflexivity |].
  vm_compute. discriminate.
Qed.

End cost_calculator.

(** ** What a batch takes from the stock, whatever the store replies *)

Section stock_frame.
Local Open Scope Q_scope.

Lemma among_nil allowed : among [] allowed.
Proof. intros r H. inversion H. Qed.

Lemma among_app reqs1 reqs2 allowed :
  among reqs1 allowed -> among reqs2 allowed -> among (reqs1 ++ reqs2) allowed.
Proof.
  intros H1 H2 r Hr. apply elem_of_app in Hr as [Hr | Hr]; auto.
Qed.

Lemma among_refl reqs : among reqs reqs.
Proof. intros r Hr. exact Hr. Qed.

Lemma among_cons_inv r reqs allowed :
  among (r :: reqs) allowed -> r ∈ allowed /\ among reqs allowed.
Proof.
  intros H. split; [apply H; left | intros r' Hr'; apply H; right; exact Hr'].
Qed.

Lemma stock_taken_refl allowed t : stock_taken allowed t t.
Proof.
  split; [reflexivity |]. exists []. split; [apply among_nil | reflexivity].
Qed.

Lemma stock_taken_untouched allowed t0 t t' :
  stock_taken allowed t0 t ->
  menu_item_recipe t' = menu_item_recipe t ->
  stock_items t' = stock_items t ->
  stock_taken allowed t0 t'.
Proof.
  intros (Hr & reqs & Ha & Hs) Hr' Hs'. split; [congruence |].
  exists reqs. split; [exact Ha | congruence].
Qed.

Lemma stock_taken_step allowed t0 t r :
  stock_taken allowed t0 t -> r ∈ allowed ->
  stock_taken allowed t0 (decrement_stock r.1 r.2 t).2.
Proof.
  intros (Hr & reqs & Ha & Hs) Hin. split; [exact Hr |].
  exists (reqs ++ [r]). split.
  - apply among_app; [exact Ha |]. intros r' Hr'.
    apply list_elem_of_singleton in Hr'. subst. exact Hin.
  - cbn. rewrite apply_consumption_app, Hs. reflexivity.
Qed.

Lemma decrement_ingredients_takes t0 allowed sold_quantity recipe :
  among (scaled_recipe sold_quantity recipe) allowed ->
  hoare (fun w => stock_taken allowed t0 (db w))
        (decrement_ingredients sold_quantity recipe)
        (fun _ w => stock_taken allowed t0 (db w)).
Proof.
  induction recipe as [| [sid used] recipe IH]; intros Ha.
  - apply hoare_ret. auto.
  - cbn [decrement_ingredients]. apply among_cons_inv in Ha as [Hin Ha].
    eapply hoare_bind with (Q1 := fun _ w => stock_taken allowed t0 (db w)).
    + apply hoare_execute; intros w Hw _; cbn [db set_db record_call];
        try exact Hw.
      apply (stock_taken_step allowed t0 (db w) _ Hw Hin).
    + intros _. apply IH, Ha.
    + auto.
Qed.

Lemma batch_consumption_cons_zero item items t :
  sd_quantity item.2 = 0%Z ->
  batch_consumption (item :: items) t = batch_consumption items t.
Proof.
  intros H. unfold batch_consumption. rewrite sold_cons_zero by exact H.
  reflexivity.
Qed.

Lemma batch_consumption_cons_nonzero item items t :
  sd_quantity item.2 <> 0%Z ->
  batch_consumption (item :: items) t =
    scaled_recipe (sd_quantity item.2) (select_recipe_links item.1 t)
    ++ batch_consumption items t.
Proof.
  intros H. unfold batch_consumption. rewrite sold_cons_nonzero by exact H.
  reflexivity.
Qed.

Lemma sell_items_takes t0 allowed order items :
  forall total,
    among (batch_consumption items t0) allowed ->
    hoare (fun w => stock_taken allowed t0 (db w))
          (sell_items order items total)
          (fun _ w => stock_taken allowed t0 (db w)).
Proof.
  induction items as [| [item_id details] items IH]; intros total Ha.
  - apply hoare_ret. auto.
  - cbn [sell_items].
    destruct (Z.eqb_spec (sd_quantity details) 0) as [Hz | Hnz].
    + apply IH. rewrite batch_consumption_cons_zero in Ha by exact Hz.
      exact Ha.
    + rewrite batch_consumption_cons_nonzero in Ha by exact Hnz.
      cbn [fst snd] in Ha.
      set (I := fun w => stock_taken allowed t0 (db w)).
      eapply hoare_bind with (Q1 := fun _ w => I w).
      { apply hoare_calculate. intros w cost w' Hw Hdb _.
        unfold I. rewrite Hdb. exact Hw. }
      2: { auto. }
      intros cost.
      eapply hoare_bind with (Q1 := fun _ w => I w).
      { apply hoare_execute; intros w Hw _; exact Hw. }
      2: { auto. }
      intros _.
      eapply hoare_bind
        with (Q1 := fun r w =>
                I w /\ forall rows, r = Return rows ->
                         rows = select_recipe_links item_id t0 \/ rows = []).
      { apply hoare_execute; intros w Hw _; (split; [exact Hw |]).
        - intros rows [= <-]. left. cbn [fst].
          apply select_recipe_links_same. apply Hw.
        - intros rows [= <-]. right. reflexivity.
        - intros rows [=]. }
      2: { intros e w [Hw _]. exact Hw. }
      intros rows.
      eapply hoare_bind with (Q1 := fun _ w => I w).
      { intros w [Hw Hrows]. revert w Hw.
        apply decrement_ingredients_takes.
        destruct (Hrows rows eq_refl) as [-> | ->].
        - intros r Hr. apply Ha, elem_of_app. left. exact Hr.
        - apply among_nil. }
      2: { auto. }
      intros _. apply IH. intros r Hr. apply Ha, elem_of_app. right. exact Hr.
Qed.

End stock_frame.

Section stock_claims.
Local Open Scope Q_scope.

Lemma hoare_report_and_return {A} (P : World -> Prop) (t : text) (a : A) :
  (forall w, P w -> forall p, P (set_page p w)) ->
  hoare P (_ ← st_error t; mret a) (fun _ w => P w).
Proof.
  intros H. eapply hoare_bind with (Q1 := fun _ w => P w).
  - apply hoare_show. intros w Hw. apply H, Hw.
  - intros _. apply hoare_ret. auto.
  - auto.
Qed.

Lemma process_daily_sales_takes server_id sales_dict sales_date t0 :
  hoare (fun w => db w = t0)
        (process_daily_sales server_id sales_dict sales_date)
        (fun _ w =>
           stock_taken (batch_consumption sales_dict t0) t0 (db w)).
Proof.
  set (I := fun w => stock_taken (batch_consumption sales_dict t0) t0 (db w)).
  unfold process_daily_sales.
  eapply hoare_try_except with (Q1 := fun _ w => I w).
  - eapply hoare_bind with (Q1 := fun _ w => I w).
    + apply hoare_execute; intros w <- _;
        (eapply stock_taken_untouched;
         [apply stock_taken_refl | reflexivity..]).
    + intros [| order _].
      * apply hoare_report_and_return. intros w Hw p. exact Hw.
      * apply sell_items_takes, among_refl.
    + auto.
  - auto.
  - intros e. apply hoare_report_and_return. intros w Hw p. exact Hw.
Qed.

Lemma apply_consumption_none reqs (s : gmap Z StockItem) k :
  s !! k = None -> apply_consumption reqs s !! k = None.
Proof.
  intros H. pose proof (apply_consumption_cost reqs s k) as Hc.
  rewrite H in Hc. cbn in Hc. apply fmap_None in Hc. exact Hc.
Qed.

Lemma in_batch_consumption r sales_dict t :
  r ∈ batch_consumption sales_dict t ->
  exists menu_item link,
    menu_item ∈ sold sales_dict
    /\ link ∈ recipe_of menu_item.1 t
    /\ r = (rl_stock_item_id link,
            quantity_used link * inject_Z (sd_quantity menu_item.2)).
Proof.
  unfold batch_consumption, select_recipe_links.
  rewrite list_elem_of_In, in_flat_map.
  intros (menu_item & Hin & Hr). rewrite map_map, in_map_iff in Hr.
  destruct Hr as (link & <- & Hl).
  exists menu_item, link. rewrite !list_elem_of_In. auto.
Qed.

(** C2.  With [decrement_stock] as the specification describes it, a batch
    never changes a stock item whose tracking mode is MANUAL, whatever the
    store replies; and a stock item that a batch does change is tracked UNIT
    or MULTI-USE and is an ingredient of a menu item sold in the batch. *)
Theorem manual_stock_never_decremented
    (server_id : Z) (sales_dict : list (Z * sale_details)) (sales_date : date)
    (w : World) :
  let w' := (process_daily_sales server_id sales_dict sales_date w).2 in
  (forall stock_item_id item,
     stock_items (db w) !! stock_item_id = Some item ->
     tracking_type item = MANUAL ->
     stock_items (db w') !! stock_item_id = Some item)
  /\ (forall stock_item_id,
        stock_items (db w') !! stock_item_id
          <> stock_items (db w) !! stock_item_id ->
        exists item menu_item link,
          stock_items (db w) !! stock_item_id = Some item
          /\ (tracking_type item = UNIT \/ tracking_type item = MULTI_USE)
          /\ menu_item ∈ sold sales_dict
          /\ link ∈ recipe_of menu_item.1 (db w)
          /\ rl_stock_item_id link = stock_item_id).
Proof.
  intros w'.
  destruct (process_daily_sales_takes server_id sales_dict sales_date (db w) w
              eq_refl) as (_ & reqs & Ha & Hs).
  fold w' in Hs. split.
  - intros k item Hk Hm. rewrite Hs. apply apply_consumption_manual; assumption.
  - intros k Hne. rewrite Hs in Hne.
    destruct (stock_items (db w) !! k) as [item |] eqn:Hk.
    2: { exfalso. apply Hne. apply apply_consumption_none, Hk. }
    destruct (decide (k ∈ map fst reqs)) as [Hin | Hout].
    2: { exfalso. apply Hne. rewrite apply_consumption_other by exact Hout.
         exact Hk. }
    apply list_elem_of_In, in_map_iff in Hin as (r & <- & Hr).
    apply list_elem_of_In, Ha, in_batch_consumption in Hr
      as (menu_item & link & Hsold & Hlink & ->).
    exists item, menu_item, link. cbn [fst] in *.
    split; [reflexivity |]. split; [| auto].
    destruct (tracking_type item) eqn:Ht; auto.
    exfalso. apply Hne. apply apply_consumption_manual; assumption.
Qed.

(** The napkins of the cafe, which are tracked MANUAL and are in the recipe
    of menu item 1, are as they were after three of item 1 were sold. *)
Lemma manual_stock_never_decremented_witness :
  stock_items
    (db (process_daily_sales 1 three_espressos (Date 2024 2 14) cafe).2)
    !! 11%Z = Some napkins.
Proof.
  apply (manual_stock_never_decremented 1 three_espressos (Date 2024 2 14)
           cafe).
  - reflexivity.
  - reflexivity.
Defined.



(** *** The decrement requests of a batch against a store that answers *)


Lemma replicate_snoc {A} (n : nat) (x : A) :
  replicate n x ++ [x] = replicate (S n) x.
Proof.
  induction n as [| n IH]; cbn; [reflexivity |]. rewrite IH. reflexivity.
Qed.










End stock_claims.

(** ** A failing cost lookup *)

Section failing_lookup.
Local Open Scope Q_scope.

Lemma add_ingredient_costs_app rows1 rows2 acc :
  add_ingredient_costs (rows1 ++ rows2) acc =
    add_ingredient_costs rows2 (add_ingredient_costs rows1 acc).
Proof.
  revert acc. induction rows1 as [| row rows1 IH]; intros acc; [reflexivity |].
  cbn [app add_ingredient_costs]. destruct (rc_stock_items row); apply IH.
Qed.

Lemma absent_ingredient_adds_nothing rows1 row rows2 acc :
  rc_stock_items row = None ->
  add_ingredient_costs (rows1 ++ row :: rows2) acc =
    add_ingredient_costs (rows1 ++ rows2) acc.
Proof.
  intros H. rewrite !add_ingredient_costs_app. cbn [add_ingredient_costs].
  rewrite H. reflexivity.
Qed.

Lemma batch_with_failed_lookup server_id item_id details items sales_date w :
  sd_quantity details <> 0%Z ->
  fresh_entry w item_id = None ->
  nth (calls w) (script w) Answer = Answer ->
  nth (S (calls w)) (script w) Answer = Throws ->
  forallb (reply_eqb Answer) (drop (S (S (calls w))) (script w)) = true ->
  exists w',
    process_daily_sales server_id ((item_id, details) :: items) sales_date w =
      (Return (total_after ((item_id, details) :: items) 0), w')
    /\ order_items (db w') =
         order_items (db w) ++
         {| order_id := next_order_id (db w);
            oi_menu_item_id := item_id;
            quantity := sd_quantity details;
            price_at_sale := sale_price details;
            cost_at_sale := 0 |}
         :: map (order_line (next_order_id (db w))
                   (cost_after_failure w item_id))
                (sold items).
Proof.
  intros Hnz E H0 H1 H2. unfold process_daily_sales, try_except.
  rewrite bind_run, execute_answered by exact H0.
  set (w1 := set_db _ _). cbn [fst insert_order o_id].
  destruct (calculate_miss_thrown item_id w1 E H1)
    as (w2 & Hrun2 & Hdb2 & Hf2 & Hc2 & Hz & Hother).
  assert (Hw2 : reliable w2 = true).
  { unfold reliable. rewrite Hc2. destruct Hf2 as (-> & _). exact H2. }
  destruct (sell_items_step (next_order_id (db w)) item_id details items
              (sell_items_reliable _ items) 0 w1 0 w2 Hnz Hrun2 Hw2)
    as (w' & Hrun & Hdb & _).
  rewrite Hrun. exists w'. split; [reflexivity |].
  rewrite Hdb, record_batch_order_items, Hdb2. cbn. rewrite <- app_assoc.
  cbn. do 2 f_equal. apply map_ext. intros [id d].
  unfold order_line, cost_after_failure. cbn [fst snd]. f_equal.
  case_decide as Hid; [subst; exact Hz |]. apply Hother, Hid.
Qed.

(** C9.  When the cost calculator performs its recipe lookup and the lookup
    raises, the calculator returns 0, the value it also returns for a menu
    item without recipe links; a fetched ingredient row whose stock item is
    absent adds nothing to the sum; and a batch whose cost lookup raises
    while its other requests are answered succeeds and records the item with
    a cost at sale of 0. *)
Theorem failed_cost_lookup_looks_free :
  (forall id w,
     fresh_entry w id = None -> reply_at w = Throws ->
     (calculate_menu_item_cost id w).1 = Return 0)
  /\ (forall id w,
        fresh_entry w id = None -> reply_at w = Answer ->
        recipe_of id (db w) = [] ->
        (calculate_menu_item_cost id w).1 = Return 0)
  /\ (forall rows1 row rows2 total_cost,
        rc_stock_items row = None ->
        add_ingredient_costs (rows1 ++ row :: rows2) total_cost =
          add_ingredient_costs (rows1 ++ rows2) total_cost)
  /\ (forall server_id item_id details items sales_date w,
        sd_quantity details <> 0%Z ->
        fresh_entry w item_id = None ->
        nth (calls w) (script w) Answer = Answer ->
        nth (S (calls w)) (script w) Answer = Throws ->
        forallb (reply_eqb Answer) (drop (S (S (calls w))) (script w))
          = true ->
        exists total w' later,
          process_daily_sales server_id ((item_id, details) :: items)
            sales_date w = (Return total, w')
          /\ total == batch_revenue ((item_id, details) :: items)
          /\ order_items (db w') =
               order_items (db w) ++
               {| order_id := next_order_id (db w);
                  oi_menu_item_id := item_id;
                  quantity := sd_quantity details;
                  price_at_sale := sale_price details;
                  cost_at_sale := 0 |} :: later).
Proof.
  split; [| split; [| split]].
  - intros id w E Hr.
    destruct (calculate_miss_thrown id w E Hr) as (w' & -> & _). reflexivity.
  - intros id w E Hr Hnone.
    destruct (calculate_miss_answered id w E Hr) as (w' & -> & _).
    cbn [fst]. rewrite computed_cost_no_recipe by exact Hnone. reflexivity.
  - apply absent_ingredient_adds_nothing.
  - intros server_id item_id details items sales_date w Hnz E H0 H1 H2.
    destruct (batch_with_failed_lookup server_id item_id details items
                sales_date w Hnz E H0 H1 H2) as (w' & Hrun & Hitems).
    eexists _, w', _. split; [exact Hrun |].
    split; [apply total_after_revenue | exact Hitems].
Qed.

(** In the cafe, with a store that raises on its second request: the lookup
    of the cost calculator returns 0, and three of menu item 1 are recorded
    with a cost at sale of 0. *)
Lemma failed_cost_lookup_looks_free_witness :
  (calculate_menu_item_cost 1 (cafe_with [Throws])).1 = Return 0
  /\ (calculate_menu_item_cost 2 cafe).1 = Return 0
  /\ exists total w' later,
       process_daily_sales 1 three_espressos (Date 2024 2 14)
         (cafe_with [Answer; Throws]) = (Return total, w')
       /\ total == 15
       /\ order_items (db w') =
            {| order_id := 1; oi_menu_item_id := 1; quantity := 3;
               price_at_sale := 5; cost_at_sale := 0 |} :: later.
Proof.
  destruct failed_cost_lookup_looks_free as (Ha & Hb & _ & Hd).
  split; [apply Ha; reflexivity |].
  split; [apply Hb; reflexivity |].
  destruct (Hd 1%Z 1%Z {| sd_quantity := 3; sale_price := 5 |} []
              (Date 2024 2 14) (cafe_with [Answer; Throws]))
    as (total & w' & later & Hrun & Ht & Hi);
    try reflexivity; try discriminate.
  exists total, w', later. split; [exact Hrun |].
  split; [rewrite Ht; reflexivity | exact Hi].
Defined.

End failing_lookup.

(** ** The value a batch returns *)

Section returned_value.
Local Open Scope Q_scope.

Lemma clean_since_start w : clean_since (journal w) w.
Proof.
  exists []. split; [rewrite app_nil_r; reflexivity |].
  intros ep H. inversion H.
Qed.

Lemma clean_since_same j0 w w' :
  clean_since j0 w -> journal w' = journal w -> clean_since j0 w'.
Proof. intros (j & Hj & Hc) H. exists j. split; [congruence | exact Hc]. Qed.

Lemma clean_since_more j0 w w' ep r :
  clean_since j0 w ->
  journal w' = journal w ++ [(ep, r)] ->
  (r = Throws -> ep = recipe_costs_select) ->
  clean_since j0 w'.
Proof.
  intros (j & Hj & Hc) H Hr. exists (j ++ [(ep, r)]). split.
  - rewrite H, Hj, app_assoc. reflexivity.
  - intros ep' Hin. apply elem_of_app in Hin as [Hin | Hin]; [apply Hc, Hin |].
    apply list_elem_of_singleton in Hin. injection Hin as -> <-.
    apply Hr. reflexivity.
Qed.

Lemma hoare_execute_clean {A} j0 ep (no_rows : A) request :
  hoare (clean_since j0) (execute ep no_rows request) (returned_clean j0).
Proof.
  apply hoare_execute; intros w Hw _; cbn [returned_clean]; [| | exact I].
  - eapply clean_since_more; [exact Hw | reflexivity | discriminate].
  - eapply clean_since_more; [exact Hw | reflexivity | discriminate].
Qed.

Lemma hoare_calculate_clean j0 id :
  hoare (clean_since j0) (calculate_menu_item_cost id) (returned_clean j0).
Proof.
  apply hoare_calculate. intros w cost w' Hw _ [Hj | [r Hj]]; cbn.
  - eapply clean_since_same; eassumption.
  - eapply clean_since_more; [exact Hw | exact Hj | reflexivity].
Qed.

Lemma decrement_ingredients_clean j0 sold_quantity recipe :
  hoare (clean_since j0) (decrement_ingredients sold_quantity recipe)
        (returned_clean j0).
Proof.
  induction recipe as [| [sid used] recipe IH].
  - apply hoare_ret. auto.
  - cbn [decrement_ingredients]. eapply hoare_bind.
    + apply hoare_execute_clean.
    + intros ?. exact IH.
    + auto.
Qed.

Lemma sell_items_clean j0 order items :
  forall total,
    hoare (clean_since j0) (sell_items order items total) (returned_clean j0).
Proof.
  induction items as [| [item_id details] items IH]; intros total.
  - apply hoare_ret. auto.
  - cbn [sell_items]. destruct (sd_quantity details =? 0)%Z; [apply IH |].
    eapply hoare_bind; [apply hoare_calculate_clean | | auto]. intros cost.
    eapply hoare_bind; [apply hoare_execute_clean | | auto]. intros ?.
    eapply hoare_bind; [apply hoare_execute_clean | | auto]. intros rows.
    eapply hoare_bind; [apply decrement_ingredients_clean | | auto].
    intros ?. apply IH.
Qed.

(** Either the batch returns 0, or none of the requests it sent itself
    raised. *)
Lemma process_daily_sales_clean server_id sales_dict sales_date w :
  (process_daily_sales server_id sales_dict sales_date w).1 = Return 0
  \/ clean_since (journal w)
       (process_daily_sales server_id sales_dict sales_date w).2.
Proof.
  set (j0 := journal w).
  enough (H : hoare (clean_since j0)
                (process_daily_sales server_id sales_dict sales_date)
                (fun r w' => r = Return 0 \/ clean_since j0 w'))
    by (apply H, clean_since_start).
  unfold process_daily_sales.
  eapply hoare_try_except with (Q1 := returned_clean j0).
  - eapply hoare_bind; [apply hoare_execute_clean | | auto].
    intros [| order rest].
    + eapply hoare_bind with (Q1 := fun _ w' => clean_since j0 w').
      * apply hoare_show. intros w' Hw'. exact Hw'.
      * intros _. apply hoare_ret. auto.
      * intros e w' _. exact I.
    + apply sell_items_clean.
  - intros a w' H. right. exact H.
  - intros e. eapply hoare_bind with (Q1 := fun r _ => r = Return tt).
    + apply hoare_show. auto.
    + intros u. apply hoare_ret. auto.
    + intros e' w' [=].
Qed.

Lemma new_requests_clean w w' :
  clean_since (journal w) w' -> no_own_failure (new_requests w w').
Proof.
  intros (j & Hj & Hc). unfold new_requests. rewrite Hj.
  rewrite drop_app_length. exact Hc.
Qed.

Lemma process_daily_sales_returns server_id sales_dict sales_date w :
  exists total,
    (process_daily_sales server_id sales_dict sales_date w).1 = Return total.
Proof.
  unfold process_daily_sales, try_except.
  match goal with
  | |- context [match ?b with _ => _ end] => destruct b as [[a | e] w1]
  end.
  - exists a. reflexivity.
  - exists 0. reflexivity.
Qed.

Lemma render_daily_sales_submit_page selected_server sales_dict selected_date
    w :
  sales_dict <> [] ->
  exists total,
    (process_daily_sales (w_id selected_server) sales_dict selected_date w).1
      = Return total
    /\ page (render_daily_sales_submit selected_server sales_dict
               selected_date w).2 =
         page (process_daily_sales (w_id selected_server) sales_dict
                 selected_date w).2
         ++ (if Qlt_bool 0 total
             then [st_success_box
                     (successfully_recorded_sales (w_name selected_server)
                        selected_date total);
                   st_info_box stock_has_been_updated]
             else [st_error_box error_processing_the_sales]).
Proof.
  intros Hne.
  destruct (process_daily_sales_returns (w_id selected_server) sales_dict
              selected_date w) as (total & Hrun).
  exists total. split; [exact Hrun |].
  unfold render_daily_sales_submit.
  destruct sales_dict as [| item items]; [contradiction |].
  rewrite bind_run.
  destruct (process_daily_sales (w_id selected_server) (item :: items)
              selected_date w) as [r w1].
  cbn [fst snd] in *. subst r.
  destruct (Qlt_bool 0 total).
  - rewrite bind_run. unfold st_success, st_info, show. cbn.
    rewrite <- app_assoc. reflexivity.
  - reflexivity.
Qed.

End returned_value.

Section zero_return.
Local Open Scope Q_scope.

Lemma process_daily_sales_insert_fails server_id sales_dict sales_date w :
  reply_at w = Throws \/ reply_at w = NoRows ->
  (process_daily_sales server_id sales_dict sales_date w).1 = Return 0.
Proof.
  intros [H | H]; unfold process_daily_sales, try_except; rewrite bind_run.
  - rewrite execute_thrown by exact H. reflexivity.
  - rewrite execute_no_rows by exact H. reflexivity.
Qed.

Lemma batch_revenue_free sales_dict :
  (forall item, item ∈ sales_dict -> sale_price item.2 == 0) ->
  batch_revenue sales_dict == 0.
Proof.
  intros H. unfold batch_revenue. apply Qsum_zero.
  apply List.Forall_forall. intros x Hx.
  apply in_map_iff in Hx as (item & <- & Hin).
  rewrite (H item).
  - ring.
  - apply list_elem_of_In in Hin. unfold sold in Hin.
    apply list_elem_of_filter in Hin. apply Hin.
Qed.

Lemma journal_grows_ret {A} (a : A) : journal_grows (mret a).
Proof. intros w. exists []. rewrite app_nil_r. reflexivity. Qed.

Lemma journal_grows_bind {A B} (m : M A) (k : A -> M B) :
  journal_grows m -> (forall a, journal_grows (k a)) ->
  journal_grows (m ≫= k).
Proof.
  intros Hm Hk w. rewrite bind_run. destruct (Hm w) as [j1 H1].
  destruct (m w) as [[a | e] w1]; cbn [snd] in *.
  - destruct (Hk a w1) as [j2 H2]. exists (j1 ++ j2).
    rewrite H2, H1, app_assoc. reflexivity.
  - exists j1. exact H1.
Qed.

Lemma journal_grows_execute {A} ep (no_rows : A) request :
  journal_grows (execute ep no_rows request).
Proof.
  intros w. exists [(ep, reply_at w)]. unfold execute.
  destruct (reply_at w); [destruct (request (db w)) |..]; reflexivity.
Qed.

Lemma journal_grows_calculate id : journal_grows (calculate_menu_item_cost id).
Proof.
  intros w. destruct (calculate_any id w) as (cost & w' & -> & _ & [H | [r H]]).
  - exists []. rewrite app_nil_r. exact H.
  - eexists. exact H.
Qed.

Lemma journal_grows_decrement sold_quantity recipe :
  journal_grows (decrement_ingredients sold_quantity recipe).
Proof.
  induction recipe as [| [sid used] recipe IH]; [apply journal_grows_ret |].
  cbn [decrement_ingredients].
  apply journal_grows_bind; [apply journal_grows_execute | intros ?; exact IH].
Qed.

Lemma journal_grows_sell_items order items :
  forall total, journal_grows (sell_items order items total).
Proof.
  induction items as [| [item_id details] items IH]; intros total;
    [apply journal_grows_ret |].
  cbn [sell_items]. destruct (sd_quantity details =? 0)%Z; [apply IH |].
  apply journal_grows_bind; [apply journal_grows_calculate | intros cost].
  apply journal_grows_bind; [apply journal_grows_execute | intros ?].
  apply journal_grows_bind; [apply journal_grows_execute | intros rows].
  apply journal_grows_bind; [apply journal_grows_decrement | intros ?].
  apply IH.
Qed.

(** A lookup of the cost calculator that raises, for the first item of a
    batch whose other requests are answered: the lookup is in the journal as
    raised, and the batch goes on. *)
Lemma failed_lookup_is_journalled server_id item_id details items sales_date
    w :
  sd_quantity details <> 0%Z ->
  fresh_entry w item_id = None ->
  nth (calls w) (script w) Answer = Answer ->
  nth (S (calls w)) (script w) Answer = Throws ->
  exists j,
    new_requests w
      (process_daily_sales server_id ((item_id, details) :: items)
         sales_date w).2
    = (orders_insert, Answer) :: (recipe_costs_select, Throws) :: j.
Proof.
  intros Hnz E H0 H1. unfold process_daily_sales, try_except, new_requests.
  rewrite bind_run, execute_answered by exact H0.
  set (w1 := set_db _ _). cbn [fst insert_order o_id sell_items].
  destruct (Z.eqb_spec (sd_quantity details) 0) as [Hz | _];
    [contradiction |].
  rewrite bind_run.
  assert (E1 : fresh_entry w1 item_id = None) by exact E.
  rewrite (calculate_miss _ _ E1), body_thrown by exact H1.
  match goal with
  | |- context [?k (set_page ?p (set_cost_cache ?c ?w2))] =>
      set (w3 := set_page p (set_cost_cache c w2));
      assert (Hj3 : journal w3 =
                journal w ++ [(orders_insert, Answer);
                              (recipe_costs_select, Throws)])
        by (cbn; rewrite <- app_assoc; reflexivity)
  end.
  match goal with
  | |- context [(?m ≫= ?k) w3] =>
      assert (Hg : journal_grows (m ≫= k))
  end.
  { apply journal_grows_bind; [apply journal_grows_execute | intros ?].
    apply journal_grows_bind; [apply journal_grows_execute | intros rows].
    apply journal_grows_bind; [apply journal_grows_decrement | intros ?].
    apply journal_grows_sell_items. }
  destruct (Hg w3) as [j Hj].
  match goal with
  | |- context [(?m ≫= ?k) w3] => destruct ((m ≫= k) w3) as [[a | e] w4]
  end; cbn [snd] in Hj; exists j;
    [| change (journal ((_ ← st_error (error_processing_sales e); mret 0)
                           w4).2) with (journal w4)];
    cbn [snd]; rewrite Hj, Hj3, <- app_assoc, drop_app_length; reflexivity.
Qed.

(** C10 (as amended).  A batch returns 0 when the insert of the order raises
    or comes back without rows, and when any later request sent by the batch
    itself raises; it also returns a value equal to 0 when every request is
    answered and all the prices are 0, in which case the order and its items
    are recorded.  A lookup that raises inside the cost calculator is
    absorbed there: when the lookup for the first item raises and the other
    requests are answered, the journal holds the raised lookup, the item is
    recorded with a cost at sale of 0 and the batch returns its revenue, not
    0.  The caller reports an error exactly when the value returned is not
    greater than 0, so also for a recorded batch of value 0. *)
Theorem zero_return_is_ambiguous
    (server_id : Z) (sales_dict : list (Z * sale_details)) (sales_date : date) :
  (forall w,
     reply_at w = Throws \/ reply_at w = NoRows ->
     (process_daily_sales server_id sales_dict sales_date w).1 = Return 0)
  /\ (forall w ep,
        ep <> recipe_costs_select ->
        (ep, Throws) ∈
          new_requests w
            (process_daily_sales server_id sales_dict sales_date w).2 ->
        (process_daily_sales server_id sales_dict sales_date w).1 = Return 0)
  /\ (forall w,
        reliable w = true ->
        (forall item, item ∈ sales_dict -> sale_price item.2 == 0) ->
        exists total w' order,
          process_daily_sales server_id sales_dict sales_date w
            = (Return total, w')
          /\ total == 0
          /\ orders (db w') = orders (db w) ++ [order]
          /\ length (order_items (db w')) =
               (length (order_items (db w)) + length (sold sales_dict))%nat)
  /\ (forall selected_server w,
        w_id selected_server = server_id ->
        sales_dict <> [] ->
        exists total,
          (process_daily_sales server_id sales_dict sales_date w).1
            = Return total
          /\ (~ 0 < total ->
              page (render_daily_sales_submit selected_server sales_dict
                      sales_date w).2 =
                page (process_daily_sales server_id sales_dict sales_date w).2
                ++ [st_error_box error_processing_the_sales])
          /\ (0 < total ->
              page (render_daily_sales_submit selected_server sales_dict
                      sales_date w).2 =
                page (process_daily_sales server_id sales_dict sales_date w).2
                ++ [st_success_box
                      (successfully_recorded_sales (w_name selected_server)
                         sales_date total);
                    st_info_box stock_has_been_updated]))
  /\ (forall w item_id details items,
        sales_dict = (item_id, details) :: items ->
        sd_quantity details <> 0%Z ->
        fresh_entry w item_id = None ->
        nth (calls w) (script w) Answer = Answer ->
        nth (S (calls w)) (script w) Answer = Throws ->
        forallb (reply_eqb Answer) (drop (S (S (calls w))) (script w))
          = true ->
        exists total w' later_requests later_items,
          process_daily_sales server_id sales_dict sales_date w
            = (Return total, w')
          /\ new_requests w w' =
               (orders_insert, Answer) :: (recipe_costs_select, Throws)
               :: later_requests
          /\ total == batch_revenue sales_dict
          /\ order_items (db w') =
               order_items (db w) ++
               {| order_id := next_order_id (db w);
                  oi_menu_item_id := item_id;
                  quantity := sd_quantity details;
                  price_at_sale := sale_price details;
                  cost_at_sale := 0 |} :: later_items).
Proof.
  split; [| split; [| split; [| split]]].
  - intros w. apply process_daily_sales_insert_fails.
  - intros w ep Hep Hin.
    destruct (process_daily_sales_clean server_id sales_dict sales_date w)
      as [H | H]; [exact H |].
    apply new_requests_clean in H. contradiction (Hep (H ep Hin)).
  - intros w Hw Hfree.
    destruct (process_daily_sales_reliable server_id sales_dict sales_date w Hw)
      as (w' & Hrun & Hdb & _).
    exists (total_after sales_dict 0), w'. eexists.
    split; [exact Hrun |]. rewrite Hdb. split; [| split].
    + rewrite total_after_revenue.
      apply (batch_revenue_free sales_dict Hfree).
    + destruct (record_batch_rest (next_order_id (db w)) (unit_cost w)
                  sales_dict
                  (insert_order server_id (combine sales_date noon) (db w)).2)
        as (-> & _). reflexivity.
    + rewrite record_batch_order_items, length_app, length_map.
      reflexivity.
  - intros selected_server w <- Hne.
    destruct (render_daily_sales_submit_page selected_server sales_dict
                sales_date w Hne) as (total & Hrun & Hpage).
    exists total. split; [exact Hrun |]. rewrite Hpage.
    destruct (Qlt_bool 0 total) eqn:E.
    + apply Qlt_bool_iff in E. split; [contradiction | reflexivity].
    + split; [reflexivity |]. intros H. apply Qlt_bool_iff in H. congruence.
  - intros w item_id details items -> Hnz E H0 H1 H2.
    destruct (batch_with_failed_lookup server_id item_id details items
                sales_date w Hnz E H0 H1 H2) as (w' & Hrun & Hitems).
    destruct (failed_lookup_is_journalled server_id item_id details items
                sales_date w Hnz E H0 H1) as (j & Hj).
    rewrite Hrun in Hj. cbn [snd] in Hj.
    eexists _, w', j, _. split; [exact Hrun |]. split; [exact Hj |].
    split; [apply total_after_revenue | exact Hitems].
Qed.

(** In the cafe: a store that raises on the insert of the order gives 0, and
    so does giving away one of menu item 2 to a store that answers; the
    caller then reports an error although the order is recorded.  And a
    store that raises on the lookup of the cost calculator gives 15 for
    three of menu item 1 at 5. *)
Lemma zero_return_is_ambiguous_witness :
  (process_daily_sales 1 one_free (Date 2024 2 14) (cafe_with [Throws])).1
    = Return 0
  /\ (exists total w' order,
        process_daily_sales 1 one_free (Date 2024 2 14) cafe
          = (Return total, w')
        /\ total == 0
        /\ orders (db w') = [order])
  /\ page (render_daily_sales_submit alice one_free (Date 2024 2 14) cafe).2
     = page (process_daily_sales 1 one_free (Date 2024 2 14) cafe).2
       ++ [st_error_box error_processing_the_sales]
  /\ (exists total w',
        process_daily_sales 1 three_espressos (Date 2024 2 14)
          (cafe_with [Answer; Throws]) = (Return total, w')
        /\ total == 15).
Proof.
  destruct (zero_return_is_ambiguous 1 one_free (Date 2024 2 14))
    as (H1 & _ & H3 & H4 & _).
  split; [apply H1; left; reflexivity |]. split; [| split].
  - destruct (H3 cafe) as (total & w' & order & Hrun & Ht & Ho & _).
    + reflexivity.
    + intros item Hin. apply list_elem_of_singleton in Hin. subst.
      reflexivity.
    + exists total, w', order. auto.
  - destruct (H4 alice cafe) as (total & Hrun & Herr & _).
    + reflexivity.
    + discriminate.
    + apply Herr. vm_compute in Hrun. injection Hrun as <-.
      intros H. discriminate H.
  - destruct (zero_return_is_ambiguous 1 three_espressos (Date 2024 2 14))
      as (_ & _ & _ & _ & H5).
    destruct (H5 (cafe_with [Answer; Throws]) 1%Z
                {| sd_quantity := 3; sale_price := 5 |} [])
      as (total & w' & _ & _ & Hrun & _ & Ht & _);
      try reflexivity; [discriminate |].
    exists total, w'. split; [exact Hrun |]. rewrite Ht. reflexivity.
Defined.

(** C10, as stated, fails for the request inside the cost calculator: with a
    store that answers the insert of the order and raises on the recipe
    lookup of the cost calculator, three of menu item 1 at 5 return 15. *)
Lemma failed_lookup_returns_revenue :
  journal (process_daily_sales 1 three_espressos (Date 2024 2 14)
             (cafe_with [Answer; Throws])).2
  = [ (orders_insert, Answer); (recipe_costs_select, Throws);
      (order_items_insert, Answer); (recipe_select, Answer);
      (decrement_stock_rpc, Answer); (decrement_stock_rpc, Answer) ]
  /\ (process_daily_sales 1 three_espressos (Date 2024 2 14)
        (cafe_with [Answer; Throws])).1 = Return 15
  /\ ~ (15 == 0).
Proof.
  split; [vm_compute; reflexivity |].
  split; [vm_compute; reflexivity |].
  discriminate.
Qed.

End zero_return.

(** ** Deleting rows *)

Section deleting.
Local Open Scope Q_scope.

Lemma select_recipes_using_nil item_id t :
  select_recipes_using item_id t = [] <->
  (forall link,
     link ∈ menu_item_recipe t -> rl_stock_item_id link <> item_id).
Proof.
  unfold select_recipes_using. split.
  - intros H link Hin Heq. apply map_eq_nil in H.
    apply (filter_nil_not_elem_of _ _ link H Heq Hin).
  - intros H. induction (menu_item_recipe t) as [| l ls IH]; [reflexivity |].
    rewrite filter_cons_False by (apply H; left).
    apply IH. intros link Hin. apply H. right. exact Hin.
Qed.

Lemma select_orders_of_nil worker_id t :
  select_orders_of worker_id t = [] <->
  (forall order, order ∈ orders t -> server_id order <> worker_id).
Proof.
  unfold select_orders_of. split.
  - intros H order Hin Heq. apply map_eq_nil in H.
    apply (filter_nil_not_elem_of _ _ order H Heq Hin).
  - intros H. induction (orders t) as [| o os IH]; [reflexivity |].
    rewrite filter_cons_False by (apply H; left).
    apply IH. intros order Hin. apply H. right. exact Hin.
Qed.

Lemma stock_delete_blocked item_id item w :
  reply_at w = Answer ->
  select_recipes_using item_id (db w) <> [] ->
  exists w',
    render_stock_management_delete item_id item w = (Return tt, w')
    /\ db w' = db w
    /\ page w' =
         page w ++
         [st_error_box
            (cannot_delete_stock_item (si_name item)
               (length (select_recipes_using item_id (db w))))].
Proof.
  intros Hr Hne. unfold render_stock_management_delete, try_except, query.
  rewrite bind_run, execute_answered by exact Hr. cbn [fst snd].
  destruct (select_recipes_using item_id (db w)) as [| id ids];
    [contradiction |].
  eexists. split; [reflexivity |]. split; reflexivity.
Qed.

Lemma stock_delete_proceeds item_id item w :
  reliable w = true ->
  select_recipes_using item_id (db w) = [] ->
  exists w',
    render_stock_management_delete item_id item w = (Return tt, w')
    /\ db w' = (delete_stock_item item_id (db w)).2
    /\ page w' = page w ++ [st_success_box (deleted (si_name item))].
Proof.
  intros Hw Hnil. unfold render_stock_management_delete, try_except, query.
  answered Hw w1 Hw1. cbn [fst snd]. rewrite Hnil.
  answered Hw1 w2 Hw2.
  eexists. split; [reflexivity |]. split; reflexivity.
Qed.

Lemma worker_delete_blocked worker w :
  reply_at w = Answer ->
  select_orders_of (w_id worker) (db w) <> [] ->
  exists w',
    render_staff_delete_worker worker w = (Return tt, w')
    /\ db w' = db w
    /\ page w' =
         page w ++
         [st_error_box
            (cannot_delete_worker (w_name worker)
               (length (select_orders_of (w_id worker) (db w))))].
Proof.
  intros Hr Hne. unfold render_staff_delete_worker, try_except, query.
  rewrite bind_run, execute_answered by exact Hr. cbn [fst snd].
  destruct (select_orders_of (w_id worker) (db w)) as [| id ids];
    [contradiction |].
  eexists. split; [reflexivity |]. split; reflexivity.
Qed.

Lemma worker_delete_proceeds worker w :
  reliable w = true ->
  select_orders_of (w_id worker) (db w) = [] ->
  exists w',
    render_staff_delete_worker worker w = (Return tt, w')
    /\ db w' = (delete_worker (w_id worker) (db w)).2
    /\ page w' = page w ++ [st_success_box (deleted (w_name worker))].
Proof.
  intros Hw Hnil. unfold render_staff_delete_worker, try_except, query.
  answered Hw w1 Hw1. cbn [fst snd]. rewrite Hnil.
  answered Hw1 w2 Hw2.
  eexists. split; [reflexivity |]. split; reflexivity.
Qed.

(** C7.  Against a store that answers: deleting a stock item that a recipe
    link refers to leaves every table as it is and shows the still-in-use
    error with the number of links; deleting a worker that an order refers to
    leaves every table as it is and shows the linked-orders error; and when
    nothing refers to the row, the row is deleted. *)
Theorem deletion_is_gated :
  (forall item_id item w link,
     reliable w = true ->
     link ∈ menu_item_recipe (db w) ->
     rl_stock_item_id link = item_id ->
     exists w' n,
       render_stock_management_delete item_id item w = (Return tt, w')
       /\ db w' = db w
       /\ (0 < n)%nat
       /\ page w' =
            page w ++
            [st_error_box (cannot_delete_stock_item (si_name item) n)])
  /\ (forall item_id item w,
        reliable w = true ->
        (forall link, link ∈ menu_item_recipe (db w) ->
                      rl_stock_item_id link <> item_id) ->
        exists w',
          render_stock_management_delete item_id item w = (Return tt, w')
          /\ stock_items (db w') = delete item_id (stock_items (db w))
          /\ stock_items (db w') !! item_id = None
          /\ page w' = page w ++ [st_success_box (deleted (si_name item))])
  /\ (forall worker w order,
        reliable w = true ->
        order ∈ orders (db w) ->
        server_id order = w_id worker ->
        exists w' n,
          render_staff_delete_worker worker w = (Return tt, w')
          /\ db w' = db w
          /\ (0 < n)%nat
          /\ page w' =
               page w ++
               [st_error_box (cannot_delete_worker (w_name worker) n)])
  /\ (forall worker w,
        reliable w = true ->
        (forall order, order ∈ orders (db w) ->
                       server_id order <> w_id worker) ->
        exists w',
          render_staff_delete_worker worker w = (Return tt, w')
          /\ workers (db w') =
               filter (fun x => w_id x <> w_id worker) (workers (db w))
          /\ (forall x, x ∈ workers (db w') -> w_id x <> w_id worker)
          /\ page w' = page w ++ [st_success_box (deleted (w_name worker))]).
Proof.
  split; [| split; [| split]].
  - intros item_id item w link Hw Hin Heq.
    assert (Hne : select_recipes_using item_id (db w) <> []).
    { intros Hnil.
      exact (proj1 (select_recipes_using_nil _ _) Hnil link Hin Heq). }
    destruct (stock_delete_blocked item_id item w (reliable_reply _ Hw) Hne)
      as (w' & Hrun & Hdb & Hp).
    exists w', (length (select_recipes_using item_id (db w))).
    split; [exact Hrun |]. split; [exact Hdb |]. split; [| exact Hp].
    destruct (select_recipes_using item_id (db w)); [contradiction |].
    cbn. lia.
  - intros item_id item w Hw Hfree.
    apply (proj2 (select_recipes_using_nil _ _)) in Hfree.
    destruct (stock_delete_proceeds item_id item w Hw Hfree)
      as (w' & Hrun & Hdb & Hp).
    exists w'. split; [exact Hrun |]. rewrite Hdb. cbn.
    split; [reflexivity |]. split; [apply lookup_delete_eq | exact Hp].
  - intros worker w order Hw Hin Heq.
    assert (Hne : select_orders_of (w_id worker) (db w) <> []).
    { intros Hnil.
      exact (proj1 (select_orders_of_nil _ _) Hnil order Hin Heq). }
    destruct (worker_delete_blocked worker w (reliable_reply _ Hw) Hne)
      as (w' & Hrun & Hdb & Hp).
    exists w', (length (select_orders_of (w_id worker) (db w))).
    split; [exact Hrun |]. split; [exact Hdb |]. split; [| exact Hp].
    destruct (select_orders_of (w_id worker) (db w)); [contradiction |].
    cbn. lia.
  - intros worker w Hw Hfree.
    apply (proj2 (select_orders_of_nil _ _)) in Hfree.
    destruct (worker_delete_proceeds worker w Hw Hfree)
      as (w' & Hrun & Hdb & Hp).
    exists w'. split; [exact Hrun |]. rewrite Hdb. cbn.
    split; [reflexivity |]. split; [| exact Hp].
    intros x Hx. apply list_elem_of_filter in Hx. apply Hx.
Qed.

(** In the cafe the beans are in a recipe and stay; and once three of menu
    item 1 are recorded for Alice, Alice stays. *)
Lemma deletion_is_gated_witness :
  (exists w' n,
     render_stock_management_delete 10 beans cafe = (Return tt, w')
     /\ db w' = db cafe
     /\ (0 < n)%nat
     /\ page w' =
          [st_error_box (cannot_delete_stock_item "Coffee Beans" n)])
  /\ (exists w' n,
        render_staff_delete_worker alice
          (process_daily_sales 1 three_espressos (Date 2024 2 14) cafe).2
          = (Return tt, w')
        /\ workers (db w') = [alice] /\ (0 < n)%nat).
Proof.
  destruct deletion_is_gated as (H1 & _ & H3 & _). split.
  - destruct (H1 10%Z beans cafe
                {| rl_id := 1; rl_menu_item_id := 1; rl_stock_item_id := 10;
                   quantity_used := 2 |})
      as (w' & n & Hrun & Hdb & Hn & Hp).
    + reflexivity.
    + left.
    + reflexivity.
    + exists w', n. auto.
  - destruct (H3 alice
                (process_daily_sales 1 three_espressos (Date 2024 2 14)
                   cafe).2
                {| o_id := 1; server_id := 1;
                   timestamp := DateTime (Date 2024 2 14) (Time 12 0 0 0) |})
      as (w' & n & Hrun & Hdb & Hn & _).
    + vm_compute. reflexivity.
    + vm_compute. left.
    + reflexivity.
    + exists w', n. split; [exact Hrun |]. split; [| exact Hn].
      rewrite Hdb. vm_compute. reflexivity.
Defined.

(** C8.  Deleting an order never changes the stock, whatever the store
    replies; and when the store answers, with the cascade the specification
    describes, the order and all its order items are gone while every other
    order item stays. *)
Theorem deleting_an_order_keeps_stock (order : Order) (w : World) :
  let w' := (render_manage_orders_delete order w).2 in
  stock_items (db w') = stock_items (db w)
  /\ (reply_at w = Answer ->
      order_items (db w') =
        filter (fun i => order_id i <> o_id order) (order_items (db w))
      /\ (forall i, i ∈ order_items (db w') -> order_id i <> o_id order)
      /\ (forall i, i ∈ order_items (db w) -> order_id i <> o_id order ->
                    i ∈ order_items (db w'))
      /\ (forall o, o ∈ orders (db w') -> o_id o <> o_id order)).
Proof.
  intros w'. subst w'. unfold render_manage_orders_delete, try_except.
  rewrite bind_run. split.
  - destruct (reply_at w) eqn:E.
    + rewrite execute_answered by exact E. reflexivity.
    + rewrite execute_thrown by exact E. reflexivity.
    + rewrite execute_no_rows by exact E. reflexivity.
  - intros E. rewrite execute_answered by exact E. cbn.
    unfold cascade_order_items.
    split; [reflexivity |]. split; [| split].
    + intros i Hi. apply list_elem_of_filter in Hi. apply Hi.
    + intros i Hi Hne. apply list_elem_of_filter. auto.
    + intros o Ho. apply list_elem_of_filter in Ho. apply Ho.
Qed.

(** The order of the cafe deleted after the sale: no order item is left, and
    the beans stay at what the sale left of them. *)
Lemma deleting_an_order_keeps_stock_witness :
  let deleted_order :=
    {| o_id := 1; server_id := 1;
       timestamp := DateTime (Date 2024 2 14) (Time 12 0 0 0) |} in
  let w' := (render_manage_orders_delete deleted_order cafe_sold).2 in
  stock_items (db w') = stock_items (db cafe_sold)
  /\ order_items (db w') = []
  /\ length (order_items (db cafe_sold)) = 1%nat
  /\ (current_quantity <$> (stock_items (db w') !! 10%Z)) = Some (94 # 1).
Proof.
  intros deleted_order w'.
  destruct (deleting_an_order_keeps_stock deleted_order cafe_sold)
    as (Hs & Hi).
  fold w' in Hs, Hi. split; [exact Hs |].
  destruct Hi as (Hi & _); [reflexivity |].
  split; [rewrite Hi; vm_compute; reflexivity |].
  split; [vm_compute; reflexivity |].
  rewrite Hs. vm_compute. reflexivity.
Defined.

End deleting.

(** ** The monthly report *)

Section monthly_report.
Local Open Scope Q_scope.

Lemma date_eqb_eq a b : date_eqb a b = true <-> a = b.
Proof.
  unfold date_eqb. rewrite !andb_true_iff, !Z.eqb_eq.
  destruct a, b; cbn. split; [intros [[-> ->] ->]; reflexivity |].
  intros [= -> -> ->]. auto.
Qed.

Lemma select_expenses_keyed key t :
  py_sum (select_expenses key t) == expenses_keyed key t.
Proof.
  rewrite py_sum_Qsum. unfold select_expenses, expenses_keyed.
  rewrite (list_filter_iff (fun e => date_eqb (me_month e) key = true)
             (fun e => me_month e = key)); [reflexivity |].
  intros e. apply date_eqb_eq.
Qed.

Lemma datetime_leb_refl a : datetime_leb a a = true.
Proof.
  unfold datetime_leb, datetime_compare, date_compare, time_compare.
  rewrite !Z.compare_refl. reflexivity.
Qed.

Lemma parent_in_window_iff start stop t i :
  parent_in_window start stop t i = true <->
  exists o, o ∈ orders t
            /\ o_id o = order_id i
            /\ datetime_leb start (timestamp o) = true
            /\ datetime_leb (timestamp o) stop = true.
Proof.
  unfold parent_in_window. rewrite existsb_exists. split.
  - intros (o & Hin & H). apply andb_true_iff in H as [H H3].
    apply andb_true_iff in H as [H1 H2]. apply Z.eqb_eq in H1.
    exists o. rewrite list_elem_of_In. auto.
  - intros (o & Hin & H1 & H2 & H3). exists o.
    rewrite list_elem_of_In in Hin. split; [exact Hin |].
    rewrite H2, H3. apply Z.eqb_eq in H1. rewrite H1. reflexivity.
Qed.

Lemma render_reports_monthly_run d w :
  valid_date d = true ->
  (year d <> MAXYEAR \/ month d <> 12%Z) ->
  reliable w = true ->
  let sales :=
    select_sales (first_instant (year d) (month d))
                 (last_instant (year d) (month d)) (db w) in
  let revenue :=
    py_sum (map (fun i => price_at_sale i * inject_Z (quantity i)) sales) in
  let cogs :=
    py_sum (map (fun i => cost_at_sale i * inject_Z (quantity i)) sales) in
  let salaries := py_sum (select_salaries (db w)) in
  let expenses :=
    py_sum (select_expenses (Date (year d) (month d) 1) (db w)) in
  exists w',
    render_reports_monthly d w =
      (Return (Some {| total_revenue := revenue;
                       total_cogs := cogs;
                       gross_profit := revenue - cogs;
                       total_salaries := salaries;
                       total_expenses := expenses;
                       total_costs_operating := salaries + expenses;
                       net_profit := revenue - cogs - (salaries + expenses) |}),
       w')
    /\ db w' = db w.
Proof.
  intros Hv Hn Hw sales revenue cogs salaries expenses.
  unfold render_reports_monthly. rewrite bind_run. unfold lift_result.
  rewrite get_month_range_inside by assumption.
  unfold try_except, query.
  answered Hw w1 Hw1. cbn [fst].
  answered Hw1 w2 Hw2. cbn [fst].
  answered Hw2 w3 Hw3.
  exists w3. split; reflexivity.
Qed.

(** C5.  For a month other than December 9999 and a store that answers, the
    monthly report is produced and its net profit is gross profit, that is
    revenue minus cost of goods over the order items whose order is stamped
    within the month, first and last instant included, minus the salaries of
    all workers, minus the expenses whose month key is the first day of the
    month. *)
Theorem monthly_net_profit (selected_month_date : date) (w : World) :
  valid_date selected_month_date = true ->
  (year selected_month_date <> MAXYEAR \/ month selected_month_date <> 12%Z) ->
  reliable w = true ->
  let y := year selected_month_date in
  let m := month selected_month_date in
  let start := DateTime (Date y m 1) (Time 0 0 0 0) in
  let stop := DateTime (Date y m (days_in_month y m)) (Time 23 59 59 999999) in
  let sales :=
    filter (fun i => parent_in_window start stop (db w) i = true)
           (order_items (db w)) in
  let revenue :=
    Qsum (map (fun i => price_at_sale i * inject_Z (quantity i)) sales) in
  let cogs :=
    Qsum (map (fun i => cost_at_sale i * inject_Z (quantity i)) sales) in
  let salaries := Qsum (map salary (workers (db w))) in
  let expenses :=
    Qsum (map amount
              (filter (fun e => me_month e = Date y m 1)
                      (monthly_expenses (db w)))) in
  exists report w',
    render_reports_monthly selected_month_date w = (Return (Some report), w')
    /\ total_revenue report == revenue
    /\ total_cogs report == cogs
    /\ gross_profit report == revenue - cogs
    /\ total_salaries report == salaries
    /\ total_expenses report == expenses
    /\ net_profit report == (revenue - cogs) - salaries - expenses
    /\ (forall i,
          i ∈ sales <->
          i ∈ order_items (db w)
          /\ exists o, o ∈ orders (db w)
                       /\ o_id o = order_id i
                       /\ datetime_leb start (timestamp o) = true
                       /\ datetime_leb (timestamp o) stop = true)
    /\ datetime_leb start start = true
    /\ datetime_leb stop stop = true.
Proof.
  intros Hv Hn Hw y m start stop sales revenue cogs salaries expenses.
  destruct (render_reports_monthly_run selected_month_date w Hv Hn Hw)
    as (w' & Hrun & _).
  eexists _, w'. split; [exact Hrun |]. cbn [total_revenue total_cogs
    gross_profit total_salaries total_expenses net_profit].
  fold y m.
  assert (Hrev :
    py_sum (map (fun i => price_at_sale i * inject_Z (quantity i))
              (select_sales (first_instant y m) (last_instant y m) (db w)))
    == revenue) by apply py_sum_Qsum.
  assert (Hcogs :
    py_sum (map (fun i => cost_at_sale i * inject_Z (quantity i))
              (select_sales (first_instant y m) (last_instant y m) (db w)))
    == cogs) by apply py_sum_Qsum.
  assert (Hsal : py_sum (select_salaries (db w)) == salaries)
    by apply py_sum_Qsum.
  assert (Hexp : py_sum (select_expenses (Date y m 1) (db w)) == expenses)
    by apply select_expenses_keyed.
  rewrite Hrev, Hcogs, Hsal, Hexp.
  repeat (split; [first [reflexivity | ring] |]).
  split; [| split; apply datetime_leb_refl].
  intros i. unfold sales. rewrite list_elem_of_filter, parent_in_window_iff.
  tauto.
Qed.

(** The example of the specification: revenue 1000, cost of goods 300,
    salaries 2000 and expenses 100 give a net profit of -1400. *)
Lemma monthly_net_profit_witness :
  exists report w',
    render_reports_monthly (Date 2024 2 14) february_books
      = (Return (Some report), w')
    /\ total_revenue report == 1000
    /\ total_cogs report == 300
    /\ net_profit report == -1400.
Proof.
  destruct (monthly_net_profit (Date 2024 2 14) february_books)
    as (report & w' & Hrun & Hrev & Hcogs & _ & _ & _ & Hnet & _).
  - reflexivity.
  - left. unfold MAXYEAR. cbn. lia.
  - reflexivity.
  - exists report, w'. split; [exact Hrun |].
    rewrite Hrev, Hcogs, Hnet. repeat split; vm_compute; reflexivity.
Defined.

End monthly_report.

(** ** The day window and the month window *)

Section windows.
Local Open Scope Z_scope.

Lemma lex_Gt c1 c2 :
  lex c1 c2 = Gt <-> c1 = Gt \/ (c1 = Eq /\ c2 = Gt).
Proof. destruct c1, c2; cbn; intuition congruence. Qed.

Lemma date_compare_Gt a b :
  date_compare a b = Gt <->
  year a > year b
  \/ (year a = year b
      /\ (month a > month b \/ (month a = month b /\ day a > day b))).
Proof.
  unfold date_compare. rewrite !lex_Gt, !Z.compare_eq_iff, !Z.compare_gt_iff.
  lia.
Qed.

Lemma date_compare_Eq a b : date_compare a b = Eq <-> a = b.
Proof.
  unfold date_compare. destruct a as [y m d], b as [y' m' d']; cbn. split.
  - destruct (Z.compare_spec y y'); cbn; try discriminate.
    destruct (Z.compare_spec m m'); cbn; try discriminate.
    destruct (Z.compare_spec d d'); cbn; try discriminate.
    intros _. congruence.
  - intros [= -> -> ->]. rewrite !Z.compare_refl. reflexivity.
Qed.

Lemma time_compare_Gt a b :
  time_compare a b = Gt <->
  hour a > hour b
  \/ (hour a = hour b
      /\ (minute a > minute b
          \/ (minute a = minute b
              /\ (second a > second b
                  \/ (second a = second b
                      /\ microsecond a > microsecond b))))).
Proof.
  unfold time_compare. rewrite !lex_Gt, !Z.compare_eq_iff, !Z.compare_gt_iff.
  lia.
Qed.

Lemma datetime_leb_spec a b :
  datetime_leb a b = true <->
  ~ (date_compare (dt_date a) (dt_date b) = Gt
     \/ (dt_date a = dt_date b /\ time_compare (dt_time a) (dt_time b) = Gt)).
Proof.
  unfold datetime_leb, datetime_compare. rewrite <- date_compare_Eq.
  rewrite <- lex_Gt.
  destruct (lex (date_compare (dt_date a) (dt_date b))
              (time_compare (dt_time a) (dt_time b)));
    intuition congruence.
Qed.

Lemma valid_time_bounds t :
  valid_time t = true ->
  0 <= hour t <= 23 /\ 0 <= minute t <= 59 /\ 0 <= second t <= 59
  /\ 0 <= microsecond t <= 999999.
Proof.
  unfold valid_time. rewrite !andb_true_iff, !Z.leb_le. lia.
Qed.

Lemma time_min_first t :
  valid_time t = true -> time_compare time_min t <> Gt.
Proof.
  intros H. apply valid_time_bounds in H. rewrite time_compare_Gt. cbn. lia.
Qed.

Lemma time_max_last t :
  valid_time t = true -> time_compare t time_max <> Gt.
Proof.
  intros H. apply valid_time_bounds in H. rewrite time_compare_Gt. cbn. lia.
Qed.

Lemma date_eq_fields a b :
  a = b <-> year a = year b /\ month a = month b /\ day a = day b.
Proof.
  split; [intros ->; auto |]. destruct a, b; cbn. intros (-> & -> & ->).
  reflexivity.
Qed.

(** The instants of a day are exactly the timestamps between its first and
    its last instant. *)
Lemma in_day_window d ts :
  valid_time (dt_time ts) = true ->
  in_window (combine d time_min) (combine d time_max) ts = true <->
  dt_date ts = d.
Proof.
  intros Ht. unfold in_window, combine.
  rewrite andb_true_iff, !datetime_leb_spec. cbn [dt_date dt_time].
  pose proof (time_min_first _ Ht) as Hmin.
  pose proof (time_max_last _ Ht) as Hmax.
  rewrite !date_compare_Gt, !date_eq_fields. intuition lia.
Qed.

(** The instants of a month are exactly the timestamps between the first
    instant of its day 1 and the last instant of its last day. *)
Lemma in_month_window y m ts :
  valid_date (dt_date ts) = true ->
  valid_time (dt_time ts) = true ->
  in_window (first_instant y m) (last_instant y m) ts = true <->
  year (dt_date ts) = y /\ month (dt_date ts) = m.
Proof.
  intros Hd Ht. unfold in_window, first_instant, last_instant.
  rewrite andb_true_iff, !datetime_leb_spec. cbn [dt_date dt_time].
  pose proof (time_min_first _ Ht) as Hmin.
  pose proof (time_max_last _ Ht) as Hmax.
  apply valid_date_bounds in Hd.
  rewrite !date_compare_Gt, !date_eq_fields. cbn [year month day].
  split.
  - intuition lia.
  - intros [<- <-]. intuition lia.
Qed.

End windows.

(** ** The windows of the helper functions, and the daily report *)

Section more_reports.
Local Open Scope Q_scope.

(** X1.  The window [get_today_range] returns holds exactly the timestamps
    of the selected date (of today when none is selected), both ends
    included. *)
Theorem get_today_range_is_the_day
    (today : date) (selected_date : option date) (ts : datetime) :
  valid_time (dt_time ts) = true ->
  in_window (get_today_range today selected_date).1
            (get_today_range today selected_date).2 ts = true
  <-> dt_date ts = match selected_date with Some d => d | None => today end.
Proof.
  intros Ht. unfold get_today_range. cbn [fst snd].
  apply in_day_window, Ht.
Qed.

Lemma get_today_range_is_the_day_witness :
  in_window (get_today_range (Date 2024 3 1) (Some (Date 2024 2 14))).1
            (get_today_range (Date 2024 3 1) (Some (Date 2024 2 14))).2
            valentine_noon = true.
Proof.
  apply (get_today_range_is_the_day (Date 2024 3 1) (Some (Date 2024 2 14))
           valentine_noon); reflexivity.
Defined.

(** X2.  For a date of any month but December 9999, the window
    [get_month_range] returns holds exactly the timestamps of that month and
    year, both ends included; asking again with its third component, the
    start of the month, gives the same result. *)
Theorem get_month_range_is_the_month (selected_date : date) (ts : datetime) :
  valid_date selected_date = true ->
  (year selected_date <> MAXYEAR \/ month selected_date <> 12%Z) ->
  valid_date (dt_date ts) = true ->
  valid_time (dt_time ts) = true ->
  exists start_iso end_iso month_start,
    get_month_range selected_date = Return (start_iso, end_iso, month_start)
    /\ (in_window start_iso end_iso ts = true
        <-> year (dt_date ts) = year selected_date
            /\ month (dt_date ts) = month selected_date)
    /\ get_month_range month_start = get_month_range selected_date.
Proof.
  intros Hv Hn Hd Ht. eexists _, _, _.
  split; [apply get_month_range_inside; assumption |].
  split; [apply in_month_window; assumption |].
  reflexivity.
Qed.

Lemma get_month_range_is_the_month_witness :
  exists start_iso end_iso month_start,
    get_month_range (Date 2024 2 29) = Return (start_iso, end_iso, month_start)
    /\ in_window start_iso end_iso valentine_noon = true.
Proof.
  destruct (get_month_range_is_the_month (Date 2024 2 29) valentine_noon)
    as (s & e & k & Hrun & Hin & _); try reflexivity.
  - left. unfold MAXYEAR. cbn. lia.
  - exists s, e, k. split; [exact Hrun |]. apply Hin. split; reflexivity.
Defined.

Lemma parent_in_window_as_window start stop t i :
  parent_in_window start stop t i =
    existsb (fun o => (o_id o =? order_id i)%Z
                      && in_window start stop (timestamp o)) (orders t).
Proof.
  unfold parent_in_window, in_window.
  induction (orders t) as [| o os IH]; [reflexivity |].
  cbn [existsb]. rewrite IH, andb_assoc. reflexivity.
Qed.

Lemma render_reports_daily_run today d w :
  reliable w = true ->
  let sales :=
    select_sales (combine d time_min) (combine d time_max) (db w) in
  let revenue :=
    py_sum (map (fun i => price_at_sale i * inject_Z (quantity i)) sales) in
  let cogs :=
    py_sum (map (fun i => cost_at_sale i * inject_Z (quantity i)) sales) in
  exists w',
    render_reports_daily today d w =
      (Return {| day_revenue := revenue; day_cogs := cogs;
                 day_gross_profit := revenue - cogs |}, w')
    /\ db w' = db w.
Proof.
  intros Hw sales revenue cogs. unfold render_reports_daily, get_today_range.
  unfold query. answered Hw w1 Hw1.
  exists w1. split; reflexivity.
Qed.

(** X3.  Against a store that answers, the daily report reads the tables
    without changing them and gives revenue and cost of goods as the sums,
    price or cost times quantity, over the order items kept by the filter
    of the request, each as often as it is in the table; the filter keeps
    exactly the order items whose order is dated the selected day.  The
    gross profit is the difference of the two. *)
Theorem daily_report_figures (today selected_date : date) (w : World) :
  reliable w = true ->
  (forall o, o ∈ orders (db w) ->
             valid_time (dt_time (timestamp o)) = true) ->
  let start := combine selected_date time_min in
  let stop := combine selected_date time_max in
  let sales :=
    filter (fun i => parent_in_window start stop (db w) i = true)
           (order_items (db w)) in
  let revenue :=
    Qsum (map (fun i => price_at_sale i * inject_Z (quantity i)) sales) in
  let cogs :=
    Qsum (map (fun i => cost_at_sale i * inject_Z (quantity i)) sales) in
  exists report w',
    render_reports_daily today selected_date w = (Return report, w')
    /\ db w' = db w
    /\ day_revenue report == revenue
    /\ day_cogs report == cogs
    /\ day_gross_profit report == revenue - cogs
    /\ (forall i,
          i ∈ sales <->
          i ∈ order_items (db w)
          /\ exists o, o ∈ orders (db w)
                       /\ o_id o = order_id i
                       /\ dt_date (timestamp o) = selected_date).
Proof.
  intros Hw Htimes start stop sales revenue cogs.
  destruct (render_reports_daily_run today selected_date w Hw)
    as (w' & Hrun & Hdb).
  eexists _, w'. split; [exact Hrun |]. split; [exact Hdb |].
  cbn [day_revenue day_cogs day_gross_profit].
  assert (Hrev :
    py_sum (map (fun i => price_at_sale i * inject_Z (quantity i))
              (select_sales start stop (db w))) == revenue)
    by apply py_sum_Qsum.
  assert (Hcogs :
    py_sum (map (fun i => cost_at_sale i * inject_Z (quantity i))
              (select_sales start stop (db w))) == cogs)
    by apply py_sum_Qsum.
  fold start stop. rewrite Hrev, Hcogs.
  split; [reflexivity |]. split; [reflexivity |]. split; [reflexivity |].
  intros i. unfold sales.
  rewrite list_elem_of_filter, parent_in_window_as_window, existsb_exists.
  split.
  - intros ((o & Hin & H) & Hi). split; [exact Hi |].
    apply andb_true_iff in H as [Hid Hwin]. apply Z.eqb_eq in Hid.
    apply list_elem_of_In in Hin. exists o. split; [exact Hin |].
    split; [exact Hid |]. apply in_day_window in Hwin; auto.
  - intros (Hi & o & Hin & Hid & Hdate). split; [| exact Hi].
    exists o. split; [apply list_elem_of_In, Hin |].
    apply andb_true_iff. split; [apply Z.eqb_eq, Hid |].
    apply in_day_window; auto.
Qed.

(** The books of February 2024 on the 29th: one order of 4 at 100 that cost
    25 each. *)
Lemma daily_report_figures_witness :
  exists report w',
    render_reports_daily (Date 2024 3 5) (Date 2024 2 29) february_books
      = (Return report, w')
    /\ day_revenue report == 400
    /\ day_cogs report == 100
    /\ day_gross_profit report == 300.
Proof.
  destruct (daily_report_figures (Date 2024 3 5) (Date 2024 2 29)
              february_books)
    as (report & w' & Hrun & _ & Hr & Hc & Hg & _).
  - reflexivity.
  - intros o Ho. cbn in Ho.
    repeat (apply elem_of_cons in Ho as [-> | Ho]; [reflexivity |]).
    inversion Ho.
  - exists report, w'. split; [exact Hrun |].
    rewrite Hg, Hr, Hc. repeat split; vm_compute; reflexivity.
Defined.

(** X4.  When the store raises on the request of a report, the daily report
    lets the exception escape and shows nothing, while the monthly report
    catches it, shows its error box and gives no figures; neither changes a
    table. *)
Theorem reports_on_a_failing_store
    (today selected_date : date) (w : World) :
  reply_at w = Throws ->
  valid_date selected_date = true ->
  (year selected_date <> MAXYEAR \/ month selected_date <> 12%Z) ->
  (render_reports_daily today selected_date w).1 = Raise StoreError
  /\ page (render_reports_daily today selected_date w).2 = page w
  /\ db (render_reports_daily today selected_date w).2 = db w
  /\ (render_reports_monthly selected_date w).1 = Return None
  /\ page (render_reports_monthly selected_date w).2 =
       page w
       ++ [st_error_box (error_generating_monthly_report StoreError)]
  /\ db (render_reports_monthly selected_date w).2 = db w.
Proof.
  intros Hr Hv Hn.
  unfold render_reports_daily, render_reports_monthly, get_today_range,
    query, lift_result, try_except.
  rewrite !bind_run, get_month_range_inside by assumption.
  rewrite !bind_run, !execute_thrown by exact Hr.
  repeat split; reflexivity.
Qed.

Lemma reports_on_a_failing_store_witness :
  (render_reports_daily (Date 2024 3 5) (Date 2024 2 29)
     (cafe_with [Throws])).1 = Raise StoreError
  /\ (render_reports_monthly (Date 2024 2 29) (cafe_with [Throws])).1
     = Return None.
Proof.
  destruct (reports_on_a_failing_store (Date 2024 3 5) (Date 2024 2 29)
              (cafe_with [Throws]))
    as (H1 & _ & _ & H4 & _); try reflexivity.
  - left. unfold MAXYEAR. cbn. lia.
  - split; assumption.
Defined.

End more_reports.

(** ** A batch in the reports *)

Section batch_in_reports.
Local Open Scope Q_scope.

Lemma no_parent_among (g : Order -> bool) (id : Z) (os : list Order) :
  (forall o, o ∈ os -> o_id o <> id) ->
  existsb (fun o => (o_id o =? id)%Z && g o) os = false.
Proof.
  induction os as [| o os IH]; intros H; [reflexivity |].
  cbn [existsb]. rewrite IH by (intros o' Ho'; apply H; right; exact Ho').
  destruct (Z.eqb_spec (o_id o) id) as [Heq | _]; [| reflexivity].
  exfalso. apply (H o); [left | exact Heq].
Qed.

Lemma filter_same_on {A} (P1 P2 : A -> Prop)
    `{!forall x, Decision (P1 x)} `{!forall x, Decision (P2 x)} (l : list A) :
  (forall x, x ∈ l -> (P1 x <-> P2 x)) -> filter P1 l = filter P2 l.
Proof.
  induction l as [| x l IH]; intros Hall; [reflexivity |].
  rewrite !filter_cons, IH by (intros y Hy; apply Hall; right; exact Hy).
  pose proof (Hall x (list_elem_of_here x l)) as Hx.
  destruct (decide (P1 x)) as [H1 | H1], (decide (P2 x)) as [H2 | H2];
    try reflexivity; tauto.
Qed.

(** The sales of a window after a batch: those of before, and the lines of
    the batch when its timestamp lies in the window. *)
Lemma select_sales_after_batch start stop server ts cost sales_dict t :
  (forall o, o ∈ orders t -> o_id o <> next_order_id t) ->
  (forall i, i ∈ order_items t -> order_id i <> next_order_id t) ->
  select_sales start stop
    (record_batch (next_order_id t) cost sales_dict
       (insert_order server ts t).2)
  = select_sales start stop t
    ++ (if in_window start stop ts
        then map (order_line (next_order_id t) cost) (sold sales_dict)
        else []).
Proof.
  intros Ho Hi. unfold select_sales.
  set (t1 := record_batch _ _ _ _).
  assert (Horders : orders t1 =
            orders t ++ [{| o_id := next_order_id t; server_id := server;
                            timestamp := ts |}]).
  { unfold t1.
    destruct (record_batch_rest (next_order_id t) cost sales_dict
                (insert_order server ts t).2) as (-> & _). reflexivity. }
  assert (Hitems : order_items t1 =
            order_items t
            ++ map (order_line (next_order_id t) cost) (sold sales_dict)).
  { unfold t1. rewrite record_batch_order_items. reflexivity. }
  rewrite Hitems, filter_app. f_equal.
  - apply filter_same_on. intros i Hin.
    rewrite !parent_in_window_as_window, Horders, existsb_app.
    cbn [existsb o_id timestamp].
    destruct (Z.eqb_spec (next_order_id t) (order_id i)) as [Heq | _].
    + exfalso. apply (Hi i Hin). symmetry. exact Heq.
    + cbn. rewrite !orb_false_r. reflexivity.
  - generalize (sold sales_dict). intros l.
    induction l as [| item l IH]; [destruct (in_window _ _ _); reflexivity |].
    cbn [map]. rewrite filter_cons, IH.
    rewrite parent_in_window_as_window, Horders, existsb_app.
    cbn [existsb order_line order_id o_id timestamp].
    rewrite (no_parent_among _ _ _ Ho), Z.eqb_refl. cbn.
    rewrite orb_false_r.
    destruct (in_window start stop ts); cbn; case_decide; congruence.
Qed.

Lemma py_sum_app_map {A} (f : A -> Q) (xs ys : list A) :
  py_sum (map f (xs ++ ys)) == py_sum (map f xs) + Qsum (map f ys).
Proof.
  rewrite !py_sum_Qsum, map_app.
  induction (map f xs) as [| x l IH]; cbn [app Qsum]; [ring |].
  rewrite IH. ring.
Qed.

Lemma noon_in_day_window d sales_date :
  in_window (combine d time_min) (combine d time_max)
    (combine sales_date noon) = true <-> sales_date = d.
Proof. apply (in_day_window d (combine sales_date noon)). reflexivity. Qed.

(** X5.  Against a store that answers and whose next order id is not in use,
    a batch recorded for a date raises the daily report of that date by
    exactly the value it returns, and its cost of goods by the unit costs
    times the quantities of the items sold; the daily report of any other
    date is as before. *)
Theorem batch_shows_in_daily_report
    (server_id : Z) (sales_dict : list (Z * sale_details)) (sales_date : date)
    (today selected_date : date) (w : World) :
  reliable w = true ->
  (forall o, o ∈ orders (db w) -> o_id o <> next_order_id (db w)) ->
  (forall i, i ∈ order_items (db w) -> order_id i <> next_order_id (db w)) ->
  exists total w1 before w2 after w3,
    process_daily_sales server_id sales_dict sales_date w = (Return total, w1)
    /\ render_reports_daily today selected_date w = (Return before, w2)
    /\ render_reports_daily today selected_date w1 = (Return after, w3)
    /\ day_revenue after ==
         day_revenue before
         + (if decide (selected_date = sales_date) then total else 0)
    /\ day_cogs after ==
         day_cogs before
         + (if decide (selected_date = sales_date)
            then Qsum (map (fun item =>
                              unit_cost w item.1
                              * inject_Z (sd_quantity item.2))
                           (sold sales_dict))
            else 0).
Proof.
  intros Hw Ho Hi.
  destruct (process_daily_sales_reliable server_id sales_dict sales_date w Hw)
    as (w1 & Hrun & Hdb & Hf).
  pose proof (reliable_follows _ _ Hf Hw) as Hw1.
  destruct (render_reports_daily_run today selected_date w Hw)
    as (w2 & Hbefore & _).
  destruct (render_reports_daily_run today selected_date w1 Hw1)
    as (w3 & Hafter & _).
  eexists _, w1, _, w2, _, w3. split; [exact Hrun |].
  split; [exact Hbefore |]. split; [exact Hafter |].
  cbn [day_revenue day_cogs]. rewrite Hdb.
  rewrite select_sales_after_batch by assumption.
  rewrite !py_sum_app_map.
  destruct (decide (selected_date = sales_date)) as [-> | Hne].
  - rewrite (proj2 (noon_in_day_window sales_date sales_date) eq_refl).
    rewrite !map_map. cbn [order_line price_at_sale cost_at_sale quantity].
    split; [| reflexivity].
    rewrite total_after_revenue. reflexivity.
  - destruct (in_window _ _ _) eqn:E.
    + apply noon_in_day_window in E. congruence.
    + cbn. split; reflexivity.
Qed.

Lemma batch_shows_in_daily_report_witness :
  exists total w1 before w2 after w3,
    process_daily_sales 1 three_espressos (Date 2024 2 14) cafe
      = (Return total, w1)
    /\ render_reports_daily (Date 2024 2 14) (Date 2024 2 14) cafe
       = (Return before, w2)
    /\ render_reports_daily (Date 2024 2 14) (Date 2024 2 14) w1
       = (Return after, w3)
    /\ day_revenue before == 0
    /\ day_revenue after == 15.
Proof.
  destruct (batch_shows_in_daily_report 1 three_espressos (Date 2024 2 14)
              (Date 2024 2 14) (Date 2024 2 14) cafe)
    as (total & w1 & before & w2 & after & w3 & H1 & H2 & H3 & Hr & _).
  - reflexivity.
  - intros o Ho. inversion Ho.
  - intros i Hi. inversion Hi.
  - exists total, w1, before, w2, after, w3.
    split; [exact H1 |]. split; [exact H2 |]. split; [exact H3 |].
    assert (Hb : day_revenue before == 0).
    { vm_compute in H2. injection H2 as <- _. reflexivity. }
    split; [exact Hb |]. rewrite Hr, Hb.
    vm_compute in H1. injection H1 as <- _. reflexivity.
Defined.

End batch_in_reports.

(** ** The sales form *)

Section sales_form.
Local Open Scope Q_scope.

Lemma dict_set_new {V} key (value : V) d :
  key ∉ map fst d -> dict_set key value d = d ++ [(key, value)].
Proof.
  induction d as [| [k v] d IH]; intros H; [reflexivity |].
  cbn [map fst] in H. apply not_elem_of_cons in H as [Hne Hd].
  cbn [dict_set app]. destruct (Z.eqb_spec k key) as [-> | _];
    [contradiction |].
  rewrite IH by exact Hd. reflexivity.
Qed.

Lemma dict_set_elem {V} key (value : V) d entry :
  entry ∈ dict_set key value d -> entry = (key, value) \/ entry ∈ d.
Proof.
  induction d as [| [k v] d IH]; cbn [dict_set].
  - intros H. apply list_elem_of_singleton in H. auto.
  - destruct (Z.eqb_spec k key) as [-> | _]; intros H;
      apply elem_of_cons in H as [-> | H]; auto.
    + right. right. exact H.
    + right. left.
    + destruct (IH H) as [-> | Hd]; [auto | right; right; exact Hd].
Qed.

Lemma dict_set_not_empty {V} key (value : V) d : dict_set key value d <> [].
Proof.
  destruct d as [| [k v] d]; cbn; [| destruct (k =? key)%Z]; discriminate.
Qed.

Lemma fill_sales_dict_entries menu_items quantity_input d entry :
  entry ∈ fill_sales_dict menu_items quantity_input d ->
  entry ∈ d
  \/ exists item, item ∈ menu_items
                  /\ (0 < quantity_input (mi_id item))%Z
                  /\ entry = form_entry quantity_input item.
Proof.
  revert d. induction menu_items as [| item items IH]; intros d H;
    [left; exact H |].
  cbn [fill_sales_dict] in H.
  destruct (Z.ltb_spec 0 (quantity_input (mi_id item))) as [Hpos | _].
  - destruct (IH _ H) as [Hd | (item' & Hin & Hq & ->)].
    + apply dict_set_elem in Hd as [-> | Hd]; [| left; exact Hd].
      right. exists item. split; [left | auto].
    + right. exists item'. split; [right; exact Hin | auto].
  - destruct (IH _ H) as [Hd | (item' & Hin & Hq & ->)]; [left; exact Hd |].
    right. exists item'. split; [right; exact Hin | auto].
Qed.

Lemma fill_sales_dict_distinct menu_items quantity_input d :
  NoDup (map mi_id menu_items) ->
  (forall item, item ∈ menu_items -> mi_id item ∉ map fst d) ->
  fill_sales_dict menu_items quantity_input d =
    d ++ map (form_entry quantity_input)
             (filter (fun item => (0 < quantity_input (mi_id item))%Z)
                     menu_items).
Proof.
  revert d. induction menu_items as [| item items IH]; intros d Hnd Hd.
  - cbn. rewrite app_nil_r. reflexivity.
  - cbn [map] in Hnd. apply NoDup_cons in Hnd as [Hitem Hnd].
    cbn [fill_sales_dict]. rewrite filter_cons.
    destruct (Z.ltb_spec 0 (quantity_input (mi_id item))) as [Hpos | Hle].
    + rewrite decide_True by exact Hpos.
      rewrite IH; [| exact Hnd |].
      * rewrite dict_set_new by (apply Hd; left).
        rewrite <- app_assoc. reflexivity.
      * intros item' Hin. rewrite dict_set_new by (apply Hd; left).
        rewrite map_app. cbn [map fst]. intros Hel.
        apply elem_of_app in Hel as [Hel | Hel].
        -- apply (Hd item'); [right; exact Hin | exact Hel].
        -- apply list_elem_of_singleton in Hel. apply Hitem.
           rewrite <- Hel. apply list_elem_of_In, in_map, list_elem_of_In, Hin.
    + rewrite decide_False by lia. apply IH; [exact Hnd |].
      intros item' Hin. apply Hd. right. exact Hin.
Qed.

Lemma fill_sales_dict_not_empty menu_items quantity_input d :
  d <> [] \/ (exists item, item ∈ menu_items
                           /\ (0 < quantity_input (mi_id item))%Z) ->
  fill_sales_dict menu_items quantity_input d <> [].
Proof.
  revert d. induction menu_items as [| item items IH]; intros d H.
  - destruct H as [H | (item & Hin & _)]; [exact H | inversion Hin].
  - cbn [fill_sales_dict].
    destruct (Z.ltb_spec 0 (quantity_input (mi_id item))) as [Hpos | Hle].
    + apply IH. left. apply dict_set_not_empty.
    + apply IH. destruct H as [H | (item' & Hin & Hq)]; [left; exact H |].
      right. apply elem_of_cons in Hin as [-> | Hin]; [lia |].
      exists item'. auto.
Qed.

Lemma sold_all sales_dict :
  (forall entry, entry ∈ sales_dict -> (0 < sd_quantity entry.2)%Z) ->
  sold sales_dict = sales_dict.
Proof.
  intros H. unfold sold. induction sales_dict as [| entry d IH];
    [reflexivity |].
  rewrite filter_cons_True.
  - rewrite IH; [reflexivity |]. intros e He. apply H. right. exact He.
  - specialize (H entry (list_elem_of_here _ _)). lia.
Qed.

(** X6.  The dictionary the sales form builds holds, for menu items with
    distinct ids and in their order, exactly the items whose input is above
    0, with that quantity and the price of the menu item; so no entry has
    quantity 0 and the batch processor drops none of them.  When no input is
    above 0 the dictionary is empty, and submitting shows the warning
    without sending a request. *)
Theorem form_builds_positive_entries
    (menu_items : list MenuItem) (quantity_input : Z -> Z) :
  NoDup (map mi_id menu_items) ->
  let sales_dict := fill_sales_dict menu_items quantity_input [] in
  sales_dict =
    map (fun item =>
           (mi_id item,
            {| sd_quantity := quantity_input (mi_id item);
               sale_price := mi_sale_price item |}))
        (filter (fun item => (0 < quantity_input (mi_id item))%Z) menu_items)
  /\ sold sales_dict = sales_dict
  /\ ((forall item, item ∈ menu_items ->
                    (quantity_input (mi_id item) <= 0)%Z) ->
      forall selected_server selected_date w,
        render_daily_sales_form menu_items selected_server selected_date
          quantity_input w
        = (Return tt,
           set_page
             (page w ++ [st_warning_box please_select_server_date_item]) w)).
Proof.
  intros Hnd sales_dict.
  assert (Heq : sales_dict =
            map (form_entry quantity_input)
              (filter (fun item => (0 < quantity_input (mi_id item))%Z)
                      menu_items)).
  { unfold sales_dict.
    rewrite fill_sales_dict_distinct; [reflexivity | exact Hnd |].
    intros item _ H. inversion H. }
  split; [exact Heq |]. split.
  - apply sold_all. intros entry He.
    apply fill_sales_dict_entries in He as [He | (item & _ & Hq & ->)];
      [inversion He | exact Hq].
  - intros Hzero selected_server selected_date w.
    unfold render_daily_sales_form. fold sales_dict. rewrite Heq.
    replace (filter _ menu_items) with (@nil MenuItem); [reflexivity |].
    symmetry. clear -Hzero. induction menu_items as [| item items IH];
      [reflexivity |].
    rewrite filter_cons_False.
    + apply IH. intros i Hi. apply Hzero. right. exact Hi.
    + specialize (Hzero item (list_elem_of_here _ _)). lia.
Qed.

Lemma form_builds_positive_entries_witness :
  fill_sales_dict cafe_menu three_of_the_first [] = three_espressos.
Proof.
  assert (Hnd : NoDup (map mi_id cafe_menu))
    by (apply (bool_decide_unpack _); vm_compute; exact I).
  destruct (form_builds_positive_entries cafe_menu three_of_the_first Hnd)
    as [Hdict _].
  rewrite Hdict. reflexivity.
Defined.

Lemma Qsum_positive (xs : list Q) :
  xs <> [] -> Forall (fun x => 0 < x) xs -> 0 < Qsum xs.
Proof.
  intros Hne H. induction H as [| x xs Hx Hxs IH]; [contradiction |].
  cbn [Qsum]. destruct xs as [| y ys].
  - cbn [Qsum]. lra.
  - assert (0 < Qsum (y :: ys)) by (apply IH; discriminate). lra.
Qed.

(** X7.  When every menu item has a price above 0 and some input of the form
    is above 0, then against a store that answers the submitted form records
    the batch with a value above 0 and reports success: the error of the
    caller is not shown. *)
Theorem submitted_form_reports_success
    (menu_items : list MenuItem) (quantity_input : Z -> Z)
    (selected_server : Worker) (selected_date : date) (w : World) :
  reliable w = true ->
  (forall item, item ∈ menu_items -> 0 < mi_sale_price item) ->
  (exists item, item ∈ menu_items /\ (0 < quantity_input (mi_id item))%Z) ->
  let sales_dict := fill_sales_dict menu_items quantity_input [] in
  exists total w1,
    process_daily_sales (w_id selected_server) sales_dict selected_date w
      = (Return total, w1)
    /\ 0 < total
    /\ page (render_daily_sales_form menu_items selected_server selected_date
               quantity_input w).2 =
         page w1
         ++ [st_success_box
               (successfully_recorded_sales (w_name selected_server)
                  selected_date total);
             st_info_box stock_has_been_updated].
Proof.
  intros Hw Hprice Hsome sales_dict.
  destruct (process_daily_sales_reliable (w_id selected_server) sales_dict
              selected_date w Hw) as (w1 & Hrun & _).
  assert (Hne : sales_dict <> [])
    by (apply fill_sales_dict_not_empty; right; exact Hsome).
  assert (Hentries : forall entry, entry ∈ sales_dict ->
            (0 < sd_quantity entry.2)%Z /\ 0 < sale_price entry.2).
  { intros entry He.
    apply fill_sales_dict_entries in He as [He | (item & Hin & Hq & ->)];
      [inversion He |]. split; [exact Hq | apply Hprice, Hin]. }
  assert (Hpos : 0 < total_after sales_dict 0).
  { rewrite total_after_revenue. unfold batch_revenue.
    rewrite sold_all by (intros e He; apply Hentries, He).
    apply Qsum_positive.
    - destruct sales_dict; [contradiction | discriminate].
    - apply List.Forall_forall. intros x Hx.
      apply in_map_iff in Hx as (entry & <- & Hin).
      apply list_elem_of_In, Hentries in Hin as [Hq Hp].
      apply Qmult_lt_0_compat; [exact Hp |].
      change 0 with (inject_Z 0). rewrite <- Zlt_Qlt. exact Hq. }
  exists (total_after sales_dict 0), w1. split; [exact Hrun |].
  split; [exact Hpos |].
  destruct (render_daily_sales_submit_page selected_server sales_dict
              selected_date w Hne) as (total & Hrun' & Hpage).
  unfold render_daily_sales_form. fold sales_dict. rewrite Hpage.
  rewrite Hrun in Hrun' |- *. cbn [fst snd] in *. injection Hrun' as <-.
  apply Qlt_bool_iff in Hpos. rewrite Hpos. reflexivity.
Qed.

Lemma submitted_form_reports_success_witness :
  exists total w1,
    process_daily_sales 1 three_espressos (Date 2024 2 14) cafe
      = (Return total, w1)
    /\ 0 < total.
Proof.
  destruct (submitted_form_reports_success cafe_menu three_of_the_first
              alice (Date 2024 2 14) cafe)
    as (total & w1 & Hrun & Hpos & _).
  - reflexivity.
  - intros item Hin. cbn in Hin.
    repeat (apply elem_of_cons in Hin as [-> | Hin]; [reflexivity |]).
    inversion Hin.
  - eexists. split; [left | reflexivity].
  - exists total, w1. split; [exact Hrun | exact Hpos].
Defined.

End sales_form.

(** ** The batch under any store: what stays, what is added *)

Section batch_frame.
Local Open Scope Q_scope.

Lemma batch_lines_app order items1 items2 :
  batch_lines order (items1 ++ items2) =
    batch_lines order items1 ++ batch_lines order items2.
Proof. unfold batch_lines, sold. rewrite filter_app, map_app. reflexivity. Qed.

Lemma answered_lines_nil {A} (lines : list A) : answered_lines lines [] = [].
Proof. destruct lines; reflexivity. Qed.

Lemma answered_lines_snoc {A} (lines : list A) :
  forall replies r line,
    lines !! length replies = Some line ->
    answered_lines lines (replies ++ [r]) =
      answered_lines lines replies
      ++ match r with Answer => [line] | _ => [] end.
Proof.
  induction lines as [| l lines IH]; intros replies r line Hline;
    [destruct replies; discriminate |].
  destruct replies as [| r0 replies]; cbn [length app] in *.
  - injection Hline as ->. cbn [answered_lines].
    rewrite answered_lines_nil. destruct r; reflexivity.
  - cbn [lookup] in Hline. change ((l :: lines) !! S (length replies))
      with (lines !! length replies) in Hline.
    cbn [answered_lines].
    destruct r0; rewrite (IH _ r line Hline); reflexivity.
Qed.

Lemma item_insert_replies_app j1 j2 :
  item_insert_replies (j1 ++ j2) =
    item_insert_replies j1 ++ item_insert_replies j2.
Proof. apply omap_app. Qed.

Lemma items_written_weaken order sales_dict j0 t1 reached w :
  items_written order sales_dict j0 t1 reached w ->
  items_written order sales_dict j0 t1 None w.
Proof.
  intros (Ho & Hn & Hw & He & added & j & Hj & Ha & Hs & _).
  repeat split; try assumption. exists added, j.
  repeat split; try assumption. intros n [=].
Qed.

(** A step that leaves the orders, the order items, the workers and the
    expenses alone and sends no insert of an order item. *)
Lemma items_written_other order sales_dict j0 t1 reached w w' js :
  items_written order sales_dict j0 t1 reached w ->
  journal w' = journal w ++ js ->
  item_insert_replies js = [] ->
  orders (db w') = orders (db w) ->
  next_order_id (db w') = next_order_id (db w) ->
  workers (db w') = workers (db w) ->
  monthly_expenses (db w') = monthly_expenses (db w) ->
  order_items (db w') = order_items (db w) ->
  items_written order sales_dict j0 t1 reached w'.
Proof.
  intros (Ho & Hn & Hw & He & added & j & Hj & Ha & Hs & Hl)
         Hj' Hjs Ho' Hn' Hw' He' Ha'.
  split; [congruence |]. split; [congruence |]. split; [congruence |].
  split; [congruence |]. exists added, (j ++ js).
  split; [rewrite Hj', Hj, app_assoc; reflexivity |].
  split; [congruence |].
  rewrite item_insert_replies_app, Hjs, app_nil_r. auto.
Qed.

(** The insert of the order item of the next line, whatever the reply. *)
Lemma items_written_insert order sales_dict j0 t1 n w w' r row :
  items_written order sales_dict j0 t1 (Some n) w ->
  batch_lines order sales_dict !! n = Some (sale_line row) ->
  journal w' = journal w ++ [(order_items_insert, r)] ->
  order_items (db w') =
    order_items (db w) ++ match r with Answer => [row] | _ => [] end ->
  orders (db w') = orders (db w) ->
  next_order_id (db w') = next_order_id (db w) ->
  workers (db w') = workers (db w) ->
  monthly_expenses (db w') = monthly_expenses (db w) ->
  items_written order sales_dict j0 t1 (Some (S n)) w'.
Proof.
  intros (Ho & Hn & Hw & He & added & j & Hj & Ha & Hs & Hl)
         Hline Hj' Ha' Ho' Hn' Hw' He'.
  specialize (Hl n eq_refl).
  split; [congruence |]. split; [congruence |]. split; [congruence |].
  split; [congruence |].
  exists (added ++ match r with Answer => [row] | _ => [] end),
         (j ++ [(order_items_insert, r)]).
  split; [rewrite Hj', Hj, app_assoc; reflexivity |].
  split; [rewrite Ha', Ha, app_assoc; reflexivity |].
  rewrite item_insert_replies_app. cbn [item_insert_replies omap fst snd].
  change (omap _ [(order_items_insert, r)]) with [r].
  split.
  - rewrite (answered_lines_snoc _ _ r (sale_line row))
      by (rewrite Hl; exact Hline).
    rewrite map_app, Hs. destruct r; reflexivity.
  - intros m [= <-]. rewrite length_app, Hl. cbn. lia.
Qed.

Lemma decrement_ingredients_writes order sales_dict j0 t1 reached
    sold_quantity recipe :
  hoare (items_written order sales_dict j0 t1 reached)
        (decrement_ingredients sold_quantity recipe)
        (fun _ w => items_written order sales_dict j0 t1 reached w).
Proof.
  induction recipe as [| [sid used] recipe IH].
  - apply hoare_ret. auto.
  - cbn [decrement_ingredients].
    eapply hoare_bind
      with (Q1 := fun _ w => items_written order sales_dict j0 t1 reached w).
    + apply hoare_execute; intros w Hw _;
        (eapply items_written_other; [exact Hw | reflexivity..]).
    + intros ?. apply IH.
    + auto.
Qed.

Lemma sell_items_writes order sales_dict j0 t1 items :
  forall done total,
    sales_dict = done ++ items ->
    hoare (items_written order sales_dict j0 t1
             (Some (length (batch_lines order done))))
          (sell_items order items total)
          (fun _ w => items_written order sales_dict j0 t1 None w).
Proof.
  induction items as [| [item_id details] items IH]; intros done total Hall.
  - apply hoare_ret. intros w Hw. eapply items_written_weaken, Hw.
  - cbn [sell_items].
    assert (Hall' : sales_dict = (done ++ [(item_id, details)]) ++ items)
      by (rewrite <- app_assoc; exact Hall).
    destruct (Z.eqb_spec (sd_quantity details) 0) as [Hz | Hnz].
    + intros w Hw. apply (IH _ total Hall').
      rewrite batch_lines_app. unfold batch_lines at 2, sold.
      rewrite filter_cons_False by (cbn; tauto).
      rewrite filter_nil, app_nil_r. exact Hw.
    + set (n := length (batch_lines order done)).
      assert (Hnext : length (batch_lines order (done ++ [(item_id, details)]))
                      = S n).
      { rewrite batch_lines_app, length_app. unfold batch_lines at 2, sold.
        rewrite filter_cons_True by exact Hnz. cbn. fold n. lia. }
      assert (Hline : forall cost,
                batch_lines order sales_dict !! n =
                  Some (sale_line
                          {| order_id := order; oi_menu_item_id := item_id;
                             quantity := sd_quantity details;
                             price_at_sale := sale_price details;
                             cost_at_sale := cost |})).
      { intros cost. rewrite Hall, batch_lines_app.
        unfold batch_lines at 2, sold.
        rewrite filter_cons_True by exact Hnz. cbn [map].
        apply list_lookup_middle. reflexivity. }
      set (I := items_written order sales_dict j0 t1).
      eapply hoare_bind with (Q1 := fun _ w => I (Some n) w).
      { apply hoare_calculate. intros w cost w' Hw Hdb [Hj | [r Hj]].
        - eapply (items_written_other _ _ _ _ _ w w' []);
            [exact Hw | rewrite app_nil_r; exact Hj | reflexivity
            | rewrite Hdb; reflexivity ..].
        - eapply (items_written_other _ _ _ _ _ w w');
            [exact Hw | exact Hj | reflexivity
            | rewrite Hdb; reflexivity ..]. }
      2: { intros e w Hw. eapply items_written_weaken, Hw. }
      intros cost.
      eapply hoare_bind with (Q1 := fun _ w => I (Some (S n)) w).
      { apply hoare_execute; intros w Hw _;
          (eapply items_written_insert;
           [exact Hw | apply (Hline cost) | reflexivity
           | first [reflexivity | symmetry; apply app_nil_r]
           | reflexivity..]). }
      2: { intros e w Hw. eapply items_written_weaken, Hw. }
      intros ?.
      eapply hoare_bind with (Q1 := fun _ w => I (Some (S n)) w).
      { apply hoare_execute; intros w Hw _;
          (eapply items_written_other; [exact Hw | reflexivity..]). }
      2: { intros e w Hw. eapply items_written_weaken, Hw. }
      intros rows.
      eapply hoare_bind with (Q1 := fun _ w => I (Some (S n)) w).
      { apply decrement_ingredients_writes. }
      2: { intros e w Hw. eapply items_written_weaken, Hw. }
      intros ?. intros w Hw. apply (IH _ _ Hall'). rewrite Hnext. exact Hw.
Qed.

(** X8.  Once the store has created the order of a batch, the order stays
    whatever the later requests of the batch do, also when one of them
    raises and the batch returns 0: nothing is taken back.  The order items
    that were there are still there, followed by exactly one row for each
    sold item of the batch whose insert the store answered, in the order of
    the batch, under the new order and with the quantity and price of the
    form; so a row written before a request fails is there afterwards.
    Orders, workers and expenses are otherwise as they were. *)
Theorem failed_batch_is_not_rolled_back
    (server_id : Z) (sales_dict : list (Z * sale_details)) (sales_date : date)
    (w : World) :
  reply_at w = Answer ->
  let w' := (process_daily_sales server_id sales_dict sales_date w).2 in
  let t := db w in
  let t' := db w' in
  orders t' =
    orders t ++ [{| o_id := next_order_id t; server_id := server_id;
                    timestamp := combine sales_date noon |}]
  /\ next_order_id t' = (next_order_id t + 1)%Z
  /\ workers t' = workers t
  /\ monthly_expenses t' = monthly_expenses t
  /\ exists added,
       order_items t' = order_items t ++ added
       /\ map sale_line added =
            answered_lines
              (map (fun item =>
                      (next_order_id t, item.1, sd_quantity item.2,
                       sale_price item.2))
                   (filter (fun item => sd_quantity item.2 <> 0%Z)
                           sales_dict))
              (item_insert_replies (new_requests w w')).
Proof.
  intros Hr w' t t'.
  set (t1 := (insert_order server_id (combine sales_date noon) t).2).
  set (j0 := journal w ++ [(orders_insert, Answer)]).
  assert (H : items_written (next_order_id t) sales_dict j0 t1 None w').
  { unfold w', process_daily_sales, try_except. rewrite bind_run.
    rewrite execute_answered by exact Hr. cbn [fst snd insert_order].
    fold t. fold (insert_order server_id (combine sales_date noon) t).
    match goal with
    | |- context [sell_items ?o ?items ?total ?w1] =>
        pose proof (sell_items_writes o sales_dict j0 t1 items [] total
                      eq_refl w1) as Hloop
    end.
    cbn [o_id] in *.
    assert (Hstart : items_written (next_order_id t) sales_dict j0 t1
                       (Some (length (batch_lines (next_order_id t) [])))
                       (set_db t1 (record_call orders_insert Answer w))).
    { do 4 (split; [reflexivity |]). exists [], [].
      split; [rewrite app_nil_r; reflexivity |].
      split; [rewrite app_nil_r; reflexivity |].
      split; [cbn [item_insert_replies omap]; rewrite answered_lines_nil;
              reflexivity |].
      intros n [= <-]. reflexivity. }
    specialize (Hloop Hstart).
    destruct (sell_items _ _ _ _) as [[total | e] w2]; [exact Hloop |].
    cbn [fst snd] in Hloop.
    eapply (items_written_other _ _ _ _ _ w2 _ []);
      [exact Hloop | rewrite app_nil_r; reflexivity | reflexivity..]. }
  destruct H as (Ho & Hn & Hw & He & added & j & Hj & Ha & Hs & _).
  repeat split; try assumption. exists added. split; [exact Ha |].
  rewrite Hs. unfold new_requests. fold w'. rewrite Hj. unfold j0.
  rewrite <- app_assoc, drop_app_length. reflexivity.
Qed.

(** The store answers the insert of the order, the cost lookup and the
    insert of the order item, and raises at the lookup of the recipe: the
    batch returns 0, and the order and the order item are in the tables. *)
Lemma failed_batch_is_not_rolled_back_witness :
  (process_daily_sales 1 three_espressos (Date 2024 2 14)
     cafe_failing_midway).1 = Return 0
  /\ orders
       (db (process_daily_sales 1 three_espressos (Date 2024 2 14)
              cafe_failing_midway).2)
     = [{| o_id := 1; server_id := 1;
           timestamp := combine (Date 2024 2 14) noon |}]
  /\ map sale_line
       (order_items
          (db (process_daily_sales 1 three_espressos (Date 2024 2 14)
                 cafe_failing_midway).2))
     = [(1%Z, 1%Z, 3%Z, 5)].
Proof.
  split; [vm_compute; reflexivity |].
  destruct (failed_batch_is_not_rolled_back 1 three_espressos
              (Date 2024 2 14) cafe_failing_midway eq_refl)
    as (Ho & _ & _ & _ & added & Ha & Hs).
  split; [exact Ho |]. rewrite Ha, map_app, Hs. vm_compute. reflexivity.
Defined.

(** X9.  When the store does not create the order, because the insert
    raises or comes back without rows, the submitted form leaves the tables
    as they were, has sent that one request only, and shows two errors: the
    one of the batch and the one of the form. *)
Theorem unanswered_order_changes_nothing
    (selected_server : Worker) (sales_dict : list (Z * sale_details))
    (selected_date : date) (w : World) :
  sales_dict <> [] ->
  reply_at w <> Answer ->
  let w' :=
    (render_daily_sales_submit selected_server sales_dict selected_date w).2
  in
  db w' = db w
  /\ new_requests w w' = [(orders_insert, reply_at w)]
  /\ page w' =
       page w
       ++ [st_error_box
             (match reply_at w with
              | Throws => error_processing_sales StoreError
              | _ => failed_to_create_daily_order
              end);
           st_error_box error_processing_the_sales].
Proof.
  intros Hne Hr w'.
  assert (Hrun : w' =
            set_page
              ((page w
                ++ [st_error_box
                      (match reply_at w with
                       | Throws => error_processing_sales StoreError
                       | _ => failed_to_create_daily_order
                       end)])
               ++ [st_error_box error_processing_the_sales])
              (record_call orders_insert (reply_at w) w)).
  { unfold w', render_daily_sales_submit.
    destruct sales_dict as [| item items]; [contradiction |].
    rewrite bind_run. unfold process_daily_sales, try_except.
    rewrite bind_run.
    destruct (reply_at w) eqn:E; [contradiction | |].
    - rewrite execute_thrown by exact E. reflexivity.
    - rewrite execute_no_rows by exact E. reflexivity. }
  rewrite Hrun. unfold new_requests. cbn.
  rewrite drop_app_length, <- app_assoc. auto.
Qed.

Lemma unanswered_order_changes_nothing_witness :
  db (render_daily_sales_submit alice three_espressos (Date 2024 2 14)
        (cafe_with [Throws])).2 = cafe_tables.
Proof.
  destruct (unanswered_order_changes_nothing alice three_espressos
              (Date 2024 2 14) (cafe_with [Throws])) as (Hdb & _).
  - discriminate.
  - discriminate.
  - exact Hdb.
Defined.

End batch_frame.

(** ** How long a memoised cost lasts *)

Section memo_lifetime.
Local Open Scope Q_scope.

(** After a call that ran the body, the result is stored with the time of
    the call. *)
Lemma calculate_miss_stores id w :
  fresh_entry w id = None ->
  exists cost elements w1,
    calculate_menu_item_cost id w = (Return cost, w1)
    /\ cost_cache w1 !! id =
         Some {| ce_value := cost; ce_elements := elements;
                 ce_stored := now w |}
    /\ now w1 = now w
    /\ (reply_at w = Throws -> cost = 0).
Proof.
  intros E. rewrite (calculate_miss _ _ E).
  destruct (reply_at w) eqn:Hr.
  - rewrite body_answered by exact Hr. eexists _, _, _.
    split; [reflexivity |]. cbn. rewrite lookup_insert_eq.
    split; [reflexivity |]. split; [reflexivity | discriminate].
  - rewrite body_thrown by exact Hr. eexists _, _, _.
    split; [reflexivity |]. cbn. rewrite lookup_insert_eq.
    split; [reflexivity |]. split; reflexivity.
  - rewrite body_no_rows by exact Hr. eexists _, _, _.
    split; [reflexivity |]. cbn. rewrite lookup_insert_eq.
    split; [reflexivity |]. split; [reflexivity | discriminate].
Qed.

(** X10.  A cost the calculator has computed is returned again, without any
    request, for the next 60 seconds, whatever has become of the tables in
    between; a lookup that raised therefore keeps the item at cost 0 for
    that long.  From 60 seconds on the next call sends the lookup again, and
    returns the recipe cost over the tables as they then are if it is
    answered. *)
Theorem memoised_cost_lasts_sixty_seconds
    (menu_item_id : Z) (w : World) (seconds : Z) (t : Tables) :
  fresh_entry w menu_item_id = None ->
  let first := calculate_menu_item_cost menu_item_id w in
  let w2 := set_db t (later seconds first.2) in
  let second := calculate_menu_item_cost menu_item_id w2 in
  ((seconds < 60)%Z ->
     second.1 = first.1
     /\ new_requests w2 second.2 = []
     /\ db second.2 = t
     /\ (reply_at w = Throws -> second.1 = Return 0))
  /\ ((60 <= seconds)%Z ->
        new_requests w2 second.2 = [(recipe_costs_select, reply_at w2)]
        /\ (reply_at w2 = Answer ->
            exists cost,
              second.1 = Return cost /\ cost == recipe_cost menu_item_id t)).
Proof.
  intros E first w2 second.
  destruct (calculate_miss_stores menu_item_id w E)
    as (cost & elements & w1 & Hrun & Hentry & Hnow & Hzero).
  assert (Hcache : cost_cache w2 !! menu_item_id =
            Some {| ce_value := cost; ce_elements := elements;
                    ce_stored := now w |}).
  { unfold w2, first. rewrite Hrun. exact Hentry. }
  assert (Hnow2 : now w2 = (now w + seconds)%Z).
  { unfold w2, first. rewrite Hrun. cbn. rewrite Hnow. reflexivity. }
  split.
  - intros Hs.
    assert (Hfresh : fresh_entry w2 menu_item_id =
              Some {| ce_value := cost; ce_elements := elements;
                      ce_stored := now w |}).
    { unfold fresh_entry. rewrite Hcache, Hnow2. cbn [ce_stored].
      destruct (Z.ltb_spec (now w + seconds) (now w + 60));
        [reflexivity | lia]. }
    unfold second. rewrite (calculate_hit _ _ _ Hfresh). unfold first.
    rewrite Hrun. unfold new_requests. cbn [fst snd ce_value].
    split; [reflexivity |]. split; [apply drop_all |].
    split; [reflexivity |]. intros Hr. rewrite (Hzero Hr). reflexivity.
  - intros Hs.
    assert (Hstale : fresh_entry w2 menu_item_id = None).
    { unfold fresh_entry. rewrite Hcache, Hnow2. cbn [ce_stored].
      destruct (Z.ltb_spec (now w + seconds) (now w + 60));
        [lia | reflexivity]. }
    unfold second. rewrite (calculate_miss _ _ Hstale).
    change (reply_at w2) with (reply_at (set_page [] w2)).
    destruct (reply_at (set_page [] w2)) eqn:Hr.
    + rewrite body_answered by exact Hr. unfold new_requests. cbn.
      rewrite drop_app_length. split; [reflexivity |]. intros _.
      eexists. split; [reflexivity |].
      change (db w2) with t. apply computed_cost_is_recipe_cost.
    + rewrite body_thrown by exact Hr. unfold new_requests. cbn.
      rewrite drop_app_length. split; [reflexivity | discriminate].
    + rewrite body_no_rows by exact Hr. unfold new_requests. cbn.
      rewrite drop_app_length. split; [reflexivity | discriminate].
Qed.

(** The cost of menu item 1 of the cafe, 6/100, is returned 59 seconds later
    although the recipe links have been removed from the tables. *)
Lemma memoised_cost_lasts_sixty_seconds_witness :
  (calculate_menu_item_cost 1
     (set_db (set_menu_item_recipe (fun _ => []) cafe_tables)
        (later 59 (calculate_menu_item_cost 1 cafe).2))).1
  = Return (6 # 100).
Proof.
  destruct (memoised_cost_lasts_sixty_seconds 1 cafe 59
              (set_menu_item_recipe (fun _ => []) cafe_tables) eq_refl)
    as [Hhit _].
  destruct (Hhit eq_refl) as (Hsame & _).
  rewrite Hsame. vm_compute. reflexivity.
Defined.

End memo_lifetime.

(** ** A batch in the monthly report *)

Section batch_in_month.
Local Open Scope Q_scope.

Lemma noon_in_month_window y m sales_date :
  valid_date sales_date = true ->
  in_window (first_instant y m) (last_instant y m) (combine sales_date noon)
    = true
  <-> year sales_date = y /\ month sales_date = m.
Proof.
  intros Hv. apply (in_month_window y m (combine sales_date noon));
    [exact Hv | reflexivity].
Qed.

(** X11.  Against a store that answers and whose next order id is not in
    use, a batch recorded for a date raises the revenue of the monthly
    report of that month by the value it returns and the net profit by that
    value less the unit costs times the quantities of the items sold;
    salaries and expenses are the same, and the monthly report of any other
    month is as before. *)
Theorem batch_shows_in_monthly_report
    (server_id : Z) (sales_dict : list (Z * sale_details)) (sales_date : date)
    (selected_month_date : date) (w : World) :
  reliable w = true ->
  (forall o, o ∈ orders (db w) -> o_id o <> next_order_id (db w)) ->
  (forall i, i ∈ order_items (db w) -> order_id i <> next_order_id (db w)) ->
  valid_date sales_date = true ->
  valid_date selected_month_date = true ->
  (year selected_month_date <> MAXYEAR \/ month selected_month_date <> 12%Z) ->
  let same_month :=
    bool_decide (year sales_date = year selected_month_date
                 /\ month sales_date = month selected_month_date) in
  let batch_cogs :=
    Qsum (map (fun item => unit_cost w item.1 * inject_Z (sd_quantity item.2))
              (sold sales_dict)) in
  exists total w1 before w2 after w3,
    process_daily_sales server_id sales_dict sales_date w = (Return total, w1)
    /\ render_reports_monthly selected_month_date w
       = (Return (Some before), w2)
    /\ render_reports_monthly selected_month_date w1
       = (Return (Some after), w3)
    /\ total_salaries after = total_salaries before
    /\ total_expenses after = total_expenses before
    /\ total_revenue after ==
         total_revenue before + (if same_month then total else 0)
    /\ net_profit after ==
         net_profit before
         + (if same_month then total - batch_cogs else 0).
Proof.
  intros Hw Ho Hi Hvs Hv Hn same_month batch_cogs.
  destruct (process_daily_sales_reliable server_id sales_dict sales_date w Hw)
    as (w1 & Hrun & Hdb & Hf).
  pose proof (reliable_follows _ _ Hf Hw) as Hw1.
  destruct (render_reports_monthly_run selected_month_date w Hv Hn Hw)
    as (w2 & Hbefore & _).
  destruct (render_reports_monthly_run selected_month_date w1 Hv Hn Hw1)
    as (w3 & Hafter & _).
  eexists _, w1, _, w2, _, w3. split; [exact Hrun |].
  split; [exact Hbefore |]. split; [exact Hafter |].
  cbn [total_salaries total_expenses total_revenue net_profit].
  rewrite Hdb.
  destruct (record_batch_rest (next_order_id (db w)) (unit_cost w) sales_dict
              (insert_order server_id (combine sales_date noon) (db w)).2)
    as (_ & Hworkers & Hexpenses & _).
  split; [unfold select_salaries; rewrite Hworkers; reflexivity |].
  split; [unfold select_expenses; rewrite Hexpenses; reflexivity |].
  assert (Hsal : forall t', workers t' = workers (db w) ->
            select_salaries t' = select_salaries (db w))
    by (intros t' Ht'; unfold select_salaries; rewrite Ht'; reflexivity).
  assert (Hexp : forall d t', monthly_expenses t' = monthly_expenses (db w) ->
            select_expenses d t' = select_expenses d (db w))
    by (intros d t' Ht'; unfold select_expenses; rewrite Ht'; reflexivity).
  rewrite Hsal by exact Hworkers. rewrite Hexp by exact Hexpenses.
  rewrite select_sales_after_batch by assumption.
  rewrite !py_sum_app_map.
  unfold same_month.
  destruct (in_window _ _ _) eqn:E.
  - apply (noon_in_month_window _ _ _ Hvs) in E.
    rewrite bool_decide_eq_true_2 by exact E.
    rewrite !map_map. cbn [order_line price_at_sale cost_at_sale quantity].
    rewrite total_after_revenue. unfold batch_revenue, batch_cogs.
    split; [reflexivity | ring].
  - rewrite bool_decide_eq_false_2.
    + cbn [map Qsum]. split; ring.
    + intros H. apply (noon_in_month_window _ _ _ Hvs) in H. congruence.
Qed.

Lemma batch_shows_in_monthly_report_witness :
  exists total w1 before w2 after w3,
    process_daily_sales 1 three_espressos (Date 2024 2 14) cafe
      = (Return total, w1)
    /\ render_reports_monthly (Date 2024 2 29) cafe
       = (Return (Some before), w2)
    /\ render_reports_monthly (Date 2024 2 29) w1
       = (Return (Some after), w3)
    /\ total_revenue after == total_revenue before + 15.
Proof.
  destruct (batch_shows_in_monthly_report 1 three_espressos (Date 2024 2 14)
              (Date 2024 2 29) cafe)
    as (total & w1 & before & w2 & after & w3 & H1 & H2 & H3 & _ & _ & Hr & _).
  - reflexivity.
  - intros o Ho. inversion Ho.
  - intros i Hi. inversion Hi.
  - reflexivity.
  - reflexivity.
  - left. unfold MAXYEAR. cbn. lia.
  - exists total, w1, before, w2, after, w3.
    split; [exact H1 |]. split; [exact H2 |]. split; [exact H3 |].
    rewrite Hr. vm_compute in H1. injection H1 as <- _. reflexivity.
Defined.

End batch_in_month.

(** ** The dashboard, the order totals, logging in *)

Section more_pages.
Local Open Scope Q_scope.

(** X12.  The dashboard is the monthly report of the current month: for any
    date of the month of today, any month but December 9999, and any store,
    the dashboard and the monthly report of that date send the same
    requests, show the same figures or the same error and leave the same
    world. *)
Theorem dashboard_is_the_report_of_the_month
    (today selected_month_date : date) (w : World) :
  valid_date today = true ->
  valid_date selected_month_date = true ->
  year selected_month_date = year today ->
  month selected_month_date = month today ->
  (year today <> MAXYEAR \/ month today <> 12%Z) ->
  render_monthly_dashboard today w
  = render_reports_monthly selected_month_date w.
Proof.
  intros Hv Hv' Hy Hm Hn.
  unfold render_monthly_dashboard, render_reports_monthly.
  rewrite !bind_run. unfold lift_result.
  rewrite (get_month_range_inside today Hv Hn).
  rewrite (get_month_range_inside selected_month_date Hv')
    by (rewrite Hy, Hm; exact Hn).
  rewrite Hy, Hm. reflexivity.
Qed.

Lemma dashboard_is_the_report_of_the_month_witness :
  render_monthly_dashboard (Date 2024 2 14) february_books
  = render_reports_monthly (Date 2024 2 29) february_books.
Proof.
  apply (dashboard_is_the_report_of_the_month (Date 2024 2 14)
           (Date 2024 2 29) february_books); try reflexivity.
  left. unfold MAXYEAR. cbn. lia.
Defined.

(** *** The totals of an order *)

Lemma order_totals_acc items :
  forall item_data total_revenue total_cost,
    let listed := filter (fun item => is_Some (oir_menu_items item)) items in
    let result := order_totals items item_data total_revenue total_cost in
    map otl_quantity result.1.1 =
      map otl_quantity item_data ++ map oir_quantity listed
    /\ Qsum (map otl_total_revenue result.1.1) ==
         Qsum (map otl_total_revenue item_data)
         + Qsum (map (fun item =>
                        inject_Z (oir_quantity item) * oir_price_at_sale item)
                     listed)
    /\ result.1.2 ==
         total_revenue
         + Qsum (map (fun item =>
                        inject_Z (oir_quantity item) * oir_price_at_sale item)
                     listed)
    /\ result.2 ==
         total_cost
         + Qsum (map (fun item =>
                        inject_Z (oir_quantity item) * oir_cost_at_sale item)
                     listed).
Proof.
  induction items as [| item items IH]; intros item_data total_revenue
    total_cost.
  - cbn. rewrite app_nil_r. repeat split; ring.
  - cbn [order_totals]. rewrite filter_cons.
    destruct (oir_menu_items item) as [item_name |] eqn:E.
    + rewrite decide_True by eauto.
      specialize (IH (item_data
                      ++ [{| otl_item := item_name;
                             otl_quantity := oir_quantity item;
                             otl_unit_price := oir_price_at_sale item;
                             otl_total_revenue :=
                               inject_Z (oir_quantity item)
                               * oir_price_at_sale item;
                             otl_total_cost :=
                               inject_Z (oir_quantity item)
                               * oir_cost_at_sale item |}])
                    (total_revenue
                     + inject_Z (oir_quantity item) * oir_price_at_sale item)
                    (total_cost
                     + inject_Z (oir_quantity item) * oir_cost_at_sale item)).
      cbn zeta in IH. destruct IH as (Hq & Hlines & Hrev & Hcost).
      cbn zeta. rewrite Hq, Hlines, Hrev, Hcost.
      rewrite !map_app. cbn [map app Qsum otl_quantity otl_total_revenue].
      rewrite <- app_assoc. cbn [app].
      split; [reflexivity |].
      assert (Happ : forall xs x, Qsum (xs ++ [x]) == Qsum xs + x).
      { intros xs x. induction xs as [| y xs IHxs]; cbn [app Qsum]; [ring |].
        rewrite IHxs. ring. }
      rewrite Happ. repeat split; ring.
    + rewrite decide_False by (intros [? [=]]).
      apply IH.
Qed.

Lemma Qsum_split {A} (P : A -> Prop) `{!forall x, Decision (P x)}
    (f : A -> Q) (l : list A) :
  Qsum (map f l) ==
    Qsum (map f (filter P l)) + Qsum (map f (filter (fun x => ~ P x) l)).
Proof.
  induction l as [| x l IH]; [cbn; ring |].
  rewrite !filter_cons. cbn [map Qsum]. rewrite IH.
  destruct (decide (P x)) as [HP | HP].
  - rewrite decide_False by tauto. cbn [map Qsum]. ring.
  - rewrite decide_True by exact HP. cbn [map Qsum]. ring.
Qed.

(** X13.  The loop that totals an order on the orders page lists one line
    per fetched row that has its menu item, in order; the revenue it shows
    is the sum of the lines of the table, and what the reports sum over the
    same rows, price times quantity, is that revenue plus the revenue of the
    rows without a menu item, which the page leaves out; the same holds for
    the cost. *)
Theorem order_totals_leave_out_orphans (items : list OrderItemRow) :
  let result := order_totals items [] 0 0 in
  let item_data := result.1.1 in
  let total_revenue := result.1.2 in
  let total_cost := result.2 in
  let orphans :=
    filter (fun item => ~ is_Some (oir_menu_items item)) items in
  map otl_quantity item_data =
    map oir_quantity
        (filter (fun item => is_Some (oir_menu_items item)) items)
  /\ total_revenue == Qsum (map otl_total_revenue item_data)
  /\ py_sum (map (fun item =>
                    oir_price_at_sale item * inject_Z (oir_quantity item))
                 items)
     == total_revenue
        + Qsum (map (fun item =>
                       oir_price_at_sale item * inject_Z (oir_quantity item))
                    orphans)
  /\ py_sum (map (fun item =>
                    oir_cost_at_sale item * inject_Z (oir_quantity item))
                 items)
     == total_cost
        + Qsum (map (fun item =>
                       oir_cost_at_sale item * inject_Z (oir_quantity item))
                    orphans).
Proof.
  intros result item_data total_revenue total_cost orphans.
  destruct (order_totals_acc items [] 0 0) as (Hq & Hlines & Hrev & Hcost).
  cbn zeta in *. fold result in Hq, Hlines, Hrev, Hcost.
  fold item_data in Hq, Hlines. fold total_revenue in Hrev.
  fold total_cost in Hcost. cbn [map app Qsum] in *.
  assert (Hswap : forall (f g : OrderItemRow -> Q) l,
            (forall x, f x == g x) -> Qsum (map f l) == Qsum (map g l)).
  { intros f g l Hfg. induction l as [| x l IH]; cbn [map Qsum];
      [reflexivity |]. rewrite IH, Hfg. reflexivity. }
  split; [exact Hq |]. split; [rewrite Hrev, Hlines; reflexivity |].
  rewrite !py_sum_Qsum. unfold orphans. split.
  - rewrite (Qsum_split (fun item => is_Some (oir_menu_items item))), Hrev.
    rewrite (Hswap _ (fun item =>
               inject_Z (oir_quantity item) * oir_price_at_sale item)
               (filter _ items)) by (intros x; ring).
    ring.
  - rewrite (Qsum_split (fun item => is_Some (oir_menu_items item))), Hcost.
    rewrite (Hswap _ (fun item =>
               inject_Z (oir_quantity item) * oir_cost_at_sale item)
               (filter _ items)) by (intros x; ring).
    ring.
Qed.

(** An order with 3 espressos at 5 and 2 of an item that is no longer on
    the menu at 4: the page shows 15, the reports count 23. *)
Lemma order_totals_leave_out_orphans_witness :
  (order_totals rows_with_orphan [] 0 0).1.2 == 15
  /\ py_sum (map (fun item =>
                    oir_price_at_sale item * inject_Z (oir_quantity item))
                 rows_with_orphan) == 23.
Proof.
  destruct (order_totals_leave_out_orphans rows_with_orphan)
    as (_ & _ & Hrev & _).
  split; [reflexivity |]. rewrite Hrev. reflexivity.
Defined.

(** *** Logging in *)

Lemma serve_once secrets session_state i :
  let logged_in :=
    match session_state with Some b => b | None => false end in
  exists b s,
    serve 1 secrets session_state i = Some (b, s)
    /\ (s = main_app_screen <-> b = true)
    /\ (b = true <->
        (logged_in = true /\ i <> press_logout)
        \/ right_login secrets i).
Proof.
  intros logged_in. unfold serve, control_flow. fold logged_in.
  destruct logged_in.
  - destruct i as [| | username password]; cbn [main_app].
    + exists true, main_app_screen. split; [reflexivity |].
      split; [tauto |]. split; [left; split; [reflexivity | discriminate] |].
      reflexivity.
    + unfold show_login_page.
      destruct (APP_USERNAME secrets), (APP_PASSWORD secrets);
        eexists false, _; (split; [reflexivity |]);
        (split; [split; discriminate |]);
        (split; [discriminate |]); intros [[_ H] | []]; congruence.
    + exists true, main_app_screen. split; [reflexivity |].
      split; [tauto |]. split; [left; split; [reflexivity | discriminate] |].
      reflexivity.
  - unfold show_login_page, right_login.
    destruct (APP_USERNAME secrets) as [app_username |],
             (APP_PASSWORD secrets) as [app_password |];
      try (eexists false, _; (split; [reflexivity |]);
           (split; [split; discriminate |]);
           (split; [discriminate |]);
           intros [[[=] _] | H]; destruct i; destruct H; congruence).
    destruct i as [| | username password];
      try (eexists false, _; (split; [reflexivity |]);
           (split; [split; discriminate |]);
           (split; [discriminate |]);
           intros [[[=] _] | []]).
    destruct (String.eqb_spec username app_username) as [-> | Hu];
      [destruct (String.eqb_spec password app_password) as [-> | Hp] |];
      cbn [andb main_app].
    + exists true, main_app_screen. split; [reflexivity |].
      split; [tauto |]. split; [auto | reflexivity].
    + eexists false, _. split; [reflexivity |].
      split; [split; discriminate |]. split; [discriminate |].
      intros [[[=] _] | [_ [=]]]. congruence.
    + eexists false, _. split; [reflexivity |].
      split; [split; discriminate |]. split; [discriminate |].
      intros [[[=] _] | [[=] _]]. congruence.
Qed.

Lemma browse_sessions secrets interactions :
  forall b s,
    (s = main_app_screen <-> b = true) ->
    exists b' s',
      browse secrets (Some b) s interactions = Some (Some b', s')
      /\ (s' = main_app_screen <-> b' = true)
      /\ (b' = true <->
          (b = true /\ press_logout ∉ interactions)
          \/ logged_in_by secrets interactions).
Proof.
  induction interactions as [| i rest IH]; intros b s Hs.
  - exists b, s. split; [reflexivity |]. split; [exact Hs |]. split.
    + intros ->. left. split; [reflexivity | apply not_elem_of_nil].
    + intros [[H _] | (before & j & after & Heq & _)]; [exact H |].
      destruct before; discriminate.
  - cbn [browse].
    destruct (serve_once secrets (Some b) i) as (b1 & s1 & -> & Hs1 & Hb1).
    destruct (IH b1 s1 Hs1) as (b' & s' & Hrun & Hs' & Hb').
    exists b', s'. split; [exact Hrun |]. split; [exact Hs' |].
    rewrite Hb', Hb1. split.
    + intros [[[[Hb Hi] | Hlogin] Hrest] | (before & j & after & -> & Hj & Ha)].
      * left. split; [exact Hb |]. apply not_elem_of_cons. auto.
      * right. exists [], i, rest. auto.
      * right. exists (i :: before), j, after. auto.
    + intros [[Hb Hnot] | (before & j & after & Heq & Hj & Ha)].
      * apply not_elem_of_cons in Hnot as [Hi Hrest]. left. auto.
      * destruct before as [| i' before]; cbn in Heq; injection Heq as -> ->.
        -- left. auto.
        -- right. exists before, j, after. auto.
Qed.

(** X14.  A session always ends with a screen, and the main application is
    on it exactly when some interaction was a login with the user name and
    the password of the secrets and no logout came after it; with the
    credentials missing from the secrets it is never shown. *)
Theorem main_app_only_after_login
    (secrets : Secrets) (interactions : list interaction) :
  exists session_state s,
    session secrets interactions = Some (session_state, s)
    /\ (s = main_app_screen <->
        exists before i after,
          interactions = before ++ i :: after
          /\ right_login secrets i
          /\ press_logout ∉ after)
    /\ (APP_USERNAME secrets = None \/ APP_PASSWORD secrets = None ->
        s <> main_app_screen).
Proof.
  unfold session.
  destruct (serve_once secrets None nothing) as (b & s & -> & Hs & Hb).
  assert (Hb0 : b = false).
  { destruct b; [| reflexivity].
    destruct (proj1 Hb eq_refl) as [[[=] _] | []]. }
  subst b.
  destruct (browse_sessions secrets interactions false s Hs)
    as (b' & s' & Hrun & Hs' & Hb').
  exists (Some b'), s'. split; [exact Hrun |].
  assert (Hiff : s' = main_app_screen <-> logged_in_by secrets interactions).
  { rewrite Hs', Hb'. split; [| auto]. intros [[[=] _] | H]. exact H. }
  split; [exact Hiff |].
  intros Hmissing Hmain. apply Hiff in Hmain as (_ & i & _ & _ & Hi & _).
  destruct i; cbn in Hi; try contradiction.
  destruct Hi as [Hu Hp], Hmissing; congruence.
Qed.

(** With the right user name and password the main application is shown,
    and stays after an interaction that is not a logout. *)
Lemma main_app_only_after_login_witness :
  exists session_state,
    session cafe_secrets [submit_login "owner" "latte"; nothing]
    = Some (session_state, main_app_screen).
Proof.
  destruct (main_app_only_after_login cafe_secrets
              [submit_login "owner" "latte"; nothing])
    as (session_state & s & Hrun & Hmain & _).
  exists session_state. rewrite Hrun. do 2 f_equal. apply Hmain.
  exists [], (submit_login "owner" "latte"), [nothing].
  split; [reflexivity |]. split; [split; reflexivity |].
  apply not_elem_of_cons. split; [discriminate | apply not_elem_of_nil].
Defined.

End more_pages.

(** ** The back office *)

Section back_office.
Local Open Scope Q_scope.

Lemma back_bind_run {A B} (m : Back A) (k : A -> Back B) o :
  (m ≫= k) o =
    match m o with
    | (Return a, o') => k a o'
    | (Raise e, o') => (Raise e, o')
    end.
Proof. reflexivity. Qed.

(** The handlers that write have one shape: the request, the message,
    [st.rerun()], all under a [try]. *)
Lemma write_handler_run (ep : office_endpoint)
    (request : Tables -> unit * Tables) (done : office_text)
    (failed : exn -> office_text) (o : Office) :
  back_try
    (_ ← back_execute ep tt request; _ ← office_success done; office_rerun)
    (fun e => office_error (failed e)) o
  = (Return tt,
     match reply_at (world o) with
     | Answer =>
         {| world := set_db (request (db (world o))).2 (count_call (world o));
            menu_items := menu_items o;
            office_journal := office_journal o ++ [(ep, Answer)];
            office_page := office_page o ++ [office_success_box done] |}
     | NoRows =>
         {| world := count_call (world o);
            menu_items := menu_items o;
            office_journal := office_journal o ++ [(ep, NoRows)];
            office_page := office_page o ++ [office_success_box done] |}
     | Throws =>
         {| world := count_call (world o);
            menu_items := menu_items o;
            office_journal := office_journal o ++ [(ep, Throws)];
            office_page :=
              office_page o ++ [office_error_box (failed StoreError)] |}
     end).
Proof.
  unfold back_try, back_execute, mbind, Back_bind.
  destruct (reply_at (world o)); [destruct (request _) as [[] t] |..];
    reflexivity.
Qed.

Lemma reliable_after_write t w :
  reliable w = true -> reliable (set_db t (count_call w)) = true.
Proof.
  apply reliable_follows. unfold follows. cbn. auto.
Qed.

Lemma truthy_iff s : truthy s = true <-> s <> ""%string.
Proof.
  unfold truthy. destruct (String.eqb_spec s ""); cbn; split; congruence.
Qed.

(** *** Restocking *)

(** The button of the selected row, when the store answers. *)
Lemma restock_answered item_id item_to_restock amount_to_add o :
  reply_at (world o) = Answer ->
  let new_quantity :=
    match tracking_type item_to_restock with
    | MANUAL => 1
    | UNIT | MULTI_USE => current_quantity item_to_restock + amount_to_add
    end in
  let o' :=
    (render_stock_management_restock item_id item_to_restock amount_to_add
       o).2 in
  db (world o') =
    (update_current_quantity item_id new_quantity (db (world o))).2
  /\ menu_items o' = menu_items o
  /\ office_journal o' = office_journal o ++ [(stock_items_update, Answer)]
  /\ office_page o' =
       office_page o
       ++ [office_success_box
             match tracking_type item_to_restock with
             | MANUAL => marked_as_restocked (si_name item_to_restock)
             | UNIT | MULTI_USE =>
                 restocked (si_name item_to_restock) new_quantity
             end].
Proof.
  intros Hr. unfold render_stock_management_restock.
  destruct (tracking_type item_to_restock);
    rewrite write_handler_run, Hr; repeat split.
Qed.

(** X15.  The press of a restock button reruns the page, which fetches the
    stock before it comes to the button: against a store that answers, the
    handler adds the amount to the quantity the selected item has in the
    store at that moment (or writes 1 for a MANUAL item), so a sale
    recorded before the press stays taken off.  The rest of the row, the
    other stock items and the other tables are as they were, and two
    requests have been sent: the fetch and the update. *)
Theorem restock_adds_to_the_quantity_in_store
    (selectbox : list (Z * StockItem) -> option (Z * StockItem))
    (amount_to_add : Q) (o : Office) (item_id : Z) (in_store : StockItem) :
  reply_at (world o) = Answer ->
  nth (S (calls (world o))) (script (world o)) Answer = Answer ->
  selectbox (select_stock (db (world o))) = Some (item_id, in_store) ->
  (item_id, in_store) ∈ select_stock (db (world o)) ->
  let o' := (render_stock_management_restock_run selectbox amount_to_add o).2
  in
  let new_quantity :=
    match tracking_type in_store with
    | MANUAL => 1
    | UNIT | MULTI_USE => current_quantity in_store + amount_to_add
    end in
  stock_items (db (world o)) !! item_id = Some in_store
  /\ stock_items (db (world o')) !! item_id
     = Some (set_current_quantity new_quantity in_store)
  /\ (forall k, k <> item_id ->
        stock_items (db (world o')) !! k = stock_items (db (world o)) !! k)
  /\ menu_item_recipe (db (world o')) = menu_item_recipe (db (world o))
  /\ order_items (db (world o')) = order_items (db (world o))
  /\ office_journal o' =
       office_journal o
       ++ [(stock_items_select, Answer); (stock_items_update, Answer)].
Proof.
  intros Hr Hr2 Hselected Hin o' new_quantity.
  assert (Hstore : stock_items (db (world o)) !! item_id = Some in_store)
    by (apply elem_of_map_to_list, Hin).
  set (o1 := {| world := count_call (world o);
                menu_items := menu_items o;
                office_journal :=
                  office_journal o ++ [(stock_items_select, Answer)];
                office_page := office_page o |}).
  assert (Hrun : o' =
            (render_stock_management_restock item_id in_store amount_to_add
               o1).2).
  { unfold o', render_stock_management_restock_run.
    rewrite back_bind_run. unfold back_try at 1. rewrite back_bind_run.
    unfold back_execute. rewrite Hr. cbn [fst snd mret Back_ret].
    change (set_world (set_db (db (world o))
                         (world (record_office_call stock_items_select
                                   Answer o)))
              (record_office_call stock_items_select Answer o))
      with (set_world (set_db (db (world o)) (count_call (world o))) o1).
    assert (Ho1 : set_world (set_db (db (world o)) (count_call (world o))) o1
                  = o1) by (destruct o as [[]]; reflexivity).
    rewrite Ho1, Hselected.
    destruct (select_stock (db (world o))) as [| row rows];
      [inversion Hin | reflexivity]. }
  destruct (restock_answered item_id in_store amount_to_add o1 Hr2)
    as (Hdb & _ & Hj & _).
  rewrite <- Hrun in Hdb, Hj. fold new_quantity in Hdb.
  split; [exact Hstore |]. rewrite Hdb, Hj.
  cbn [o1 world db count_call update_current_quantity snd set_stock_items
       stock_items menu_item_recipe order_items office_journal].
  split; [rewrite lookup_alter_eq, Hstore; reflexivity |].
  split; [intros k Hk; apply lookup_alter_ne; congruence |].
  rewrite <- app_assoc. auto.
Qed.

(** The store holds 94 g of beans after three espressos; restocking 10 g
    then gives 104 g. *)
Lemma restock_adds_to_the_quantity_in_store_witness :
  exists restocked_beans,
    stock_items
      (db (world (render_stock_management_restock_run beans_selected 10
                    (office_of cafe_sold)).2)) !! 10%Z
    = Some restocked_beans
    /\ current_quantity restocked_beans == 104.
Proof.
  destruct (restock_adds_to_the_quantity_in_store beans_selected 10
              (office_of cafe_sold) 10 beans_left)
    as (_ & Hitem & _).
  - reflexivity.
  - reflexivity.
  - vm_compute. reflexivity.
  - apply elem_of_map_to_list. vm_compute. reflexivity.
  - eexists. split; [exact Hitem |]. reflexivity.
Defined.

(** *** Expenses and salaries in the monthly report *)

Lemma py_sum_snoc (xs : list Q) (x : Q) : py_sum (xs ++ [x]) == py_sum xs + x.
Proof.
  rewrite !py_sum_Qsum. induction xs as [| y xs IH]; cbn [app Qsum]; [ring |].
  rewrite IH. ring.
Qed.

(** X16.  An expense added with a description and an amount above 0 is
    stored under the very date that was picked.  Against a store that
    answers, the monthly report of a month counts it, and lowers the net
    profit by its amount, exactly when that date is the first day of the
    month; an expense dated on any other day is in no monthly report. *)
Theorem expense_counts_only_on_the_first
    (picked_month : date) (descr : string) (amt : Q)
    (selected_month_date : date) (o : Office) :
  reliable (world o) = true ->
  descr <> ""%string ->
  0 < amt ->
  valid_date selected_month_date = true ->
  (year selected_month_date <> MAXYEAR \/ month selected_month_date <> 12%Z) ->
  let o' := (render_staff_add_expense picked_month descr amt o).2 in
  let counted :=
    if bool_decide
         (picked_month
          = Date (year selected_month_date) (month selected_month_date) 1)
    then amt else 0 in
  monthly_expenses (db (world o')) =
    monthly_expenses (db (world o))
    ++ [{| me_month := picked_month; description := descr; amount := amt |}]
  /\ exists before w2 after w3,
       render_reports_monthly selected_month_date (world o)
         = (Return (Some before), w2)
       /\ render_reports_monthly selected_month_date (world o')
          = (Return (Some after), w3)
       /\ total_revenue after = total_revenue before
       /\ total_salaries after = total_salaries before
       /\ total_expenses after == total_expenses before + counted
       /\ net_profit after == net_profit before - counted
       /\ (day picked_month <> 1%Z -> counted = 0).
Proof.
  intros Hw Hd Ha Hv Hn o' counted.
  assert (Hrun : o' =
            {| world :=
                 set_db (insert_expense picked_month descr amt
                           (db (world o))).2 (count_call (world o));
               menu_items := menu_items o;
               office_journal :=
                 office_journal o ++ [(monthly_expenses_insert, Answer)];
               office_page :=
                 office_page o
                 ++ [office_success_box (added_expense descr)] |}).
  { unfold o', render_staff_add_expense.
    rewrite (proj2 (truthy_iff descr) Hd).
    rewrite (proj2 (Qlt_bool_iff 0 amt) Ha). cbn [andb].
    rewrite write_handler_run, (reliable_reply _ Hw). reflexivity. }
  rewrite Hrun. cbn [world]. split; [reflexivity |].
  destruct (render_reports_monthly_run selected_month_date (world o) Hv Hn Hw)
    as (w2 & Hbefore & _).
  destruct (render_reports_monthly_run selected_month_date _ Hv Hn
              (reliable_after_write
                 (insert_expense picked_month descr amt (db (world o))).2
                 (world o) Hw))
    as (w3 & Hafter & _).
  eexists _, w2, _, w3. split; [exact Hbefore |]. split; [exact Hafter |].
  cbn [total_revenue total_salaries total_expenses net_profit].
  split; [reflexivity |]. split; [reflexivity |].
  assert (Hexp :
    py_sum (select_expenses
              (Date (year selected_month_date)
                 (month selected_month_date) 1)
              (db (set_db (insert_expense picked_month descr amt
                             (db (world o))).2 (count_call (world o)))))
    == py_sum (select_expenses
                 (Date (year selected_month_date)
                    (month selected_month_date) 1)
                 (db (world o)))
       + counted).
  { unfold select_expenses, counted.
    cbn [db set_db insert_expense snd set_monthly_expenses monthly_expenses].
    rewrite filter_app, map_app, filter_cons, filter_nil.
    cbn [me_month]. case_bool_decide as Hk.
    - rewrite decide_True by (apply date_eqb_eq; exact Hk).
      cbn [map amount]. apply py_sum_snoc.
    - rewrite decide_False by (rewrite date_eqb_eq; exact Hk).
      cbn [map]. rewrite app_nil_r. ring. }
  split; [exact Hexp |]. split.
  - rewrite Hexp.
    change (select_salaries (db (set_db _ (count_call (world o)))))
      with (select_salaries (db (world o))).
    change (select_sales ?a ?b (db (set_db _ (count_call (world o)))))
      with (select_sales a b (db (world o))).
    ring.
  - intros Hday. unfold counted. case_bool_decide as Hk; [| reflexivity].
    rewrite Hk in Hday. cbn in Hday. congruence.
Qed.

(** A repair of 50 entered in February 2024 under the 15th does not show in
    the report of February; entered under the 1st it does. *)
Lemma expense_counts_only_on_the_first_witness :
  (exists before w2 after w3,
     render_reports_monthly (Date 2024 2 29) february_books
       = (Return (Some before), w2)
     /\ render_reports_monthly (Date 2024 2 29)
          (world (render_staff_add_expense (Date 2024 2 15) "Repair" 50
                    (office_of february_books)).2)
        = (Return (Some after), w3)
     /\ net_profit after == net_profit before)
  /\ (exists before w2 after w3,
        render_reports_monthly (Date 2024 2 29) february_books
          = (Return (Some before), w2)
        /\ render_reports_monthly (Date 2024 2 29)
             (world (render_staff_add_expense (Date 2024 2 1) "Repair" 50
                       (office_of february_books)).2)
           = (Return (Some after), w3)
        /\ net_profit after == net_profit before - 50).
Proof.
  assert (Hn : year (Date 2024 2 29) <> MAXYEAR
               \/ month (Date 2024 2 29) <> 12%Z)
    by (left; unfold MAXYEAR; cbn; lia).
  split.
  - destruct (expense_counts_only_on_the_first (Date 2024 2 15) "Repair" 50
                (Date 2024 2 29) (office_of february_books)
                eq_refl ltac:(discriminate) eq_refl eq_refl Hn)
      as (_ & before & w2 & after & w3 & H1 & H2 & _ & _ & _ & Hnet & _).
    exists before, w2, after, w3. split; [exact H1 |]. split; [exact H2 |].
    rewrite Hnet, bool_decide_eq_false_2 by discriminate. ring.
  - destruct (expense_counts_only_on_the_first (Date 2024 2 1) "Repair" 50
                (Date 2024 2 29) (office_of february_books)
                eq_refl ltac:(discriminate) eq_refl eq_refl Hn)
      as (_ & before & w2 & after & w3 & H1 & H2 & _ & _ & _ & Hnet & _).
    exists before, w2, after, w3. split; [exact H1 |]. split; [exact H2 |].
    rewrite Hnet, bool_decide_eq_true_2 by reflexivity. reflexivity.
Defined.

(** X17.  A worker added with a name and a salary of 0 or more is, against
    a store that answers, counted with that salary in the monthly report of
    every month, whatever the role, the months before the worker was added
    included: the salaries rise and the net profit falls by the salary. *)
Theorem new_salary_counts_in_every_month
    (new_id : Z) (name : string) (new_role : worker_role) (pay : Q)
    (selected_month_date : date) (o : Office) :
  reliable (world o) = true ->
  name <> ""%string ->
  0 <= pay ->
  valid_date selected_month_date = true ->
  (year selected_month_date <> MAXYEAR \/ month selected_month_date <> 12%Z) ->
  let o' := (render_staff_add_worker new_id name new_role pay o).2 in
  workers (db (world o')) =
    workers (db (world o))
    ++ [{| w_id := new_id; w_name := name; role := new_role; salary := pay |}]
  /\ exists before w2 after w3,
       render_reports_monthly selected_month_date (world o)
         = (Return (Some before), w2)
       /\ render_reports_monthly selected_month_date (world o')
          = (Return (Some after), w3)
       /\ total_revenue after = total_revenue before
       /\ total_expenses after = total_expenses before
       /\ total_salaries after == total_salaries before + pay
       /\ net_profit after == net_profit before - pay.
Proof.
  intros Hw Hname Hpay Hv Hn o'.
  assert (Hrun : o' =
            {| world :=
                 set_db (insert_worker new_id name new_role pay
                           (db (world o))).2 (count_call (world o));
               menu_items := menu_items o;
               office_journal :=
                 office_journal o ++ [(workers_insert, Answer)];
               office_page :=
                 office_page o ++ [office_success_box (added_worker name)] |}).
  { unfold o', render_staff_add_worker.
    rewrite (proj2 (truthy_iff name) Hname).
    rewrite (proj2 (Qle_bool_iff 0 pay) Hpay). cbn [andb].
    rewrite write_handler_run, (reliable_reply _ Hw). reflexivity. }
  rewrite Hrun. cbn [world]. split; [reflexivity |].
  destruct (render_reports_monthly_run selected_month_date (world o) Hv Hn Hw)
    as (w2 & Hbefore & _).
  destruct (render_reports_monthly_run selected_month_date _ Hv Hn
              (reliable_after_write
                 (insert_worker new_id name new_role pay (db (world o))).2
                 (world o) Hw))
    as (w3 & Hafter & _).
  eexists _, w2, _, w3. split; [exact Hbefore |]. split; [exact Hafter |].
  cbn [total_revenue total_salaries total_expenses net_profit].
  split; [reflexivity |]. split; [reflexivity |].
  assert (Hsal :
    py_sum (select_salaries
              (db (set_db (insert_worker new_id name new_role pay
                             (db (world o))).2 (count_call (world o)))))
    == py_sum (select_salaries (db (world o))) + pay).
  { unfold select_salaries.
    cbn [db set_db insert_worker snd set_workers workers].
    rewrite map_app. cbn [map salary]. apply py_sum_snoc. }
  split; [exact Hsal |].
  rewrite Hsal.
  change (select_expenses ?k (db (set_db _ (count_call (world o)))))
    with (select_expenses k (db (world o))).
  change (select_sales ?a ?b (db (set_db _ (count_call (world o)))))
    with (select_sales a b (db (world o))).
  ring.
Qed.

(** Carol, hired in March at 900, lowers the net profit of the report of
    February by 900. *)
Lemma new_salary_counts_in_every_month_witness :
  exists before w2 after w3,
    render_reports_monthly (Date 2024 2 29) february_books
      = (Return (Some before), w2)
    /\ render_reports_monthly (Date 2024 2 29)
         (world (render_staff_add_worker 3 "Carol" Barista 900
                   (office_of february_books)).2)
       = (Return (Some after), w3)
    /\ net_profit after == net_profit before - 900.
Proof.
  assert (Hn : year (Date 2024 2 29) <> MAXYEAR
               \/ month (Date 2024 2 29) <> 12%Z)
    by (left; unfold MAXYEAR; cbn; lia).
  destruct (new_salary_counts_in_every_month 3 "Carol" Barista 900
              (Date 2024 2 29) (office_of february_books)
              eq_refl ltac:(discriminate) ltac:(discriminate) eq_refl Hn)
    as (_ & before & w2 & after & w3 & H1 & H2 & _ & _ & _ & Hnet).
  exists before, w2, after, w3. split; [exact H1 |]. split; [exact H2 |].
  exact Hnet.
Defined.

(** *** Ingredients *)

Lemma computed_cost_loop id t :
  computed_cost id t = add_ingredient_costs (select_recipe_costs id t) 0.
Proof.
  unfold computed_cost. destruct (select_recipe_costs id t); reflexivity.
Qed.

Lemma filter_keeps_all {A} (P : A -> Prop) `{!forall x, Decision (P x)}
    (l : list A) :
  (forall x, x ∈ l -> P x) -> filter P l = l.
Proof.
  induction l as [| x l IH]; intros Hall; [reflexivity |].
  rewrite filter_cons_True by (apply Hall; left).
  rewrite IH; [reflexivity |]. intros y Hy. apply Hall. right. exact Hy.
Qed.

(** X18.  An ingredient added to a recipe with a quantity above 0 raises the
    cost the calculator computes for the menu item, when it holds no
    memoised cost for it, by that quantity times the cost per unit of the
    stock item as it is in the store, and by nothing when the store has no
    such stock item.  Removing the new link with its "Remove" button then
    gives back the tables as they were, provided the store gave the link a
    key that no other link has. *)
Theorem added_ingredient_raises_the_cost
    (new_id : Z) (stock_data : list (Z * StockItem)) (menu_item : MenuItem)
    (stock_item : Z * StockItem) (used : Q) (o : Office) :
  reliable (world o) = true ->
  0 < used ->
  fresh_entry (world o) (mi_id menu_item) = None ->
  let o' :=
    (render_menu_management_add_ingredient new_id stock_data menu_item
       stock_item used o).2 in
  let added :=
    match stock_items (db (world o)) !! stock_item.1 with
    | Some in_store => used * cost_per_unit in_store
    | None => 0
    end in
  exists cost_before w1 cost_after w2,
    calculate_menu_item_cost (mi_id menu_item) (world o)
      = (Return cost_before, w1)
    /\ calculate_menu_item_cost (mi_id menu_item) (world o')
       = (Return cost_after, w2)
    /\ cost_after == cost_before + added
    /\ ((forall link, link ∈ menu_item_recipe (db (world o)) ->
                      rl_id link <> new_id) ->
        db (render_menu_management_remove new_id (world o')).2
        = db (world o)).
Proof.
  intros Hw Hused Hmemo o' added.
  set (t' := (insert_recipe_link new_id (mi_id menu_item) stock_item.1 used
                (db (world o))).2).
  assert (Hrun : world o' = set_db t' (count_call (world o))).
  { unfold o', render_menu_management_add_ingredient.
    rewrite (proj2 (Qlt_bool_iff 0 used) Hused).
    rewrite write_handler_run, (reliable_reply _ Hw). reflexivity. }
  rewrite Hrun.
  pose proof (reliable_after_write t' (world o) Hw) as Hw'.
  destruct (calculate_miss_answered (mi_id menu_item) (world o) Hmemo
              (reliable_reply _ Hw)) as (w1 & Hbefore & _).
  destruct (calculate_miss_answered (mi_id menu_item)
              (set_db t' (count_call (world o))) Hmemo
              (reliable_reply _ Hw')) as (w2 & Hafter & _).
  eexists _, w1, _, w2. split; [exact Hbefore |]. split; [exact Hafter |].
  split.
  - rewrite !computed_cost_loop. unfold select_recipe_costs, recipe_of.
    cbn [db set_db]. unfold t'.
    cbn [insert_recipe_link snd set_menu_item_recipe menu_item_recipe
         stock_items].
    rewrite filter_app, filter_cons_True, filter_nil by reflexivity.
    rewrite map_app, add_ingredient_costs_app.
    cbn [map add_ingredient_costs rc_stock_items rc_quantity_used
         rl_stock_item_id quantity_used].
    unfold added.
    destruct (stock_items (db (world o)) !! stock_item.1) as [in_store |];
      cbn [fmap option_fmap option_map]; [reflexivity | ring].
  - intros Hfresh. unfold render_menu_management_remove, try_except.
    rewrite bind_run, execute_answered by (apply reliable_reply; exact Hw').
    cbn [fst snd st_rerun]. unfold st_rerun, mret, M_ret.
    cbn [snd db set_db record_call delete_recipe_link]. unfold t'.
    cbn [insert_recipe_link snd].
    destruct (db (world o)) as [stock recipe staff os ois expenses next].
    unfold set_menu_item_recipe. cbn [menu_item_recipe stock_items workers
      orders order_items monthly_expenses next_order_id] in *.
    f_equal. rewrite filter_app, filter_cons_False, filter_nil, app_nil_r
      by (cbn; tauto).
    apply filter_keeps_all. exact Hfresh.
Qed.

(** A third ingredient of the espresso, 5 g of the beans at 3/100 a gram,
    raises its cost from 6/100 to 21/100. *)
Lemma added_ingredient_raises_the_cost_witness :
  exists cost_before w1 cost_after w2,
    calculate_menu_item_cost 1 cafe = (Return cost_before, w1)
    /\ calculate_menu_item_cost 1
         (world (render_menu_management_add_ingredient 3 [(10%Z, beans)]
                   espresso
                   (10%Z, beans) 5 (office_of cafe)).2)
       = (Return cost_after, w2)
    /\ cost_before == 6 # 100
    /\ cost_after == 21 # 100.
Proof.
  destruct (added_ingredient_raises_the_cost 3 [(10%Z, beans)]
              espresso
              (10%Z, beans) 5 (office_of cafe) eq_refl eq_refl eq_refl)
    as (cost_before & w1 & cost_after & w2 & H1 & H2 & Hcost & _).
  exists cost_before, w1, cost_after, w2.
  split; [exact H1 |]. split; [exact H2 |].
  assert (Hb : cost_before == 6 # 100).
  { vm_compute in H1. injection H1 as <- _. reflexivity. }
  split; [exact Hb |]. rewrite Hcost, Hb. reflexivity.
Defined.

(** *** What the forms refuse, and what a failing store leaves *)

(** X19.  The forms of the back office drop an entry they do not accept
    without a request and without a message: an expense with no description
    or an amount of 0 or less, a worker with no name or a salary below 0, an
    ingredient with a quantity of 0 or less. *)
Theorem back_office_forms_refuse_silently :
  (forall picked_month descr amt o,
     descr = ""%string \/ amt <= 0 ->
     render_staff_add_expense picked_month descr amt o = (Return tt, o))
  /\ (forall new_id name new_role pay o,
        name = ""%string \/ pay < 0 ->
        render_staff_add_worker new_id name new_role pay o = (Return tt, o))
  /\ (forall new_id stock_data menu_item stock_item used o,
        used <= 0 ->
        render_menu_management_add_ingredient new_id stock_data menu_item
          stock_item used o = (Return tt, o)).
Proof.
  split; [| split].
  - intros picked_month descr amt o Hno. unfold render_staff_add_expense.
    destruct Hno as [-> | Hamt]; [reflexivity |].
    destruct (Qlt_bool 0 amt) eqn:E.
    + apply Qlt_bool_iff in E. exfalso. apply (Qlt_not_le _ _ E Hamt).
    + rewrite andb_false_r. reflexivity.
  - intros new_id name new_role pay o Hno. unfold render_staff_add_worker.
    destruct Hno as [-> | Hpay]; [reflexivity |].
    destruct (Qle_bool 0 pay) eqn:E.
    + apply Qle_bool_iff in E. exfalso. apply (Qlt_not_le _ _ Hpay E).
    + rewrite andb_false_r. reflexivity.
  - intros new_id stock_data menu_item stock_item used o Hno.
    unfold render_menu_management_add_ingredient.
    destruct (Qlt_bool 0 used) eqn:E; [| reflexivity].
    apply Qlt_bool_iff in E. exfalso. apply (Qlt_not_le _ _ E Hno).
Qed.

Lemma back_office_forms_refuse_silently_witness :
  render_staff_add_expense (Date 2024 2 1) "" 50 (office_of february_books)
  = (Return tt, office_of february_books)
  /\ render_staff_add_worker 3 "" Barista 900 (office_of february_books)
     = (Return tt, office_of february_books)
  /\ render_menu_management_add_ingredient 3 [(10%Z, beans)]
       espresso
       (10%Z, beans) 0 (office_of cafe)
     = (Return tt, office_of cafe).
Proof.
  destruct back_office_forms_refuse_silently as (Hexpense & Hworker & Hlink).
  split; [apply Hexpense; left; reflexivity |].
  split; [apply Hworker; left; reflexivity |].
  apply Hlink. discriminate.
Defined.

(** X20.  When the store raises at the request of a back office handler,
    the handler returns, the tables are as they were, one request has been
    sent and the page shows the error of that handler.  And restocking an
    item that is no longer in the store, which the store answers without
    updating any row, leaves the tables as they were and reports success. *)
Theorem back_office_on_a_failing_store :
  (forall picked_month descr amt o,
     descr <> ""%string -> 0 < amt -> reply_at (world o) = Throws ->
     render_staff_add_expense picked_month descr amt o
     = (Return tt,
        after_failure monthly_expenses_insert
          (error_adding_expense StoreError) o))
  /\ (forall new_id name new_role pay o,
        name <> ""%string -> 0 <= pay -> reply_at (world o) = Throws ->
        render_staff_add_worker new_id name new_role pay o
        = (Return tt,
           after_failure workers_insert (error_adding_worker StoreError) o))
  /\ (forall new_id stock_data menu_item stock_item used o,
        0 < used -> reply_at (world o) = Throws ->
        render_menu_management_add_ingredient new_id stock_data menu_item
          stock_item used o
        = (Return tt,
           after_failure menu_item_recipe_insert
             (error_adding_to_recipe StoreError) o))
  /\ (forall item_id item_to_restock amount_to_add o,
        reply_at (world o) = Throws ->
        render_stock_management_restock item_id item_to_restock
          amount_to_add o
        = (Return tt,
           after_failure stock_items_update (error_restocking StoreError) o))
  /\ (forall ep t o, db (world (after_failure ep t o)) = db (world o))
  /\ (forall item_id item_to_restock amount_to_add o,
        reply_at (world o) = Answer ->
        stock_items (db (world o)) !! item_id = None ->
        let o' :=
          (render_stock_management_restock item_id item_to_restock
             amount_to_add o).2 in
        db (world o') = db (world o)
        /\ exists t, office_page o' = office_page o ++ [office_success_box t]).
Proof.
  split; [| split; [| split; [| split; [| split]]]].
  - intros picked_month descr amt o Hd Ha Hr. unfold render_staff_add_expense.
    rewrite (proj2 (truthy_iff descr) Hd), (proj2 (Qlt_bool_iff 0 amt) Ha).
    cbn [andb]. rewrite write_handler_run, Hr. reflexivity.
  - intros new_id name new_role pay o Hname Hpay Hr.
    unfold render_staff_add_worker.
    rewrite (proj2 (truthy_iff name) Hname), (proj2 (Qle_bool_iff 0 pay) Hpay).
    cbn [andb]. rewrite write_handler_run, Hr. reflexivity.
  - intros new_id stock_data menu_item stock_item used o Hused Hr.
    unfold render_menu_management_add_ingredient.
    rewrite (proj2 (Qlt_bool_iff 0 used) Hused).
    rewrite write_handler_run, Hr. reflexivity.
  - intros item_id item_to_restock amount_to_add o Hr.
    unfold render_stock_management_restock.
    destruct (tracking_type item_to_restock);
      rewrite write_handler_run, Hr; reflexivity.
  - reflexivity.
  - intros item_id item_to_restock amount_to_add o Hr Hgone o'.
    assert (Hsame : forall q,
              (update_current_quantity item_id q (db (world o))).2
              = db (world o)).
    { intros q. unfold update_current_quantity, set_stock_items. cbn [snd].
      destruct (db (world o)) as [stock recipe staff os ois expenses next].
      cbn [stock_items menu_item_recipe workers orders order_items
           monthly_expenses next_order_id] in *.
      f_equal. apply map_eq. intros k.
      destruct (decide (k = item_id)) as [-> | Hk].
      - rewrite lookup_alter_eq, Hgone. reflexivity.
      - apply lookup_alter_ne. congruence. }
    unfold o', render_stock_management_restock.
    destruct (tracking_type item_to_restock);
      rewrite write_handler_run, Hr; cbn [snd world db set_db office_page];
      rewrite Hsame; (split; [reflexivity | eexists; reflexivity]).
Qed.

Lemma back_office_on_a_failing_store_witness :
  db (world (render_staff_add_worker 3 "Carol" Barista 900
               (office_of (cafe_with [Throws]))).2) = cafe_tables
  /\ db (world (render_stock_management_restock 12 beans 10
                  (office_of cafe)).2) = cafe_tables.
Proof.
  destruct back_office_on_a_failing_store
    as (_ & Hworker & _ & _ & Hdb & Hgone).
  split.
  - rewrite (Hworker 3%Z "Carol"%string Barista 900
               (office_of (cafe_with [Throws])));
      [apply Hdb | discriminate | discriminate | reflexivity].
  - apply (Hgone 12%Z beans 10 (office_of cafe)); reflexivity.
Defined.

End back_office.

(** ** The menu page *)

Section menu_page.
Local Open Scope Q_scope.

(** What a request of the back office does to the menu and to the tables,
    whatever the reply. *)
Lemma back_execute_any {A} ep (no_rows : A) request o :
  let run := back_execute ep no_rows request o in
  menu_items run.2 = menu_items o
  /\ office_journal run.2 = office_journal o ++ [(ep, reply_at (world o))]
  /\ office_page run.2 = office_page o
  /\ match reply_at (world o) with
     | Answer =>
         run.1 = Return (request (db (world o))).1
         /\ world run.2
            = set_db (request (db (world o))).2 (count_call (world o))
     | NoRows => run.1 = Return no_rows /\ world run.2 = count_call (world o)
     | Throws =>
         run.1 = Raise StoreError /\ world run.2 = count_call (world o)
     end.
Proof.
  unfold back_execute.
  destruct (reply_at (world o)); [destruct (request _) |..]; cbn; auto.
Qed.

Lemma menu_execute_any {A} ep (no_rows : A) request o :
  let run := menu_execute ep no_rows request o in
  world run.2 = count_call (world o)
  /\ office_journal run.2 = office_journal o ++ [(ep, reply_at (world o))]
  /\ office_page run.2 = office_page o
  /\ match reply_at (world o) with
     | Answer =>
         run.1 = Return (request (menu_items o)).1
         /\ menu_items run.2 = (request (menu_items o)).2
     | NoRows => run.1 = Return no_rows /\ menu_items run.2 = menu_items o
     | Throws => run.1 = Raise StoreError /\ menu_items run.2 = menu_items o
     end.
Proof.
  unfold menu_execute.
  destruct (reply_at (world o)); [destruct (request _) |..]; cbn; auto.
Qed.

(** The two requests of the button "Delete This Menu Item", reply by
    reply. *)
Lemma delete_item_run item o :
  let o' := (render_menu_management_delete_item item o).2 in
  let first := reply_at (world o) in
  let second := nth (S (calls (world o))) (script (world o)) Answer in
  (render_menu_management_delete_item item o).1 = Return tt
  /\ match first with
     | Throws =>
         db (world o') = db (world o)
         /\ menu_items o' = menu_items o
         /\ office_journal o' =
              office_journal o ++ [(menu_item_recipe_delete, Throws)]
         /\ office_page o' =
              office_page o
              ++ [office_error_box (error_deleting_menu_item StoreError)]
     | _ =>
         db (world o') =
           match first with
           | Answer => (delete_recipe_of (mi_id item) (db (world o))).2
           | _ => db (world o)
           end
         /\ menu_items o' =
              match second with
              | Answer => (delete_menu_item (mi_id item) (menu_items o)).2
              | _ => menu_items o
              end
         /\ office_journal o' =
              office_journal o
              ++ [(menu_item_recipe_delete, first);
                  (menu_items_delete, second)]
         /\ office_page o' =
              office_page o
              ++ [match second with
                  | Throws =>
                      office_error_box (error_deleting_menu_item StoreError)
                  | _ => office_success_box (deleted_menu_item (mi_name item))
                  end]
     end.
Proof.
  unfold render_menu_management_delete_item, back_try.
  rewrite back_bind_run.
  pose proof (back_execute_any menu_item_recipe_delete tt
                (delete_recipe_of (mi_id item)) o) as H1.
  cbn zeta in H1.
  destruct (back_execute menu_item_recipe_delete tt
              (delete_recipe_of (mi_id item)) o) as [r1 o1].
  cbn [fst snd] in H1. destruct H1 as (Hm1 & Hj1 & Hp1 & H1).
  cbn zeta.
  destruct (reply_at (world o)) eqn:Hfirst.
  - destruct H1 as [-> Hw1]. rewrite back_bind_run.
    pose proof (menu_execute_any menu_items_delete tt
                  (delete_menu_item (mi_id item)) o1) as H2.
    cbn zeta in H2.
    destruct (menu_execute menu_items_delete tt
                (delete_menu_item (mi_id item)) o1) as [r2 o2].
    cbn [fst snd] in H2. destruct H2 as (Hw2 & Hj2 & Hp2 & H2).
    replace (reply_at (world o1))
      with (nth (S (calls (world o))) (script (world o)) Answer) in *
      by (rewrite Hw1; reflexivity).
    destruct (nth (S (calls (world o))) (script (world o)) Answer);
      destruct H2 as [-> Hm2]; cbn [fst snd office_error office_show
        office_success office_rerun world menu_items office_journal
        office_page];
      rewrite ?back_bind_run; cbn [fst snd office_error office_show
        office_success office_rerun world menu_items office_journal
        office_page mret Back_ret];
      rewrite Hw2, Hw1, Hm2, ?Hm1, Hj2, Hj1, Hp2, Hp1, <- app_assoc;
      auto.
  - destruct H1 as [-> Hw1].
    cbn [fst snd office_error office_show world menu_items office_journal
         office_page].
    rewrite Hw1, Hm1, Hj1, Hp1. auto.
  - destruct H1 as [-> Hw1]. rewrite back_bind_run.
    pose proof (menu_execute_any menu_items_delete tt
                  (delete_menu_item (mi_id item)) o1) as H2.
    cbn zeta in H2.
    destruct (menu_execute menu_items_delete tt
                (delete_menu_item (mi_id item)) o1) as [r2 o2].
    cbn [fst snd] in H2. destruct H2 as (Hw2 & Hj2 & Hp2 & H2).
    replace (reply_at (world o1))
      with (nth (S (calls (world o))) (script (world o)) Answer) in *
      by (rewrite Hw1; reflexivity).
    destruct (nth (S (calls (world o))) (script (world o)) Answer);
      destruct H2 as [-> Hm2]; cbn [fst snd office_error office_show
        office_success office_rerun world menu_items office_journal
        office_page];
      rewrite ?back_bind_run; cbn [fst snd office_error office_show
        office_success office_rerun world menu_items office_journal
        office_page mret Back_ret];
      rewrite Hw2, Hw1, Hm2, ?Hm1, Hj2, Hj1, Hp2, Hp1, <- app_assoc;
      auto.
Qed.

Lemma add_item_menu new_id name sale_price o :
  menu_items (render_menu_management_add_item new_id name sale_price o).2
  = menu_items o
  \/ (menu_items (render_menu_management_add_item new_id name sale_price o).2
      = menu_items o
        ++ [{| mi_id := new_id; mi_name := name;
               mi_sale_price := sale_price |}]
      /\ name <> ""%string /\ 0 < sale_price).
Proof.
  unfold render_menu_management_add_item.
  destruct (truthy name) eqn:Hname; [| left; reflexivity].
  destruct (Qlt_bool 0 sale_price) eqn:Hprice; [| left; reflexivity].
  apply truthy_iff in Hname. apply Qlt_bool_iff in Hprice.
  cbn [andb]. unfold back_try. rewrite back_bind_run.
  pose proof (menu_execute_any menu_items_insert tt
                (insert_menu_item new_id name sale_price) o) as H.
  cbn zeta in H.
  destruct (menu_execute menu_items_insert tt
              (insert_menu_item new_id name sale_price) o) as [r o1].
  cbn [fst snd] in H. destruct H as (_ & _ & _ & H).
  destruct (reply_at (world o)); destruct H as [-> Hm];
    cbn [fst snd office_error office_show menu_items];
    rewrite ?back_bind_run;
    cbn [fst snd office_success office_show office_rerun menu_items mret
         Back_ret];
    rewrite Hm; auto.
Qed.

(** X21.  Whatever is done on the menu page, in any order and whatever the
    store replies, every item of the menu that was not there before has a
    name and a price above 0: a menu whose prices are all above 0 keeps
    that property, which is what the sales form needs to tell a recorded
    batch from a failed one. *)
Theorem menu_prices_stay_positive
    (actions : list menu_action) (o : Office) :
  (forall item, item ∈ menu_items o -> 0 < mi_sale_price item) ->
  forall item,
    item ∈ menu_items (after_actions actions o) ->
    0 < mi_sale_price item
    /\ (item ∈ menu_items o \/ mi_name item <> ""%string).
Proof.
  revert o. induction actions as [| a actions IH]; intros o Hmenu item Hin.
  - split; [apply Hmenu, Hin | left; exact Hin].
  - cbn [after_actions fold_left] in Hin.
    fold (after_actions actions (menu_handler a o).2) in Hin.
    assert (Hstep : forall i, i ∈ menu_items (menu_handler a o).2 ->
              0 < mi_sale_price i
              /\ (i ∈ menu_items o \/ mi_name i <> ""%string)).
    { intros i Hi. destruct a as [new_id name sale_price | deleted].
      - cbn [menu_handler] in Hi.
        destruct (add_item_menu new_id name sale_price o)
          as [Hsame | (Hmore & Hname & Hprice)].
        + rewrite Hsame in Hi. split; [apply Hmenu, Hi | left; exact Hi].
        + rewrite Hmore in Hi. apply elem_of_app in Hi as [Hi | Hi].
          * split; [apply Hmenu, Hi | left; exact Hi].
          * apply list_elem_of_singleton in Hi. subst i. cbn. auto.
      - cbn [menu_handler] in Hi.
        destruct (delete_item_run deleted o) as (_ & Hrun).
        cbn zeta in Hrun.
        assert (Hsub : i ∈ menu_items o).
        { destruct (reply_at (world o));
            destruct Hrun as (_ & Hm & _); rewrite Hm in Hi;
            try exact Hi;
            destruct (nth (S (calls (world o))) (script (world o)) Answer);
            try exact Hi;
            cbn [delete_menu_item snd] in Hi;
            apply list_elem_of_filter in Hi; apply Hi. }
        split; [apply Hmenu, Hsub | left; exact Hsub]. }
    destruct (IH (menu_handler a o).2 (fun i Hi => proj1 (Hstep i Hi))
                item Hin) as [Hprice [Hold | Hname]].
    + split; [exact Hprice |]. apply Hstep, Hold.
    + auto.
Qed.

Lemma menu_prices_stay_positive_witness :
  Forall (fun item => 0 < mi_sale_price item)
    (menu_items
       (after_actions
          [add_item 3 "Tea" 4; add_item 4 "" 2; add_item 5 "Air" 0;
           delete_item water]
          (office_with cafe_menu cafe))).
Proof.
  apply List.Forall_forall. intros item Hin. apply list_elem_of_In in Hin.
  apply (menu_prices_stay_positive _ (office_with cafe_menu cafe)) in Hin.
  - apply Hin.
  - intros i Hi. cbn in Hi.
    repeat (apply elem_of_cons in Hi as [-> | Hi]; [reflexivity |]).
    inversion Hi.
Defined.

(** X22.  Deleting a menu item is two requests, and the first is not taken
    back when the second fails: once the store has deleted the recipe links
    of the item and then raises at the delete of the item itself, the item
    is still on the menu, its recipe is empty, the other recipes are as they
    were, the page shows the error, and the cost calculator, asked afresh,
    returns 0 for the item.  When both requests are answered the item is
    gone from the menu as well. *)
Theorem menu_item_delete_is_not_atomic (item : MenuItem) (o : Office) :
  reply_at (world o) = Answer ->
  let o' := (render_menu_management_delete_item item o).2 in
  let second := nth (S (calls (world o))) (script (world o)) Answer in
  recipe_of (mi_id item) (db (world o')) = []
  /\ (forall other, other <> mi_id item ->
        recipe_of other (db (world o')) = recipe_of other (db (world o)))
  /\ (second = Throws ->
      menu_items o' = menu_items o
      /\ office_page o' =
           office_page o
           ++ [office_error_box (error_deleting_menu_item StoreError)]
      /\ (fresh_entry (world o') (mi_id item) = None ->
          reply_at (world o') = Answer ->
          (calculate_menu_item_cost (mi_id item) (world o')).1 = Return 0))
  /\ (second = Answer ->
      menu_items o' =
        filter (fun listed => mi_id listed <> mi_id item) (menu_items o)
      /\ office_page o' =
           office_page o
           ++ [office_success_box (deleted_menu_item (mi_name item))]).
Proof.
  intros Hr o' second.
  destruct (delete_item_run item o) as (_ & Hrun). cbn zeta in Hrun.
  rewrite Hr in Hrun. fold o' second in Hrun.
  destruct Hrun as (Hdb & Hmenu & _ & Hpage).
  assert (Hgone : recipe_of (mi_id item) (db (world o')) = []).
  { rewrite Hdb. unfold recipe_of.
    cbn [delete_recipe_of snd set_menu_item_recipe menu_item_recipe].
    induction (menu_item_recipe (db (world o))) as [| l ls IH];
      [reflexivity |].
    rewrite filter_cons.
    destruct (decide (rl_menu_item_id l <> mi_id item)) as [Hne | Heq];
      [| exact IH].
    rewrite filter_cons_False by exact Hne. exact IH. }
  split; [exact Hgone |]. split; [| split].
  - intros other Hother. rewrite Hdb. unfold recipe_of.
    cbn [delete_recipe_of snd set_menu_item_recipe menu_item_recipe].
    induction (menu_item_recipe (db (world o))) as [| l ls IH];
      [reflexivity |].
    rewrite !filter_cons.
    destruct (decide (rl_menu_item_id l <> mi_id item)) as [Hne | Heq].
    + rewrite filter_cons, IH. reflexivity.
    + rewrite IH. rewrite decide_False; [reflexivity |].
      intros H. apply Heq. intros E. apply Hother. congruence.
  - intros Hsecond. rewrite Hsecond in Hmenu, Hpage.
    split; [exact Hmenu |]. split; [exact Hpage |].
    intros Hmemo Hanswer.
    destruct (calculate_miss_answered (mi_id item) (world o') Hmemo Hanswer)
      as (w2 & -> & _).
    cbn [fst]. rewrite computed_cost_no_recipe by exact Hgone. reflexivity.
  - intros Hsecond. rewrite Hsecond in Hmenu, Hpage.
    split; [exact Hmenu | exact Hpage].
Qed.

(** The espresso of the cafe, when the store deletes its recipe and then
    refuses to delete the item: still on the menu, at cost 0. *)
Lemma menu_item_delete_is_not_atomic_witness :
  menu_items
    (render_menu_management_delete_item espresso
       (office_with cafe_menu (cafe_with [Answer; Throws]))).2 = cafe_menu
  /\ (calculate_menu_item_cost 1
        (world (render_menu_management_delete_item espresso
                  (office_with cafe_menu (cafe_with [Answer; Throws]))).2)).1
     = Return 0.
Proof.
  destruct (menu_item_delete_is_not_atomic espresso
              (office_with cafe_menu (cafe_with [Answer; Throws])) eq_refl)
    as (_ & _ & Hfail & _).
  destruct (Hfail eq_refl) as (Hmenu & _ & Hcost).
  split; [exact Hmenu |]. apply Hcost; reflexivity.
Defined.

End menu_page.
